(** * react-native-atoz-list: the windowing engine

    A shallow embedding of [FixedHeightWindowedListViewDataSource] (the
    geometry index and the window convergence step) and of the parts of
    [FixedHeightWindowedListView] that commit row windows (the constructor
    and [scrollToSectionBuffered]).

    Conventions of the embedding:
    - JavaScript numbers that hold row indices and pixel offsets are [Z];
    - a JavaScript object used as an ordered map (the data blob, [_lookup])
      is the association list of its own properties in the order of their
      creation, written and read through [Obj.set] and [Obj.get];
      [Obj.keys] and [Obj.values] enumerate it as JavaScript does, array
      indices first ([Obj.enumerate]); the properties every object
      inherits from [Object.prototype] are [Obj.inheritedKey], and a
      lookup by section id finds them;
    - the section ids a data source is built from are own keys: none is a
      property name of [Object.prototype] ([ownSectionIds]);
    - a cell payload is any type with a [Payload] instance, which tells
      whether the payload is an object with a truthy [sectionId] property;
    - pixel heights and offsets are whole numbers;
    - [undefined] is [None]; a thrown exception and a non-finite number are
      constructors of [outcome];
    - [console.warn] is recorded in a log that is returned with the value. *)

From Stdlib Require Import ZArith NArith List String Ascii Bool Lia.
From Stdlib Require Import Permutation Sorted.
Import ListNotations.
Open Scope string_scope.
Open Scope list_scope.
Open Scope Z_scope.

Set Implicit Arguments.

(** ** Outcomes of a JavaScript call *)

Inductive jsError : Type :=
| TypeError (msg : string)
| InvariantViolation (msg : string).

(** [Return a]: the call returned [a].  [NotFinite]: arithmetic produced
    [NaN] or an infinity.  [Throw e]: the call raised [e]. *)
Inductive outcome (A : Type) : Type :=
| Return (a : A)
| NotFinite
| Throw (e : jsError).

Arguments Return {A} a.
Arguments NotFinite {A}.
Arguments Throw {A} e.

Definition bind {A B : Type} (m : outcome A) (k : A -> outcome B) : outcome B :=
  match m with
  | Return a => k a
  | NotFinite => NotFinite
  | Throw e => Throw e
  end.

Notation "x <- m ;; k" := (bind m (fun x => k))
  (at level 61, m at next level, right associativity).

Definition throws {A : Type} (m : outcome A) : Prop := exists e, m = Throw e.

(** A value together with the lines written to the console. *)
Definition logged (A : Type) : Type := (A * list string)%type.

(** ** Objects as ordered maps *)

Module Obj.

Fixpoint get {V : Type} (o : list (string * V)) (k : string) : option V :=
  match o with
  | [] => None
  | (k', v) :: rest => if String.eqb k' k then Some v else get rest k
  end.

(** [o[k] = v]: an existing property keeps its place in the order of
    creation, a new one is created last. *)
Fixpoint set {V : Type} (o : list (string * V)) (k : string) (v : V)
  : list (string * V) :=
  match o with
  | [] => [(k, v)]
  | (k', v') :: rest =>
      if String.eqb k' k then (k', v) :: rest else (k', v') :: set rest k v
  end.

(** The own properties in the order of their creation. *)
Definition ownKeys {V : Type} (o : list (string * V)) : list string :=
  map fst o.

Definition ownValues {V : Type} (o : list (string * V)) : list V :=
  map snd o.

(** The property names of [Object.prototype]: [o[k]] is truthy for each of
    them (a function, or the prototype itself for [__proto__]) on every
    object literal, whether or not [k] is an own property of [o]. *)
Definition prototypeKeys : list string :=
  ["constructor"; "__defineGetter__"; "__defineSetter__"; "hasOwnProperty";
   "__lookupGetter__"; "__lookupSetter__"; "isPrototypeOf";
   "propertyIsEnumerable"; "toString"; "valueOf"; "__proto__";
   "toLocaleString"].

Definition inheritedKey (k : string) : bool :=
  existsb (String.eqb k) prototypeKeys.

Definition isDigit (c : ascii) : bool :=
  Nat.leb 48 (nat_of_ascii c) && Nat.leb (nat_of_ascii c) 57.

Fixpoint allDigits (k : string) : bool :=
  match k with
  | EmptyString => true
  | String c rest => isDigit c && allDigits rest
  end.

(** A key that is the decimal numeral of a non-negative integer (["0"],
    ["7"], ["10"], not ["07"]). *)
Definition isIntegerKey (k : string) : bool :=
  match k with
  | EmptyString => false
  | String c rest =>
      if Ascii.eqb c "0"%char then String.eqb rest EmptyString
      else isDigit c && allDigits rest
  end.

Fixpoint numeralValue (acc : N) (k : string) : N :=
  match k with
  | EmptyString => acc
  | String c rest =>
      numeralValue (10 * acc + (N.of_nat (nat_of_ascii c) - 48))%N rest
  end.

(** [Some n] when [k] is an array index, the numeral of an integer [n]
    below [2^32 - 1]. *)
Definition arrayIndex (k : string) : option N :=
  if isIntegerKey k then
    if N.leb (numeralValue 0 k) 4294967294 then Some (numeralValue 0 k)
    else None
  else None.

Definition isNamed {V : Type} (p : string * V) : bool :=
  match arrayIndex (fst p) with
  | Some _ => false
  | None => true
  end.

(** The properties whose keys are array indices, in ascending order. *)
Fixpoint insertIndexed {V : Type} (n : N) (p : string * V)
    (l : list (N * (string * V))) : list (N * (string * V)) :=
  match l with
  | [] => [(n, p)]
  | (m, q) :: rest =>
      if N.ltb n m then (n, p) :: (m, q) :: rest
      else (m, q) :: insertIndexed n p rest
  end.

Definition indexedEntries {V : Type} (o : list (string * V))
  : list (N * (string * V)) :=
  fold_left
    (fun acc p =>
       match arrayIndex (fst p) with
       | Some n => insertIndexed n p acc
       | None => acc
       end)
    o [].

(** Indexed entries in ascending order, each under the index of its
    key. *)
Definition ascending {V : Type} (l : list (N * (string * V))) : Prop :=
  StronglySorted (fun a b => (fst a <= fst b)%N) l /\
  Forall (fun e => arrayIndex (fst (snd e)) = Some (fst e)) l.

(** The order in which JavaScript enumerates the own properties of an
    object: the array indices in ascending order, then the other keys in
    the order of their creation. *)
Definition enumerate {V : Type} (o : list (string * V)) : list (string * V) :=
  map snd (indexedEntries o) ++ filter isNamed o.

(** [Object.keys(o)], and the values that [_.forEach(o, ...)] and
    [_.find(o, ...)] visit, in that order. *)
Definition keys {V : Type} (o : list (string * V)) : list string :=
  map fst (enumerate o).

Definition values {V : Type} (o : list (string * V)) : list V :=
  map snd (enumerate o).

End Obj.

(** [arr[arr.length - 1]] *)
Definition lastElement {A : Type} (l : list A) : option A :=
  match rev l with
  | [] => None
  | x :: _ => Some x
  end.

(** [arr[i]] for a JavaScript number [i] holding an integer. *)
Definition arrayGet {A : Type} (l : list A) (i : Z) : option A :=
  if i <? 0 then None else nth_error l (Z.to_nat i).

(** ** The data source *)

Inductive ScrollDirection : Type := down | up.

(** One entry of [_lookup]. *)
Record SectionEntry : Type := {
  count : Z;
  range : Z * Z;
  height : Z;
  startY : Z;
  endY : Z;
  cellHeight : Z;
  sectionHeaderHeight : Z;
  sectionId : string
}.

Record RenderOptions : Type := {
  scrollDirection : ScrollDirection;
  firstVisible : Z;
  lastVisible : Z;
  firstRendered : Z;
  lastRendered : Z;
  pageSize : Z;
  maxNumToRender : Z;
  numToRenderAhead : Z;
  numToRenderBehind : Z;
  totalRows : Z
}.

Record RowsToRender : Type := {
  firstRow : Z;
  lastRow : Z;
  targetFirstRow : Z;
  targetLastRow : Z
}.

(** [invariant(cond, msg)] of fbjs. *)
Definition invariant (cond : bool) (msg : string) : outcome unit :=
  if cond then Return tt else Throw (InvariantViolation msg).

(** [__computeFirstRow]; [lastRow] is absent from the options when the
    caller scrolls up. *)
Definition __computeFirstRow (lastRow : option Z) (numRendered : Z)
    (options : RenderOptions) : outcome (Z * Z) :=
  match scrollDirection options with
  | down =>
      match lastRow with
      | Some lastRow =>
          let firstRow :=
            Z.max 0
              (Z.max (firstVisible options - numToRenderBehind options)
                     (lastRow - maxNumToRender options)) in
          Return (firstRow, firstRow)
      | None => NotFinite
      end
  | up =>
      let targetFirstRow :=
        Z.max 0
          (firstVisible options - numToRenderAhead options
           + numToRenderBehind options) in
      let firstRow :=
        Z.max targetFirstRow (firstRendered options - pageSize options) in
      Return (firstRow, targetFirstRow)
  end.

(** [__computeLastRow]; [firstRow] is absent from the options when the
    caller scrolls down.  The result is [(lastRow, targetLastRow)]. *)
Definition __computeLastRow (firstRow : option Z) (numRendered : Z)
    (options : RenderOptions) : outcome (Z * Z) :=
  match scrollDirection options with
  | down =>
      let targetLastRow :=
        Z.min (totalRows options - 1)
          (Z.min (lastVisible options + numToRenderAhead options
                  - numToRenderBehind options)
                 (firstVisible options + numRendered
                  + numToRenderAhead options - numToRenderBehind options)) in
      let lastRow :=
        Z.min targetLastRow (lastRendered options + pageSize options) in
      Return (lastRow, targetLastRow)
  | up =>
      match firstRow with
      | Some firstRow =>
          let targetLastRow := lastRendered options in
          let numToBeRendered := lastRendered options - firstRow in
          if numToBeRendered >? maxNumToRender options then
            let l := targetLastRow - (numToBeRendered - maxNumToRender options) in
            Return (l, l)
          else Return (targetLastRow, targetLastRow)
      | None => NotFinite
      end
  end.

Definition computeRowsToRender (options : RenderOptions) : outcome RowsToRender :=
  _ <- invariant (numToRenderAhead options <? maxNumToRender options)
         "numToRenderAhead must be less than maxNumToRender" ;;
  let numRendered := lastRendered options - firstRendered options + 1 in
  match scrollDirection options with
  | down =>
      lastResult <- __computeLastRow None numRendered options ;;
      let lastRow := fst lastResult in
      let targetLastRow := snd lastResult in
      firstResult <- __computeFirstRow (Some lastRow) numRendered options ;;
      Return {| firstRow := fst firstResult; lastRow := lastRow;
                targetFirstRow := snd firstResult;
                targetLastRow := targetLastRow |}
  | up =>
      firstResult <- __computeFirstRow None numRendered options ;;
      let firstRow := fst firstResult in
      let targetFirstRow := snd firstResult in
      lastResult <- __computeLastRow (Some firstRow) numRendered options ;;
      Return {| firstRow := firstRow; lastRow := fst lastResult;
                targetFirstRow := targetFirstRow;
                targetLastRow := snd lastResult |}
  end.

(** A row of [_dataSource]: the [{ sectionId }] object pushed for a section
    header, or a cell payload taken from the data blob. *)
Inductive Row (cell : Type) : Type :=
| SectionHeaderRow (sectionId : string)
| CellRow (payload : cell).

Arguments SectionHeaderRow {cell} sectionId.
Arguments CellRow {cell} payload.

(** What [_.isObject(row) && row.sectionId] sees of a cell payload:
    [payloadSectionId c = Some k] when the payload is an object whose
    [sectionId] property is truthy and reads [k] as a property key,
    [None] otherwise. *)
Class Payload (cell : Type) : Type :=
  payloadSectionId : cell -> option string.

(** A string is not an object. *)
#[global] Instance stringPayload : Payload string := fun _ => None.

Record FixedHeightListViewDataSource (cell : Type) : Type := {
  _dataSource : list (Row cell);
  _lookup : list (string * SectionEntry);
  _getHeightForSectionHeader : string -> Z;
  _getHeightForCell : string -> Z
}.

Section DataSource.

Variable cell : Type.
Context {payload : Payload cell}.

Local Abbreviation DataSource := (FixedHeightListViewDataSource cell).

(** [constructor(params)] *)
Definition newDataSource (getHeightForSectionHeader getHeightForCell : string -> Z)
  : DataSource :=
  {| _dataSource := [];
     _lookup := [];
     _getHeightForSectionHeader := getHeightForSectionHeader;
     _getHeightForCell := getHeightForCell |}.

(** The callback of [_.forEach] in [getHeightBeforeRow]; [height'] is the
    running [height] of the caller. *)
Definition heightBeforeRowStep (i : Z) (height' : Z) (section : SectionEntry) : Z :=
  if (i >? fst (range section)) && (i <=? snd (range section)) then
    height' + sectionHeaderHeight section
    + ((i - 1) - fst (range section)) * cellHeight section
  else if fst (range section) <? i then
    height' + height section
  else height'.

Definition getHeightBeforeRow (this : DataSource) (i : Z) : Z :=
  fold_left (heightBeforeRowStep i) (Obj.values (_lookup this)) 0.

(** [!!this._lookup[sectionId]]: an own entry is an object, and a name
    inherited from [Object.prototype] reads a truthy value as well. *)
Definition hasSection (this : DataSource) (sectionId : string) : bool :=
  match Obj.get (_lookup this) sectionId with
  | Some _ => true
  | None => Obj.inheritedKey sectionId
  end.

(** The result is [(row, startY)].  For a name inherited from
    [Object.prototype] the value read has no [range], and [range[0]]
    raises. *)
Definition getFirstRowOfSection (this : DataSource) (sectionId : string)
  : outcome (Z * Z) :=
  match Obj.get (_lookup this) sectionId with
  | Some section => Return (fst (range section), startY section)
  | None =>
      if Obj.inheritedKey sectionId
      then Throw (TypeError "Cannot read property '0' of undefined")
      else Throw (TypeError "Cannot read property 'range' of undefined")
  end.

Definition getHeightBetweenRows (this : DataSource) (i ii : Z)
  : logged (outcome Z) :=
  let console := if ii <? i then ["provide the lower index first"] else [] in
  (Return (getHeightBeforeRow this ii - getHeightBeforeRow this (i + 1)), console).

Definition getTotalHeight (this : DataSource) : Z :=
  let keys := Obj.keys (_lookup this) in
  match lastElement keys with
  | Some key =>
      match Obj.get (_lookup this) key with
      | Some lastSection => endY lastSection
      | None => 0
      end
  | None => 0
  end.

Definition getRowCount (this : DataSource) : Z :=
  Z.of_nat (List.length (_dataSource this)).

(** [None] is [undefined]. *)
Definition getRowData (this : DataSource) (i : Z) : outcome (option (Row cell)) :=
  Return (arrayGet (_dataSource this) i).

Definition getRowAtHeight (this : DataSource) (scrollY : Z) : outcome Z :=
  if scrollY <? 0 then Return 0
  else if scrollY >? getTotalHeight this then
    Return (Z.max (getRowCount this - 1) 0)
  else
    match find (fun value => (scrollY >=? startY value) && (scrollY <=? endY value))
               (Obj.values (_lookup this)) with
    | None => Throw (TypeError "Cannot read property 'startY' of undefined")
    | Some parentSection =>
        let relativeY := scrollY - startY parentSection in
        if relativeY <=? sectionHeaderHeight parentSection then
          Return (fst (range parentSection))
        else if cellHeight parentSection =? 0 then NotFinite
        else
          let i := (relativeY - sectionHeaderHeight parentSection)
                   / cellHeight parentSection in
          Return (fst (range parentSection) + i)
    end.

Definition computeVisibleRows (this : DataSource) (scrollY viewportHeight : Z)
  : outcome (Z * Z) :=
  firstVisible <- getRowAtHeight this scrollY ;;
  r <- getRowAtHeight this (scrollY + viewportHeight) ;;
  let lastVisible := r + 1 in
  Return (firstVisible, lastVisible).

Definition getParentSection (this : DataSource) (i : Z) : option SectionEntry :=
  find (fun section => (i >=? fst (range section)) && (i <=? snd (range section)))
       (Obj.values (_lookup this)).

(** [None] is [undefined]: the value read for a name inherited from
    [Object.prototype] has no [sectionHeaderHeight]. *)
Definition getSectionHeaderHeight (this : DataSource) (sectionId : string)
  : outcome (option Z) :=
  match Obj.get (_lookup this) sectionId with
  | Some section => Return (Some (sectionHeaderHeight section))
  | None =>
      if Obj.inheritedKey sectionId then Return None
      else
        Throw (TypeError "Cannot read property 'sectionHeaderHeight' of undefined")
  end.

(** [None] is [undefined]: the function falls off its end when the row has
    no parent section. *)
Definition getCellHeight (this : DataSource) (i : Z) : option Z :=
  match getParentSection this i with
  | Some parentSection => Some (cellHeight parentSection)
  | None => None
  end.


(** [row && _.isObject(row) && row.sectionId]: the section id of a header
    row when it is a truthy (non-empty) string, and the [sectionId]
    property of a cell payload that has a truthy one. *)
Definition headerSectionId (row : option (Row cell)) : option string :=
  match row with
  | Some (SectionHeaderRow sectionId) =>
      if String.eqb sectionId "" then None else Some sectionId
  | Some (CellRow c) => payloadSectionId c
  | None => None
  end.

Definition getRowHeight (this : DataSource) (i : Z) : outcome (option Z) :=
  let row := arrayGet (_dataSource this) i in
  match headerSectionId row with
  | Some sectionId => getSectionHeaderHeight this sectionId
  | None => Return (getCellHeight this i)
  end.

Definition getHeightAfterRow (this : DataSource) (i : Z) : outcome Z :=
  rowHeight <- getRowHeight this i ;;
  match rowHeight with
  | Some rowHeight =>
      Return (getTotalHeight this - getHeightBeforeRow this i - rowHeight)
  | None => NotFinite
  end.

(** [arr.length] of a present section and the rows it contributes. *)
Definition sectionCells (dataBlob : list (string * list cell)) (sectionId : string)
  : list cell :=
  match Obj.get dataBlob sectionId with
  | Some cells => cells
  | None => []
  end.

Definition isPresent (dataBlob : list (string * list cell)) (sectionId : string)
  : bool :=
  match Obj.get dataBlob sectionId with
  | Some _ => true
  | None => false
  end.

(** The first [forEach] of [cloneWithCellsAndSections]: the flattened
    rows. *)
Definition flattenRows (dataBlob : list (string * list cell))
    (sectionIds : list string) : list (Row cell) :=
  fold_left
    (fun dataSource sectionId =>
       match Obj.get dataBlob sectionId with
       | Some cells =>
           dataSource ++ SectionHeaderRow sectionId :: map CellRow cells
       | None => dataSource
       end)
    sectionIds [].

(** The state of the [reduce]: the result object and the two variables the
    callback updates, [lastRow] and [cumulativeHeight]. *)
Definition reduceSection (this : DataSource) (dataBlob : list (string * list cell))
    (acc : list (string * SectionEntry) * Z * Z) (sectionId : string)
  : list (string * SectionEntry) * Z * Z :=
  let '(result, lastRow, cumulativeHeight) := acc in
  let sectionHeaderHeight := _getHeightForSectionHeader this sectionId in
  let cellHeight := _getHeightForCell this sectionId in
  let count := Z.of_nat (List.length (sectionCells dataBlob sectionId)) in
  let sectionHeight := sectionHeaderHeight + cellHeight * count in
  (Obj.set result sectionId
     {| count := count + 1;
        range := (lastRow + 1, lastRow + 1 + count);
        height := sectionHeight;
        startY := cumulativeHeight;
        endY := cumulativeHeight + sectionHeight;
        cellHeight := cellHeight;
        sectionHeaderHeight := sectionHeaderHeight;
        sectionId := sectionId |},
   lastRow + 1 + count,
   cumulativeHeight + sectionHeight).

(** [sectionIds = None] is the omitted argument, which defaults to
    [Object.keys(dataBlob)]. *)
Definition cloneWithCellsAndSections (this : DataSource)
    (dataBlob : list (string * list cell)) (sectionIds : option (list string))
  : DataSource :=
  let sectionIds :=
    match sectionIds with
    | Some ids => ids
    | None => Obj.keys dataBlob
    end in
  let sectionIdsPresent := filter (isPresent dataBlob) sectionIds in
  {| _dataSource := flattenRows dataBlob sectionIds;
     _lookup :=
       fst (fst (fold_left (reduceSection this dataBlob) sectionIdsPresent
                           ([], -1, 0)));
     _getHeightForSectionHeader := _getHeightForSectionHeader this;
     _getHeightForCell := _getHeightForCell this |}.

End DataSource.

(** ** The example data set: sections A (3 cells) and B (2 cells), header
    height 20, cell height 50. *)

Definition exampleBlob : list (string * list string) :=
  [("A", ["A0"; "A1"; "A2"]); ("B", ["B0"; "B1"])].

Definition exampleDataSource : FixedHeightListViewDataSource string :=
  cloneWithCellsAndSections
    (newDataSource string (fun _ => 20) (fun _ => 50)) exampleBlob None.


(** ** The list view: the parts that commit row windows *)

Module ListView.

Record Props (cell : Type) : Type := {
  dataSource : FixedHeightListViewDataSource cell;
  incrementDelay : Z;
  initialNumToRender : Z;
  maxNumToRender : Z;
  numToRenderAhead : Z;
  numToRenderBehind : Z;
  pageSize : Z
}.

(** [this.state]; [None] is [null]. *)
Record State : Type := {
  firstRow : Z;
  lastRow : Z;
  bufferFirstRow : option Z;
  bufferLastRow : option Z
}.

(** The component instance: its props, its state and its own fields. *)
Record Component (cell : Type) : Type := {
  props : Props cell;
  state : State;
  scrollOffsetY : Z;
  height : Z;
  willComputeRowsToRender : bool;
  nextSectionToScrollTo : option string;
  scrollDirection : ScrollDirection;
  isScrollingToSection : bool
}.

(** What a method asks of the host, in the order it asks. *)
Inductive Effect : Type :=
| ClearTimeout
| ScrollTo (y : Z) (animated : bool)
| WhenCommitted (windowFirstRow windowLastRow : Z).

(** [FixedHeightWindowedListView.defaultProps] *)
Definition defaultProps {cell : Type} (dataSource : FixedHeightListViewDataSource cell)
  : Props cell :=
  {| dataSource := dataSource;
     incrementDelay := 17;
     initialNumToRender := 1;
     maxNumToRender := 20;
     numToRenderAhead := 4;
     numToRenderBehind := 2;
     pageSize := 5 |}.

Definition constructor {cell : Type} (props : Props cell) : outcome (Component cell) :=
  _ <- invariant (numToRenderAhead props <? maxNumToRender props)
         "FixedHeightWindowedListView: numToRenderAhead must be less than maxNumToRender" ;;
  _ <- invariant (numToRenderBehind props <? maxNumToRender props)
         "FixedHeightWindowedListView: numToRenderBehind must be less than maxNumToRender" ;;
  Return
    {| props := props;
       state :=
         {| firstRow := 0;
            lastRow := Z.min (getRowCount (dataSource props) - 1)
                             (initialNumToRender props);
            bufferFirstRow := None;
            bufferLastRow := None |};
       scrollOffsetY := 0;
       height := 0;
       willComputeRowsToRender := false;
       nextSectionToScrollTo := None;
       scrollDirection := down;
       isScrollingToSection := false |}.

(** [scrollToSectionBuffered], up to the call of [scrollTo]: the buffer is
    set with [setState], whose callback ([WhenCommitted]) later moves the
    main window onto the buffer. *)
Definition scrollToSectionBuffered {cell : Type} (this : Component cell)
    (sectionId : string) : outcome (Component cell * list Effect) :=
  if negb (isScrollingToSection this)
     && hasSection (dataSource (props this)) sectionId then
    first <- getFirstRowOfSection (dataSource (props this)) sectionId ;;
    let row := fst first in
    let startY := snd first in
    let initialNumToRender := initialNumToRender (props this) in
    let totalRows := getRowCount (dataSource (props this)) in
    let lastRow := totalRows - 1 in
    let windowLastRow := Z.min lastRow (row + initialNumToRender) in
    let windowFirstRow :=
      if windowLastRow - lastRow =? 0
      then Z.max 0 (windowLastRow - initialNumToRender)
      else row in
    Return
      ({| props := props this;
          state :=
            {| firstRow := firstRow (state this);
               lastRow := ListView.lastRow (state this);
               bufferFirstRow := Some windowFirstRow;
               bufferLastRow := Some windowLastRow |};
          scrollOffsetY := scrollOffsetY this;
          height := height this;
          willComputeRowsToRender := false;
          nextSectionToScrollTo := nextSectionToScrollTo this;
          scrollDirection := scrollDirection this;
          isScrollingToSection := true |},
       [ClearTimeout; WhenCommitted windowFirstRow windowLastRow;
        ScrollTo startY false])
  else
    Return
      ({| props := props this;
          state := state this;
          scrollOffsetY := scrollOffsetY this;
          height := height this;
          willComputeRowsToRender := willComputeRowsToRender this;
          nextSectionToScrollTo := Some sectionId;
          scrollDirection := scrollDirection this;
          isScrollingToSection := isScrollingToSection this |},
       []).

(** The number of rows of an inclusive window. *)
Definition windowSize (first last : Z) : Z := last - first + 1.

End ListView.


(** ** Inputs and predicates used by the statements *)

(** The preconditions of a recompute step: the configuration precondition,
    a valid rendered window within the budget, a valid visible range and a
    non-empty list; budgets are non-negative and the page size positive. *)
Definition validRecomputeInput (o : RenderOptions) : Prop :=
  numToRenderAhead o < maxNumToRender o /\
  numToRenderBehind o < maxNumToRender o /\
  0 <= numToRenderAhead o /\ 0 <= numToRenderBehind o /\ 0 < pageSize o /\
  0 <= firstRendered o /\ firstRendered o <= lastRendered o + 1 /\
  lastRendered o + 1 <= totalRows o /\
  lastRendered o - firstRendered o + 1 <= maxNumToRender o /\
  0 <= firstVisible o /\ firstVisible o <= lastVisible o /\
  lastVisible o <= totalRows o - 1 /\
  0 < totalRows o.

(** The default budgets on a list of 100 rows. *)
Definition defaultOptions (direction : ScrollDirection)
    (firstVisible lastVisible firstRendered lastRendered : Z) : RenderOptions :=
  {| scrollDirection := direction;
     firstVisible := firstVisible;
     lastVisible := lastVisible;
     firstRendered := firstRendered;
     lastRendered := lastRendered;
     pageSize := 5;
     maxNumToRender := 20;
     numToRenderAhead := 4;
     numToRenderBehind := 2;
     totalRows := 100 |}.

(** One tick of the convergence loop with the visible range held fixed:
    the window returned by [computeRowsToRender] becomes the rendered one,
    as [__computeRowsToRenderSync] commits it with [setState]. *)
Definition tick (o : RenderOptions) : outcome RenderOptions :=
  r <- computeRowsToRender o ;;
  Return {| scrollDirection := scrollDirection o;
            firstVisible := firstVisible o;
            lastVisible := lastVisible o;
            firstRendered := firstRow r;
            lastRendered := lastRow r;
            pageSize := pageSize o;
            maxNumToRender := maxNumToRender o;
            numToRenderAhead := numToRenderAhead o;
            numToRenderBehind := numToRenderBehind o;
            totalRows := totalRows o |}.

Fixpoint ticks (n : nat) (o : RenderOptions) : outcome RenderOptions :=
  match n with
  | O => Return o
  | S n => o' <- tick o ;; ticks n o'
  end.

(** The recompute step of the specification's example. *)
Definition exampleOptions : RenderOptions := defaultOptions down 8 10 0 10.

(** Pixel heights: no header and no cell has a negative height. *)
Definition pixelHeights {cell : Type} (this : FixedHeightListViewDataSource cell)
  : Prop :=
  forall sectionId,
    0 <= _getHeightForSectionHeader this sectionId /\
    0 <= _getHeightForCell this sectionId.

(** The section ids [cloneWithCellsAndSections] iterates over. *)
Definition effectiveSectionIds {cell : Type} (dataBlob : list (string * list cell))
    (sectionIds : option (list string)) : list string :=
  match sectionIds with
  | Some ids => ids
  | None => Obj.keys dataBlob
  end.

(** The entries of [_lookup] for a list of distinct present sections, the
    first one starting after row [lastRow] at offset [cumulativeHeight]. *)
Fixpoint layout {cell : Type} (this : FixedHeightListViewDataSource cell)
    (dataBlob : list (string * list cell)) (lastRow cumulativeHeight : Z)
    (sectionIds : list string) : list (string * SectionEntry) :=
  match sectionIds with
  | [] => []
  | sectionId :: rest =>
      let n := Z.of_nat (List.length (sectionCells dataBlob sectionId)) in
      let h := _getHeightForSectionHeader this sectionId
               + _getHeightForCell this sectionId * n in
      (sectionId,
       {| count := n + 1;
          range := (lastRow + 1, lastRow + 1 + n);
          height := h;
          startY := cumulativeHeight;
          endY := cumulativeHeight + h;
          cellHeight := _getHeightForCell this sectionId;
          sectionHeaderHeight := _getHeightForSectionHeader this sectionId;
          sectionId := sectionId |})
      :: layout this dataBlob (lastRow + 1 + n) (cumulativeHeight + h) rest
  end.

(** Section entries whose row ranges follow one another from row [row]:
    each has a header row and [count - 1] cells. *)
Fixpoint chainedRows (row : Z) (sections : list SectionEntry) : Prop :=
  match sections with
  | [] => True
  | s :: rest =>
      fst (range s) = row /\
      snd (range s) = row + (count s - 1) /\
      1 <= count s /\
      chainedRows (snd (range s) + 1) rest
  end.

(** Section entries whose pixel intervals follow one another from offset
    [y], with heights that are not negative. *)
Fixpoint chainedOffsets (y : Z) (sections : list SectionEntry) : Prop :=
  match sections with
  | [] => True
  | s :: rest =>
      startY s = y /\
      endY s = y + height s /\
      height s = sectionHeaderHeight s + cellHeight s * (count s - 1) /\
      1 <= count s /\
      0 <= sectionHeaderHeight s /\
      0 <= cellHeight s /\
      chainedOffsets (endY s) rest
  end.

(** The offset at which a chain of sections that starts at [y] ends. *)
Definition finalY (y : Z) (sections : list SectionEntry) : Z :=
  fold_left (fun _ s => endY s) sections y.

(** The predicates of the two scans of [_lookup]. *)
Definition containsOffset (scrollY : Z) (value : SectionEntry) : bool :=
  (scrollY >=? startY value) && (scrollY <=? endY value).

Definition containsRow (i : Z) (section : SectionEntry) : bool :=
  (i >=? fst (range section)) && (i <=? snd (range section)).

(** The rows one section id contributes to [_dataSource]. *)
Definition rowsOfSection {cell : Type} (dataBlob : list (string * list cell))
    (sectionId : string) : list (Row cell) :=
  match Obj.get dataBlob sectionId with
  | Some cells => SectionHeaderRow sectionId :: map CellRow cells
  | None => []
  end.

Definition sumCounts (sections : list SectionEntry) : Z :=
  fold_right (fun s n => count s + n) 0 sections.

(** The rows of a data source are well formed when the keys of [_lookup]
    are distinct, its row ranges follow one another from row 0 and cover
    [_dataSource]; its offsets are well formed when the pixel intervals
    follow one another from offset 0. *)
Definition rowsWellFormed {cell : Type} (this : FixedHeightListViewDataSource cell)
  : Prop :=
  NoDup (Obj.ownKeys (_lookup this)) /\
  chainedRows 0 (Obj.ownValues (_lookup this)) /\
  getRowCount this = sumCounts (Obj.ownValues (_lookup this)).

Definition offsetsWellFormed {cell : Type} (this : FixedHeightListViewDataSource cell)
  : Prop :=
  chainedOffsets 0 (Obj.ownValues (_lookup this)).

(** ** Further functions of the data source *)

(** [None] is [undefined], as in [getSectionHeaderHeight]. *)
Definition getHeightOfSection {cell : Type} (this : FixedHeightListViewDataSource cell)
    (sectionId : string) : outcome (option Z) :=
  match Obj.get (_lookup this) sectionId with
  | Some section => Return (Some (height section))
  | None =>
      if Obj.inheritedKey sectionId then Return None
      else Throw (TypeError "Cannot read property 'height' of undefined")
  end.

(** [getSectionLengths]: [_.forEach] pushes the [count] of every entry. *)
Definition getSectionLengths {cell : Type} (this : FixedHeightListViewDataSource cell)
  : list Z :=
  fold_left (fun result value => result ++ [count value])
            (Obj.values (_lookup this)) [].

(** Section entries whose pixel intervals follow one another from offset
    [y], whatever the sign of the heights. *)
Fixpoint chainedPixels (y : Z) (sections : list SectionEntry) : Prop :=
  match sections with
  | [] => True
  | s :: rest =>
      startY s = y /\
      endY s = y + height s /\
      height s = sectionHeaderHeight s + cellHeight s * (count s - 1) /\
      chainedPixels (endY s) rest
  end.

(** The entry of section [sid] carries the heights the callbacks give
    and counts the cells of the blob and the header. *)
Definition entryOf {cell : Type} (this : FixedHeightListViewDataSource cell)
    (dataBlob : list (string * list cell)) (sid : string)
    (s : SectionEntry) : Prop :=
  sectionId s = sid /\
  sectionHeaderHeight s = _getHeightForSectionHeader this sid /\
  cellHeight s = _getHeightForCell this sid /\
  count s = Z.of_nat (List.length (sectionCells dataBlob sid)) + 1.

(** The section ids that have an entry in the blob, in iteration order. *)
Definition presentSectionIds {cell : Type} (dataBlob : list (string * list cell))
    (sectionIds : option (list string)) : list string :=
  filter (isPresent dataBlob) (effectiveSectionIds dataBlob sectionIds).

Definition sumZ (l : list Z) : Z := fold_right Z.add 0 l.

(** Pixel heights that are positive. *)
Definition positiveHeights {cell : Type} (this : FixedHeightListViewDataSource cell)
  : Prop :=
  forall sectionId,
    0 < _getHeightForSectionHeader this sectionId /\
    0 < _getHeightForCell this sectionId.

(** ** Conditions on section ids and cell payloads *)

(** No section id is a property name of [Object.prototype]: read from the
    data blob, such a name finds a function where the cells are expected,
    and [__proto__] written to [_lookup] replaces its prototype instead of
    adding an entry. *)
Definition ownSectionIds (sectionIds : list string) : bool :=
  forallb (fun sectionId => negb (Obj.inheritedKey sectionId)) sectionIds.

(** The order in which JavaScript enumerates keys that were created in
    the order of the list. *)
Definition enumerationOrder (keys : list string) : list string :=
  Obj.keys (map (fun key => (key, tt)) keys).

(** The sections are listed in the order in which JavaScript enumerates
    their ids as keys, so that [_lookup] is enumerated in the order in
    which [cloneWithCellsAndSections] creates its entries.  It is not so
    when a section id is an array index listed after an id that is not
    one, or after a larger index. *)
Definition enumeratedAsListed {cell : Type} (dataBlob : list (string * list cell))
    (sectionIds : option (list string)) : Prop :=
  enumerationOrder (presentSectionIds dataBlob sectionIds)
  = presentSectionIds dataBlob sectionIds.

(** A payload that [getRowHeight] does not take for a section header. *)
Definition isPlainCell {cell : Type} {payload : Payload cell} (c : cell) : bool :=
  match payloadSectionId c with
  | Some _ => false
  | None => true
  end.

(** No cell of the blob is an object with a truthy [sectionId] property. *)
Definition plainCells {cell : Type} {payload : Payload cell}
    (dataBlob : list (string * list cell)) : bool :=
  forallb (fun entry => forallb isPlainCell (snd entry)) dataBlob.

(** A cell payload that is an object: [tag = Some k] is a truthy
    [sectionId] property, [tag = None] an object without one. *)
Record TaggedCell : Type := {
  label : string;
  tag : option string
}.

#[global] Instance taggedPayload : Payload TaggedCell := tag.

(** ** The convergence loop *)

(** [lastRow !== targetLastRow || firstRow !== targetFirstRow]: the test
    after which [__computeRowsToRenderSync] enqueues another tick. *)
Definition needsAnotherTick (r : RowsToRender) : bool :=
  negb (lastRow r =? targetLastRow r) || negb (firstRow r =? targetFirstRow r).

(** The options of the next tick once the window [r] is committed. *)
Definition commitWindow (o : RenderOptions) (r : RowsToRender) : RenderOptions :=
  {| scrollDirection := scrollDirection o;
     firstVisible := firstVisible o;
     lastVisible := lastVisible o;
     firstRendered := firstRow r;
     lastRendered := lastRow r;
     pageSize := pageSize o;
     maxNumToRender := maxNumToRender o;
     numToRenderAhead := numToRenderAhead o;
     numToRenderBehind := numToRenderBehind o;
     totalRows := totalRows o |}.

(** Ticks are run, with the visible range held fixed, until one returns its
    target or the fuel runs out; the result is the number of ticks run and
    the last window. *)
Fixpoint convergenceLoop (fuel : nat) (o : RenderOptions)
  : outcome (option (nat * RowsToRender)) :=
  match fuel with
  | O => Return None
  | S fuel =>
      r <- computeRowsToRender o ;;
      if needsAnotherTick r then
        rest <- convergenceLoop fuel (commitWindow o r) ;;
        Return (match rest with
                | Some (n, r') => Some (S n, r')
                | None => None
                end)
      else Return (Some (1%nat, r))
  end.

(** The distance the leading edge can still travel. *)
Definition ticksBound (o : RenderOptions) : nat :=
  match scrollDirection o with
  | down => Z.to_nat (totalRows o - 1 - lastRendered o)
  | up => Z.to_nat (firstRendered o)
  end.

(** ** The list view: scrolling, scheduling and spacers *)

Module Scheduling.

(** Props the component reads besides those of [ListView.Props]:
    [this.props.bufferFirstRow] ([None] when absent),
    [this.props.isTouchingSectionPicker] and whether [onEndReached] is
    given. *)
Record HostProps : Type := {
  bufferFirstRow : option Z;
  isTouchingSectionPicker : bool;
  onEndReached : bool
}.

(** [e.nativeEvent] of a scroll event. *)
Record ScrollEvent : Type := {
  contentOffsetY : Z;
  layoutMeasurementHeight : Z;
  contentSizeHeight : Z
}.

(** What a method asks of the host, in the order it asks. *)
Inductive Request : Type :=
| ClearTimeout
| SetTimeout (delay : Z)
| RequestAnimationFrame
| EndReached.

Definition withLatch {cell : Type} (this : ListView.Component cell) (latch : bool)
  : ListView.Component cell :=
  {| ListView.props := ListView.props this;
     ListView.state := ListView.state this;
     ListView.scrollOffsetY := ListView.scrollOffsetY this;
     ListView.height := ListView.height this;
     ListView.willComputeRowsToRender := latch;
     ListView.nextSectionToScrollTo := ListView.nextSectionToScrollTo this;
     ListView.scrollDirection := ListView.scrollDirection this;
     ListView.isScrollingToSection := ListView.isScrollingToSection this |}.

(** [this.setState({firstRow, lastRow})] *)
Definition withWindow {cell : Type} (this : ListView.Component cell)
    (firstRow lastRow : Z) : ListView.Component cell :=
  {| ListView.props := ListView.props this;
     ListView.state :=
       {| ListView.firstRow := firstRow;
          ListView.lastRow := lastRow;
          ListView.bufferFirstRow := ListView.bufferFirstRow (ListView.state this);
          ListView.bufferLastRow := ListView.bufferLastRow (ListView.state this) |};
     ListView.scrollOffsetY := ListView.scrollOffsetY this;
     ListView.height := ListView.height this;
     ListView.willComputeRowsToRender := ListView.willComputeRowsToRender this;
     ListView.nextSectionToScrollTo := ListView.nextSectionToScrollTo this;
     ListView.scrollDirection := ListView.scrollDirection this;
     ListView.isScrollingToSection := ListView.isScrollingToSection this |}.

(** [__getScrollDirection], on the two offsets it compares. *)
Definition __getScrollDirection (scrollOffsetY prevScrollOffsetY : Z)
  : ScrollDirection :=
  if scrollOffsetY - prevScrollOffsetY >=? 0 then down else up.

Definition __clearEnqueuedComputation {cell : Type} (this : ListView.Component cell)
  : ListView.Component cell * list Request :=
  (withLatch this false, [ClearTimeout]).

Definition __enqueueComputeRowsToRender {cell : Type}
    (this : ListView.Component cell) : ListView.Component cell * list Request :=
  if negb (ListView.willComputeRowsToRender this) then
    (withLatch this true,
     [ClearTimeout; SetTimeout (ListView.incrementDelay (ListView.props this))])
  else (this, []).

(** [__onScroll]; [windowHeight] is [Dimensions.get('window').height]. *)
Definition __onScroll {cell : Type} (host : HostProps) (windowHeight : Z)
    (this : ListView.Component cell) (e : ScrollEvent)
  : ListView.Component cell * list Request :=
  let prevScrollOffsetY := ListView.scrollOffsetY this in
  let scrolled :=
    {| ListView.props := ListView.props this;
       ListView.state := ListView.state this;
       ListView.scrollOffsetY := contentOffsetY e;
       ListView.height := layoutMeasurementHeight e;
       ListView.willComputeRowsToRender := ListView.willComputeRowsToRender this;
       ListView.nextSectionToScrollTo := ListView.nextSectionToScrollTo this;
       ListView.scrollDirection :=
         __getScrollDirection (contentOffsetY e) prevScrollOffsetY;
       ListView.isScrollingToSection := ListView.isScrollingToSection this |} in
  let enqueued := __enqueueComputeRowsToRender scrolled in
  (fst enqueued,
   snd enqueued
   ++ (if onEndReached host
          && (windowHeight + contentOffsetY e >=? contentSizeHeight e)
       then [EndReached] else [])).

(** [__computeRowsToRenderSync(props, forceUpdate)]: the data source, the
    check of [numToRenderAhead] and the rendered window come from [this],
    the budgets from the argument [props]. *)
Definition __computeRowsToRenderSync {cell : Type} (host : HostProps)
    (this : ListView.Component cell) (props : ListView.Props cell)
    (forceUpdate : bool) : outcome (ListView.Component cell * list Request) :=
  if match bufferFirstRow host with
     | Some b => (b =? 0) || (b >? 0)
     | None => false
     end || ListView.isScrollingToSection this
  then Return (this, [RequestAnimationFrame])
  else
    let dataSource := ListView.dataSource (ListView.props this) in
    let totalRows := getRowCount dataSource in
    if totalRows =? 0 then Return (withWindow this 0 (-1), [])
    else if ListView.numToRenderAhead (ListView.props this) =? 0
    then Return (this, [])
    else
      visible <- computeVisibleRows dataSource (ListView.scrollOffsetY this)
                   (ListView.height this) ;;
      let firstVisible := fst visible in
      let lastVisible := snd visible in
      if (lastVisible >=? totalRows - 1) && negb forceUpdate
      then Return (this, [])
      else
        let direction :=
          if isTouchingSectionPicker host then down
          else ListView.scrollDirection this in
        r <- computeRowsToRender
               {| scrollDirection := direction;
                  firstVisible := firstVisible;
                  lastVisible := lastVisible;
                  firstRendered := ListView.firstRow (ListView.state this);
                  lastRendered := ListView.lastRow (ListView.state this);
                  pageSize := ListView.pageSize props;
                  maxNumToRender := ListView.maxNumToRender props;
                  numToRenderAhead := ListView.numToRenderAhead props;
                  numToRenderBehind := ListView.numToRenderBehind props;
                  totalRows := totalRows |} ;;
        let committed := withWindow this (firstRow r) (lastRow r) in
        if needsAnotherTick r
        then Return (__enqueueComputeRowsToRender committed)
        else Return (committed, []).

(** The callback of the timer set by [__enqueueComputeRowsToRender]. *)
Definition timerFired {cell : Type} (host : HostProps)
    (this : ListView.Component cell)
  : outcome (ListView.Component cell * list Request) :=
  __computeRowsToRenderSync host (withLatch this false) (ListView.props this) false.

(** The values [__calculateSpacers] returns; [spacerBottomHeight = None] is
    [NaN] and [spacerMidHeight = None] is [undefined]. *)
Record Spacers : Type := {
  spacerTopHeight : Z;
  spacerBottomHeight : option Z;
  spacerMidHeight : option Z
}.

(** [null] in arithmetic is 0. *)
Definition nullAsZero (v : option Z) : Z :=
  match v with
  | Some z => z
  | None => 0
  end.

(** [__calculateSpacers], with the lines the calls of
    [getHeightBetweenRows] write to the console. *)
Definition __calculateSpacers {cell : Type} {payload : Payload cell}
    (this : ListView.Component cell) : outcome (logged Spacers) :=
  let dataSource := ListView.dataSource (ListView.props this) in
  let bufferFirstRow := ListView.bufferFirstRow (ListView.state this) in
  let bufferLastRow := nullAsZero (ListView.bufferLastRow (ListView.state this)) in
  let firstRow := ListView.firstRow (ListView.state this) in
  let lastRow := ListView.lastRow (ListView.state this) in
  let spacerTopHeight := getHeightBeforeRow dataSource firstRow in
  match getHeightAfterRow dataSource lastRow with
  | Throw e => Throw e
  | after =>
      let spacerBottomHeight :=
        match after with
        | Return h => Some h
        | _ => None
        end in
      match bufferFirstRow with
      | Some bufferFirstRow =>
          if bufferFirstRow <? firstRow then
            let mid := getHeightBetweenRows dataSource bufferLastRow firstRow in
            let buffer := getHeightBetweenRows dataSource (bufferFirstRow - 1)
                                               (bufferLastRow + 1) in
            m <- fst mid ;;
            b <- fst buffer ;;
            Return ({| spacerTopHeight := spacerTopHeight - (m + b);
                       spacerBottomHeight := spacerBottomHeight;
                       spacerMidHeight := Some m |},
                    snd mid ++ snd buffer)
          else if bufferFirstRow >? lastRow then
            let mid := getHeightBetweenRows dataSource lastRow bufferFirstRow in
            m <- fst mid ;;
            Return ({| spacerTopHeight := spacerTopHeight;
                       spacerBottomHeight :=
                         match spacerBottomHeight with
                         | Some h => Some (h - m)
                         | None => None
                         end;
                       spacerMidHeight := Some m |},
                    snd mid)
          else
            Return ({| spacerTopHeight := spacerTopHeight;
                       spacerBottomHeight := spacerBottomHeight;
                       spacerMidHeight := None |}, [])
      | None =>
          Return ({| spacerTopHeight := spacerTopHeight;
                     spacerBottomHeight := spacerBottomHeight;
                     spacerMidHeight := None |}, [])
      end
  end.

(** The rendered window lies inside the list. *)
Definition windowInList {cell : Type} (this : ListView.Component cell) : Prop :=
  0 <= ListView.firstRow (ListView.state this) /\
  ListView.lastRow (ListView.state this)
    <= getRowCount (ListView.dataSource (ListView.props this)) - 1.

End Scheduling.

(** The component the constructor returns for the example data set with
    the default props, and a host that passes no further props. *)
Definition exampleComponent : ListView.Component string :=
  {| ListView.props := ListView.defaultProps exampleDataSource;
     ListView.state :=
       {| ListView.firstRow := 0;
          ListView.lastRow := 1;
          ListView.bufferFirstRow := None;
          ListView.bufferLastRow := None |};
     ListView.scrollOffsetY := 0;
     ListView.height := 0;
     ListView.willComputeRowsToRender := false;
     ListView.nextSectionToScrollTo := None;
     ListView.scrollDirection := down;
     ListView.isScrollingToSection := false |}.

Definition plainHost : Scheduling.HostProps :=
  {| Scheduling.bufferFirstRow := None;
     Scheduling.isTouchingSectionPicker := false;
     Scheduling.onEndReached := false |}.

(** The example component during a jump to section B, and a component on
    an empty list. *)
Definition jumpingComponent : ListView.Component string :=
  {| ListView.props := ListView.defaultProps exampleDataSource;
     ListView.state :=
       {| ListView.firstRow := 0;
          ListView.lastRow := 1;
          ListView.bufferFirstRow := Some 4;
          ListView.bufferLastRow := Some 5 |};
     ListView.scrollOffsetY := 0;
     ListView.height := 0;
     ListView.willComputeRowsToRender := false;
     ListView.nextSectionToScrollTo := None;
     ListView.scrollDirection := down;
     ListView.isScrollingToSection := true |}.

Definition emptyComponent : ListView.Component string :=
  {| ListView.props :=
       ListView.defaultProps
         (cloneWithCellsAndSections
            (newDataSource string (fun _ => 20) (fun _ => 50)) [] None);
     ListView.state :=
       {| ListView.firstRow := 0;
          ListView.lastRow := -1;
          ListView.bufferFirstRow := None;
          ListView.bufferLastRow := None |};
     ListView.scrollOffsetY := 0;
     ListView.height := 0;
     ListView.willComputeRowsToRender := false;
     ListView.nextSectionToScrollTo := None;
     ListView.scrollDirection := down;
     ListView.isScrollingToSection := false |}.


(** ** The end of a jump *)

Module Jump.

(** The callback of the [setState] that set the buffer (run one animation
    frame later on Android): the main window takes the place of the buffer
    and the buffer is cleared; then a remembered section is jumped to after
    an animation frame, or tracking resumes after 100 ms. *)
Definition whenCommitted {cell : Type} (this : ListView.Component cell)
    (windowFirstRow windowLastRow : Z)
  : ListView.Component cell * list Scheduling.Request :=
  ({| ListView.props := ListView.props this;
      ListView.state :=
        {| ListView.firstRow := windowFirstRow;
           ListView.lastRow := windowLastRow;
           ListView.bufferFirstRow := None;
           ListView.bufferLastRow := None |};
      ListView.scrollOffsetY := ListView.scrollOffsetY this;
      ListView.height := ListView.height this;
      ListView.willComputeRowsToRender := ListView.willComputeRowsToRender this;
      ListView.nextSectionToScrollTo := ListView.nextSectionToScrollTo this;
      ListView.scrollDirection := ListView.scrollDirection this;
      ListView.isScrollingToSection := ListView.isScrollingToSection this |},
   match ListView.nextSectionToScrollTo this with
   | Some _ => [Scheduling.RequestAnimationFrame]
   | None => [Scheduling.SetTimeout 100]
   end).

(** The callback of the 100 ms timer: the jump is over, the pending
    computation is cleared and one is enqueued. *)
Definition settled {cell : Type} (this : ListView.Component cell)
  : ListView.Component cell * list Scheduling.Request :=
  let idle :=
    {| ListView.props := ListView.props this;
       ListView.state := ListView.state this;
       ListView.scrollOffsetY := ListView.scrollOffsetY this;
       ListView.height := ListView.height this;
       ListView.willComputeRowsToRender := ListView.willComputeRowsToRender this;
       ListView.nextSectionToScrollTo := ListView.nextSectionToScrollTo this;
       ListView.scrollDirection := ListView.scrollDirection this;
       ListView.isScrollingToSection := false |} in
  let cleared := Scheduling.__clearEnqueuedComputation idle in
  let enqueued := Scheduling.__enqueueComputeRowsToRender (fst cleared) in
  (fst enqueued, snd cleared ++ snd enqueued).

End Jump.

(** ** AtoZList *)

Module AtoZList.

Record Props (cell : Type) : Type := {
  sectionHeaderHeight : Z;
  cellHeight : Z;
  data : list (string * list cell)
}.

Record State (cell : Type) : Type := {
  dataSource : FixedHeightListViewDataSource cell;
  alphabet : list string
}.

(** [value || fallback] on numbers. *)
Definition orDefault (value fallback : Z) : Z :=
  if value =? 0 then fallback else value.

Definition constructor {cell : Type} (props : Props cell) : State cell :=
  let sectionHeight := orDefault (sectionHeaderHeight props) 35 in
  let cellHeight := orDefault (cellHeight props) 95 in
  let dataSource :=
    newDataSource cell (fun _ => sectionHeight) (fun _ => cellHeight) in
  {| dataSource := cloneWithCellsAndSections dataSource (data props) None;
     alphabet := Obj.keys (data props) |}.

End AtoZList.

Unset Implicit Arguments.

(** * The window convergence step *)

Lemma invariant_true (cond : bool) (msg : string) :
  cond = true -> invariant cond msg = Return tt.
Proof. intros ->. reflexivity. Qed.

(** Scrolling down, the step is the two closed formulas of the source. *)
Lemma computeRowsToRender_down (o : RenderOptions) :
  scrollDirection o = down ->
  numToRenderAhead o < maxNumToRender o ->
  let numRendered := lastRendered o - firstRendered o + 1 in
  let targetLastRow :=
    Z.min (totalRows o - 1)
      (Z.min (lastVisible o + numToRenderAhead o - numToRenderBehind o)
             (firstVisible o + numRendered + numToRenderAhead o
              - numToRenderBehind o)) in
  let lastRow := Z.min targetLastRow (lastRendered o + pageSize o) in
  let firstRow :=
    Z.max 0 (Z.max (firstVisible o - numToRenderBehind o)
                   (lastRow - maxNumToRender o)) in
  computeRowsToRender o =
  Return {| firstRow := firstRow; lastRow := lastRow;
            targetFirstRow := firstRow; targetLastRow := targetLastRow |}.
Proof.
  intros Hdir Hcfg. unfold computeRowsToRender.
  rewrite invariant_true by (apply Z.ltb_lt; exact Hcfg).
  cbn [bind]. rewrite Hdir.
  unfold __computeLastRow, __computeFirstRow. rewrite Hdir.
  reflexivity.
Qed.

(** Scrolling up, the first row is stepped by [pageSize] and the last row is
    the rendered one, pulled up when more than [maxNumToRender] rows lie
    between the two. *)
Lemma computeRowsToRender_up (o : RenderOptions) :
  scrollDirection o = up ->
  numToRenderAhead o < maxNumToRender o ->
  let targetFirstRow :=
    Z.max 0 (firstVisible o - numToRenderAhead o + numToRenderBehind o) in
  let firstRow := Z.max targetFirstRow (firstRendered o - pageSize o) in
  let lastRow :=
    if lastRendered o - firstRow >? maxNumToRender o
    then firstRow + maxNumToRender o else lastRendered o in
  computeRowsToRender o =
  Return {| firstRow := firstRow; lastRow := lastRow;
            targetFirstRow := targetFirstRow; targetLastRow := lastRow |}.
Proof.
  intros Hdir Hcfg. unfold computeRowsToRender.
  rewrite invariant_true by (apply Z.ltb_lt; exact Hcfg).
  cbn [bind]. rewrite Hdir.
  unfold __computeLastRow, __computeFirstRow. rewrite Hdir.
  cbn [bind fst snd]. cbv zeta.
  destruct (_ >? _); cbn [bind fst snd]; f_equal; f_equal; lia.
Qed.

(** What the step does guarantee: the window stays inside the list and
    holds at most [maxNumToRender + 1] rows. *)
Lemma computeRowsToRender_bounds (o : RenderOptions) :
  validRecomputeInput o ->
  exists r, computeRowsToRender o = Return r /\
    0 <= firstRow r /\
    lastRow r <= totalRows o - 1 /\
    lastRow r - firstRow r + 1 <= maxNumToRender o + 1.
Proof.
  unfold validRecomputeInput. intros H.
  destruct (scrollDirection o) eqn:Hdir.
  - eexists. split.
    + apply computeRowsToRender_down; [exact Hdir | lia].
    + cbn [firstRow lastRow]. lia.
  - eexists. split.
    + apply computeRowsToRender_up; [exact Hdir | lia].
    + cbn [firstRow lastRow].
      destruct (_ >? _) eqn:E; [apply Z.gtb_lt in E | ]; lia.
Qed.

(** The window of 21 rows is reached from the initial window [0,1] of the
    default configuration when the viewport shows rows 0 to 18. *)
Lemma tall_viewport_reachable :
  ticks 6 (defaultOptions down 0 18 0 1) = Return (defaultOptions down 0 18 0 19) /\
  ticks 7 (defaultOptions down 0 18 0 1) = Return (defaultOptions down 0 18 0 20).
Proof. split; vm_compute; reflexivity. Qed.

(** C1 (window budget).  The budget is exceeded by one row in both scroll
    directions: the default configuration ([maxNumToRender = 20]) with a
    valid window of 20 rows returns a window of 21 rows, [0,20] scrolling
    down and [9,29] scrolling up, on inputs that satisfy every precondition
    of the step. *)
Theorem C1_window_budget_exceeded :
  validRecomputeInput (defaultOptions down 0 18 0 19) /\
  (exists r, computeRowsToRender (defaultOptions down 0 18 0 19) = Return r /\
     firstRow r = 0 /\ lastRow r = 20 /\
     ~ lastRow r - firstRow r + 1 <= maxNumToRender (defaultOptions down 0 18 0 19)) /\
  validRecomputeInput (defaultOptions up 11 20 10 29) /\
  (exists r, computeRowsToRender (defaultOptions up 11 20 10 29) = Return r /\
     firstRow r = 9 /\ lastRow r = 29 /\
     ~ lastRow r - firstRow r + 1 <= maxNumToRender (defaultOptions up 11 20 10 29)).
Proof.
  unfold validRecomputeInput.
  split; [cbn; lia | split; [ | split; [cbn; lia | ]]].
  - eexists. split; [vm_compute; reflexivity | cbn; lia].
  - eexists. split; [vm_compute; reflexivity | cbn; lia].
Qed.

(** C3 (scrolling down).  With the configuration precondition, the step
    returns [lastRow = min(targetLastRow, lastRendered + pageSize)] with
    [targetLastRow = min(totalRows - 1, lastVisible + ahead - behind,
    firstVisible + numRendered + ahead - behind)], and then
    [firstRow = targetFirstRow = max(0, firstVisible - behind,
    lastRow - maxNumToRender)] from that last row; on the example of the
    specification the window and the target are both [6,12]. *)
Theorem C3_scroll_down_step :
  (forall o : RenderOptions,
     scrollDirection o = down ->
     numToRenderAhead o < maxNumToRender o ->
     exists r, computeRowsToRender o = Return r /\
       let numRendered := lastRendered o - firstRendered o + 1 in
       targetLastRow r =
         Z.min (totalRows o - 1)
           (Z.min (lastVisible o + numToRenderAhead o - numToRenderBehind o)
                  (firstVisible o + numRendered + numToRenderAhead o
                   - numToRenderBehind o)) /\
       lastRow r = Z.min (targetLastRow r) (lastRendered o + pageSize o) /\
       targetFirstRow r =
         Z.max 0 (Z.max (firstVisible o - numToRenderBehind o)
                        (lastRow r - maxNumToRender o)) /\
       firstRow r = targetFirstRow r) /\
  computeRowsToRender exampleOptions =
  Return {| firstRow := 6; lastRow := 12;
            targetFirstRow := 6; targetLastRow := 12 |}.
Proof.
  split.
  - intros o Hdir Hcfg. eexists. split.
    + apply computeRowsToRender_down; assumption.
    + cbn [firstRow lastRow targetFirstRow targetLastRow]. repeat split.
  - vm_compute. reflexivity.
Qed.

Lemma C3_scroll_down_step_witness :
  exists r, computeRowsToRender exampleOptions = Return r /\
    firstRow r = 6 /\ lastRow r = 12.
Proof.
  destruct (proj1 C3_scroll_down_step exampleOptions eq_refl) as [r [Hr H]].
  - vm_compute. reflexivity.
  - exists r. split; [exact Hr | ].
    cbv zeta in H. destruct H as [Ht [Hl [Htf Hf]]].
    rewrite Hf, Htf, Hl, Ht. split; vm_compute; reflexivity.
Defined.

(** * The example data set *)

Lemma exampleDataSource_rows :
  _dataSource exampleDataSource =
  [SectionHeaderRow "A"; CellRow "A0"; CellRow "A1"; CellRow "A2";
   SectionHeaderRow "B"; CellRow "B0"; CellRow "B1"].
Proof. reflexivity. Qed.

(** C2, as the specification states it, fails: offset 170 is resolved to
    row 3, the last cell of section A, not to row 4. *)
Lemma C2_example_offsets_counterexample :
  ~ (getHeightBeforeRow exampleDataSource 4 = 170 /\
     getRowAtHeight exampleDataSource 170 = Return 4 /\
     getRowAtHeight exampleDataSource 0 = Return 0 /\
     getTotalHeight exampleDataSource = 290).
Proof.
  intros [_ [H _]]. vm_compute in H. discriminate H.
Qed.

(** C2 (amended).  On the example data set the rows are
    [A-header, A0, A1, A2, B-header, B0, B1], [getHeightBeforeRow 4 = 170],
    [getRowAtHeight 0 = 0], [getTotalHeight = 290], and
    [getRowAtHeight 170 = 3]: offset 170 lies in the closed interval
    [0,170] of section A, which the scan meets first; the offsets 171 to
    190 give row 4. *)
Theorem C2_example_offsets :
  getRowCount exampleDataSource = 7 /\
  getHeightBeforeRow exampleDataSource 4 = 170 /\
  getRowAtHeight exampleDataSource 170 = Return 3 /\
  getRowAtHeight exampleDataSource 171 = Return 4 /\
  getRowAtHeight exampleDataSource 190 = Return 4 /\
  getRowAtHeight exampleDataSource 0 = Return 0 /\
  getTotalHeight exampleDataSource = 290.
Proof. repeat split; vm_compute; reflexivity. Qed.

(** * Lookups that do not raise *)

(** C4, as stated, fails: with reversed bounds the call returns a number
    (after a console warning), it raises nothing. *)
Lemma C4_height_between_counterexample :
  getHeightBetweenRows exampleDataSource 3 1 =
    (Return (-150), ["provide the lower index first"]) /\
  ~ throws (fst (getHeightBetweenRows exampleDataSource 3 1)).
Proof.
  split; [vm_compute; reflexivity | ].
  intros [e H]. vm_compute in H. discriminate H.
Qed.

(** C4 (amended).  [getHeightBetweenRows i ii] returns
    [getHeightBeforeRow ii - getHeightBeforeRow (i + 1)] for all [i] and
    [ii]; when [ii < i] it also writes the warning "provide the lower index
    first" to the console and still returns that difference; otherwise it
    writes nothing. *)
Theorem C4_height_between {cell : Type} (this : FixedHeightListViewDataSource cell)
    (i ii : Z) :
  fst (getHeightBetweenRows this i ii) =
    Return (getHeightBeforeRow this ii - getHeightBeforeRow this (i + 1)) /\
  (ii < i -> snd (getHeightBetweenRows this i ii) = ["provide the lower index first"]) /\
  (i <= ii -> snd (getHeightBetweenRows this i ii) = []).
Proof.
  unfold getHeightBetweenRows. cbn [fst snd]. split; [reflexivity | split].
  - intros H. apply Z.ltb_lt in H. rewrite H. reflexivity.
  - intros H. apply Z.ltb_ge in H. rewrite H. reflexivity.
Qed.

Lemma C4_height_between_witness :
  snd (getHeightBetweenRows exampleDataSource 3 1) = ["provide the lower index first"] /\
  snd (getHeightBetweenRows exampleDataSource 1 3) = [].
Proof.
  split.
  - apply (proj1 (proj2 (C4_height_between exampleDataSource 3 1))). lia.
  - apply (proj2 (proj2 (C4_height_between exampleDataSource 1 3))). lia.
Defined.

Lemma arrayGet_inside {A : Type} (l : list A) (i : Z) :
  0 <= i < Z.of_nat (List.length l) ->
  exists x, arrayGet l i = Some x /\ nth_error l (Z.to_nat i) = Some x.
Proof.
  intros H. unfold arrayGet.
  destruct (Z.ltb_spec i 0); [lia | ].
  destruct (nth_error l (Z.to_nat i)) eqn:E.
  - eauto.
  - apply nth_error_None in E. lia.
Qed.

Lemma arrayGet_outside {A : Type} (l : list A) (i : Z) :
  ~ 0 <= i < Z.of_nat (List.length l) -> arrayGet l i = None.
Proof.
  intros H. unfold arrayGet.
  destruct (Z.ltb_spec i 0); [reflexivity | ].
  apply nth_error_None. lia.
Qed.

(** C5, as stated, fails: an index outside the rows gives [undefined],
    no error is raised. *)
Lemma C5_row_data_counterexample :
  ~ 0 <= 7 < getRowCount exampleDataSource /\
  getRowData exampleDataSource 7 = Return None /\
  ~ throws (getRowData exampleDataSource 7).
Proof.
  split; [vm_compute; intros [_ H]; discriminate H | ].
  split; [reflexivity | ].
  intros [e H]. discriminate H.
Qed.

(** C5 (amended).  [getRowData i] returns the row stored at index [i] for
    every [i] in [0, rowCount), and returns [undefined], raising nothing,
    for every other index. *)
Theorem C5_row_data {cell : Type} (this : FixedHeightListViewDataSource cell)
    (i : Z) :
  (0 <= i < getRowCount this ->
   exists row, getRowData this i = Return (Some row) /\
     nth_error (_dataSource this) (Z.to_nat i) = Some row) /\
  (~ 0 <= i < getRowCount this -> getRowData this i = Return None).
Proof.
  unfold getRowData, getRowCount. split; intros H.
  - destruct (arrayGet_inside (_dataSource this) i H) as [row [H1 H2]].
    exists row. rewrite H1. auto.
  - rewrite (arrayGet_outside _ _ H). reflexivity.
Qed.

Lemma C5_row_data_witness :
  (exists row, getRowData exampleDataSource 4 = Return (Some row) /\
     nth_error (_dataSource exampleDataSource) (Z.to_nat 4) = Some row) /\
  getRowData exampleDataSource (-1) = Return None.
Proof.
  split.
  - apply (proj1 (C5_row_data exampleDataSource 4)).
    vm_compute. split; [discriminate | reflexivity].
  - apply (proj2 (C5_row_data exampleDataSource (-1))). lia.
Defined.

(** * Windows committed by the list view *)

Lemma hasSection_of_first_row {cell : Type} (this : FixedHeightListViewDataSource cell)
    (sectionId : string) (row startY : Z) :
  getFirstRowOfSection this sectionId = Return (row, startY) ->
  hasSection this sectionId = true.
Proof.
  unfold getFirstRowOfSection, hasSection.
  destruct (Obj.get (_lookup this) sectionId); [reflexivity | ].
  destruct (Obj.inheritedKey sectionId); discriminate.
Qed.

(** The synchronous part of a jump from the idle state, in closed form. *)
Lemma scrollToSectionBuffered_idle {cell : Type} (this : ListView.Component cell)
    (sectionId : string) (row startY : Z) :
  ListView.isScrollingToSection this = false ->
  getFirstRowOfSection (ListView.dataSource (ListView.props this)) sectionId
    = Return (row, startY) ->
  let initialNumToRender := ListView.initialNumToRender (ListView.props this) in
  let lastRow := getRowCount (ListView.dataSource (ListView.props this)) - 1 in
  let windowLastRow := Z.min lastRow (row + initialNumToRender) in
  let windowFirstRow :=
    if row + initialNumToRender <? lastRow then row
    else Z.max 0 (lastRow - initialNumToRender) in
  exists this',
    ListView.scrollToSectionBuffered this sectionId =
      Return (this', [ListView.ClearTimeout;
                      ListView.WhenCommitted windowFirstRow windowLastRow;
                      ListView.ScrollTo startY false]) /\
    ListView.bufferFirstRow (ListView.state this') = Some windowFirstRow /\
    ListView.bufferLastRow (ListView.state this') = Some windowLastRow /\
    ListView.firstRow (ListView.state this') = ListView.firstRow (ListView.state this) /\
    ListView.lastRow (ListView.state this') = ListView.lastRow (ListView.state this) /\
    ListView.isScrollingToSection this' = true.
Proof.
  intros Hidle Hfirst. cbv zeta.
  unfold ListView.scrollToSectionBuffered.
  rewrite Hidle, (hasSection_of_first_row _ _ _ _ Hfirst), Hfirst.
  cbn [negb andb bind fst snd].
  set (init := ListView.initialNumToRender (ListView.props this)).
  set (last := getRowCount (ListView.dataSource (ListView.props this)) - 1).
  assert (E : (if Z.min last (row + init) - last =? 0
               then Z.max 0 (Z.min last (row + init) - init) else row)
              = (if row + init <? last then row else Z.max 0 (last - init))).
  { destruct (Z.eqb_spec (Z.min last (row + init) - last) 0);
    destruct (Z.ltb_spec (row + init) last); lia. }
  rewrite E. eexists. split; [reflexivity | ].
  cbn. repeat split.
Qed.

(** C7, as stated, fails: with [initialNumToRender = 1] on the example data
    set (7 rows, no clamping) the initial window is [0,1], two rows. *)
Lemma C7_initial_window_counterexample :
  exists c,
    ListView.constructor (ListView.defaultProps exampleDataSource) = Return c /\
    ListView.initialNumToRender (ListView.props c)
      <= getRowCount (ListView.dataSource (ListView.props c)) - 1 /\
    ListView.windowSize (ListView.firstRow (ListView.state c))
                        (ListView.lastRow (ListView.state c)) = 2 /\
    ListView.windowSize (ListView.firstRow (ListView.state c))
                        (ListView.lastRow (ListView.state c))
      <> ListView.initialNumToRender (ListView.props c).
Proof.
  eexists. split; [vm_compute; reflexivity | ].
  split; [vm_compute; discriminate | ].
  split; [reflexivity | vm_compute; discriminate].
Qed.

(** C7 (amended).  When no end-of-list clamping applies, the initial window
    is [0, initialNumToRender] and the buffer window of a jump to a section
    whose first row is [row] is [row, row + initialNumToRender]: both hold
    [initialNumToRender + 1] rows. *)
Theorem C7_initial_and_jump_window (cell : Type) :
  (forall props : ListView.Props cell,
     ListView.numToRenderAhead props < ListView.maxNumToRender props ->
     ListView.numToRenderBehind props < ListView.maxNumToRender props ->
     ListView.initialNumToRender props
       <= getRowCount (ListView.dataSource props) - 1 ->
     exists c, ListView.constructor props = Return c /\
       ListView.firstRow (ListView.state c) = 0 /\
       ListView.lastRow (ListView.state c) = ListView.initialNumToRender props /\
       ListView.windowSize (ListView.firstRow (ListView.state c))
                           (ListView.lastRow (ListView.state c))
         = ListView.initialNumToRender props + 1) /\
  (forall (this : ListView.Component cell) (sectionId : string) (row startY : Z),
     ListView.isScrollingToSection this = false ->
     getFirstRowOfSection (ListView.dataSource (ListView.props this)) sectionId
       = Return (row, startY) ->
     0 <= row ->
     row + ListView.initialNumToRender (ListView.props this)
       <= getRowCount (ListView.dataSource (ListView.props this)) - 1 ->
     exists this' effects first last,
       ListView.scrollToSectionBuffered this sectionId = Return (this', effects) /\
       ListView.bufferFirstRow (ListView.state this') = Some first /\
       ListView.bufferLastRow (ListView.state this') = Some last /\
       first = row /\
       last = row + ListView.initialNumToRender (ListView.props this) /\
       ListView.windowSize first last
         = ListView.initialNumToRender (ListView.props this) + 1).
Proof.
  split.
  - intros props Ha Hb Hlen. unfold ListView.constructor.
    rewrite !invariant_true by (apply Z.ltb_lt; assumption).
    cbn [bind]. eexists. split; [reflexivity | ].
    cbn [ListView.state ListView.firstRow ListView.lastRow].
    unfold ListView.windowSize. lia.
  - intros this sectionId row startY Hidle Hfirst Hrow Hlen.
    destruct (scrollToSectionBuffered_idle _ _ _ _ Hidle Hfirst)
      as [this' [Hrun [Hbf [Hbl _]]]].
    cbv zeta in Hrun, Hbf, Hbl.
    exists this'. eexists. eexists. eexists.
    split; [exact Hrun | ]. split; [exact Hbf | ]. split; [exact Hbl | ].
    unfold ListView.windowSize.
    destruct (Z.ltb_spec
                (row + ListView.initialNumToRender (ListView.props this))
                (getRowCount (ListView.dataSource (ListView.props this)) - 1));
      lia.
Qed.

Lemma C7_initial_and_jump_window_witness :
  exists c, ListView.constructor (ListView.defaultProps exampleDataSource) = Return c /\
    ListView.firstRow (ListView.state c) = 0 /\
    ListView.lastRow (ListView.state c) = 1 /\
    ListView.windowSize (ListView.firstRow (ListView.state c))
                        (ListView.lastRow (ListView.state c)) = 1 + 1.
Proof.
  apply (proj1 (C7_initial_and_jump_window string)
           (ListView.defaultProps exampleDataSource)).
  - cbn. lia.
  - cbn. lia.
  - vm_compute. discriminate.
Defined.

(** C8 (section jump).  On the example data set with
    [initialNumToRender = 1], [scrollToSectionBuffered "B"] from the idle
    state sets the buffer window to [4,5] and scrolls to offset 170 without
    animation.  In general the buffer window ends at
    [min(rowCount - 1, row + initialNumToRender)], where [row] is the first
    row of the section; it starts at [row] when the end is not the last row
    of the list, and at [max(0, rowCount - 1 - initialNumToRender)]
    otherwise, so that a clamped window keeps its
    [initialNumToRender + 1] rows when the list has that many. *)
Theorem C8_section_jump :
  (exists c this',
     ListView.constructor (ListView.defaultProps exampleDataSource) = Return c /\
     ListView.isScrollingToSection c = false /\
     ListView.initialNumToRender (ListView.props c) = 1 /\
     ListView.scrollToSectionBuffered c "B" =
       Return (this', [ListView.ClearTimeout; ListView.WhenCommitted 4 5;
                       ListView.ScrollTo 170 false]) /\
     ListView.bufferFirstRow (ListView.state this') = Some 4 /\
     ListView.bufferLastRow (ListView.state this') = Some 5) /\
  (forall (cell : Type) (this : ListView.Component cell) (sectionId : string)
          (row startY : Z),
     ListView.isScrollingToSection this = false ->
     getFirstRowOfSection (ListView.dataSource (ListView.props this)) sectionId
       = Return (row, startY) ->
     let initialNumToRender := ListView.initialNumToRender (ListView.props this) in
     let lastRow := getRowCount (ListView.dataSource (ListView.props this)) - 1 in
     exists this' first last,
       ListView.scrollToSectionBuffered this sectionId =
         Return (this', [ListView.ClearTimeout; ListView.WhenCommitted first last;
                         ListView.ScrollTo startY false]) /\
       ListView.bufferFirstRow (ListView.state this') = Some first /\
       ListView.bufferLastRow (ListView.state this') = Some last /\
       ListView.isScrollingToSection this' = true /\
       last = Z.min lastRow (row + initialNumToRender) /\
       (row + initialNumToRender < lastRow -> first = row) /\
       (lastRow <= row + initialNumToRender ->
        first = Z.max 0 (lastRow - initialNumToRender)) /\
       (lastRow <= row + initialNumToRender -> initialNumToRender <= lastRow ->
        ListView.windowSize first last = initialNumToRender + 1)).
Proof.
  split.
  - eexists. eexists. split; [vm_compute; reflexivity | ].
    split; [reflexivity | ]. split; [reflexivity | ].
    split; [vm_compute; reflexivity | ]. split; reflexivity.
  - intros cell this sectionId row startY Hidle Hfirst.
    destruct (scrollToSectionBuffered_idle _ _ _ _ Hidle Hfirst)
      as [this' [Hrun [Hbf [Hbl [_ [_ Hjump]]]]]].
    cbv zeta in *.
    exists this'. eexists. eexists.
    split; [exact Hrun | ]. split; [exact Hbf | ]. split; [exact Hbl | ].
    split; [exact Hjump | ]. split; [reflexivity | ].
    unfold ListView.windowSize.
    destruct (Z.ltb_spec
                (row + ListView.initialNumToRender (ListView.props this))
                (getRowCount (ListView.dataSource (ListView.props this)) - 1));
      repeat split; intros; lia.
Qed.

(** A jump to section B with [initialNumToRender = 5]: the end is clamped to
    row 6 and the start is pulled back from row 4 to row 1. *)
Lemma C8_section_jump_witness :
  exists c this' first last,
    ListView.constructor
      {| ListView.dataSource := exampleDataSource;
         ListView.incrementDelay := 17;
         ListView.initialNumToRender := 5;
         ListView.maxNumToRender := 20;
         ListView.numToRenderAhead := 4;
         ListView.numToRenderBehind := 2;
         ListView.pageSize := 5 |} = Return c /\
    ListView.scrollToSectionBuffered c "B" =
      Return (this', [ListView.ClearTimeout; ListView.WhenCommitted first last;
                      ListView.ScrollTo 170 false]) /\
    first = 1 /\ last = 6.
Proof.
  eexists. 
  destruct (proj2 C8_section_jump string
    {| ListView.props :=
         {| ListView.dataSource := exampleDataSource;
            ListView.incrementDelay := 17;
            ListView.initialNumToRender := 5;
            ListView.maxNumToRender := 20;
            ListView.numToRenderAhead := 4;
            ListView.numToRenderBehind := 2;
            ListView.pageSize := 5 |};
       ListView.state :=
         {| ListView.firstRow := 0; ListView.lastRow := 5;
            ListView.bufferFirstRow := None; ListView.bufferLastRow := None |};
       ListView.scrollOffsetY := 0;
       ListView.height := 0;
       ListView.willComputeRowsToRender := false;
       ListView.nextSectionToScrollTo := None;
       ListView.scrollDirection := down;
       ListView.isScrollingToSection := false |}
    "B" 4 170 eq_refl eq_refl)
    as [this' [first [last [Hrun [_ [_ [_ [Hlast [_ [Hfirst _]]]]]]]]]].
  exists this', first, last.
  split; [vm_compute; reflexivity | ].
  split; [exact Hrun | ].
  split.
  - rewrite Hfirst; [reflexivity | vm_compute; discriminate].
  - rewrite Hlast. reflexivity.
Defined.

(** * The structure of a built data source *)

Module ObjFacts.

Lemma get_app_fresh {V : Type} (o : list (string * V)) (k : string) (v : V) :
  ~ In k (Obj.ownKeys o) -> Obj.get (o ++ [(k, v)]) k = Some v.
Proof.
  induction o as [ | [k' v'] o IH]; cbn; intros H.
  - rewrite String.eqb_refl. reflexivity.
  - destruct (String.eqb_spec k' k) as [-> | Hne].
    + exfalso. apply H. left. reflexivity.
    + apply IH. intros Hin. apply H. right. exact Hin.
Qed.

Lemma set_fresh {V : Type} (o : list (string * V)) (k : string) (v : V) :
  ~ In k (Obj.ownKeys o) -> Obj.set o k v = o ++ [(k, v)].
Proof.
  induction o as [ | [k' v'] o IH]; cbn; intros H.
  - reflexivity.
  - destruct (String.eqb_spec k' k) as [-> | Hne].
    + exfalso. apply H. left. reflexivity.
    + rewrite IH; [reflexivity | ]. intros Hin. apply H. right. exact Hin.
Qed.

Lemma get_in_keys {V : Type} (o : list (string * V)) (k : string) :
  In k (Obj.ownKeys o) -> exists v, Obj.get o k = Some v /\ In v (Obj.ownValues o).
Proof.
  induction o as [ | [k' v'] o IH]; cbn; intros H.
  - contradiction.
  - destruct (String.eqb_spec k' k) as [-> | Hne].
    + exists v'. auto.
    + destruct H as [H | H]; [contradiction | ].
      destruct (IH H) as [v [Hv Hin]]. exists v. auto.
Qed.

Lemma keys_app {V : Type} (o o' : list (string * V)) :
  Obj.ownKeys (o ++ o') = Obj.ownKeys o ++ Obj.ownKeys o'.
Proof. apply map_app. Qed.

Lemma values_app {V : Type} (o o' : list (string * V)) :
  Obj.ownValues (o ++ o') = Obj.ownValues o ++ Obj.ownValues o'.
Proof. apply map_app. Qed.

End ObjFacts.

(** ** The enumeration of an object *)

Module ObjOrder.

Lemma insertIndexed_permutation {V : Type} (n : N) (p : string * V)
    (l : list (N * (string * V))) :
  Permutation (Obj.insertIndexed n p l) ((n, p) :: l).
Proof.
  induction l as [ | [m q] l IH]; cbn [Obj.insertIndexed]; [apply Permutation_refl | ].
  destruct (N.ltb n m); [apply Permutation_refl | ].
  apply Permutation_trans with ((m, q) :: (n, p) :: l).
  - apply perm_skip. exact IH.
  - apply perm_swap.
Qed.

Lemma indexedEntries_permutation {V : Type} (o : list (string * V)) :
  Permutation (map snd (Obj.indexedEntries o))
              (filter (fun p => negb (Obj.isNamed p)) o).
Proof.
  unfold Obj.indexedEntries.
  assert (G : forall acc : list (N * (string * V)),
    Permutation
      (map snd
         (fold_left
            (fun acc p =>
               match Obj.arrayIndex (fst p) with
               | Some n => Obj.insertIndexed n p acc
               | None => acc
               end) o acc))
      (map snd acc ++ filter (fun p => negb (Obj.isNamed p)) o)).
  { induction o as [ | p o IH]; intros acc; cbn [fold_left filter].
    - rewrite app_nil_r. apply Permutation_refl.
    - replace (Obj.isNamed p)
        with (match Obj.arrayIndex (fst p) with Some _ => false | None => true end)
        by reflexivity.
      destruct (Obj.arrayIndex (fst p)) as [n | ]; cbn [negb].
      + eapply Permutation_trans; [apply IH | ].
        eapply Permutation_trans;
          [apply Permutation_app_tail; apply Permutation_map;
           apply insertIndexed_permutation | ].
        cbn [map snd]. apply Permutation_middle.
      + apply IH. }
  apply (G []).
Qed.

Lemma filter_permutation {A : Type} (f : A -> bool) (l : list A) :
  Permutation (filter (fun x => negb (f x)) l ++ filter f l) l.
Proof.
  induction l as [ | x l IH]; cbn [filter]; [apply Permutation_refl | ].
  destruct (f x); cbn [negb app].
  - apply Permutation_sym. apply Permutation_cons_app.
    apply Permutation_sym. exact IH.
  - apply perm_skip. exact IH.
Qed.

Lemma enumerate_permutation {V : Type} (o : list (string * V)) :
  Permutation (Obj.enumerate o) o.
Proof.
  unfold Obj.enumerate.
  eapply Permutation_trans;
    [apply Permutation_app_tail; apply indexedEntries_permutation | ].
  apply filter_permutation.
Qed.

Lemma keys_permutation {V : Type} (o : list (string * V)) :
  Permutation (Obj.keys o) (Obj.ownKeys o).
Proof. apply Permutation_map. apply enumerate_permutation. Qed.

Lemma values_permutation {V : Type} (o : list (string * V)) :
  Permutation (Obj.values o) (Obj.ownValues o).
Proof. apply Permutation_map. apply enumerate_permutation. Qed.

Lemma keys_in {V : Type} (o : list (string * V)) (k : string) :
  In k (Obj.keys o) <-> In k (Obj.ownKeys o).
Proof.
  split; apply Permutation_in;
    [ | apply Permutation_sym]; apply keys_permutation.
Qed.

Lemma values_in {V : Type} (o : list (string * V)) (v : V) :
  In v (Obj.values o) <-> In v (Obj.ownValues o).
Proof.
  split; apply Permutation_in;
    [ | apply Permutation_sym]; apply values_permutation.
Qed.

Lemma keys_distinct {V : Type} (o : list (string * V)) :
  NoDup (Obj.keys o) <-> NoDup (Obj.ownKeys o).
Proof.
  split; apply Permutation_NoDup;
    [ | apply Permutation_sym]; apply keys_permutation.
Qed.

(** An object without array indices is enumerated in the order of
    creation. *)
Lemma enumerate_named {V : Type} (o : list (string * V)) :
  forallb Obj.isNamed o = true -> Obj.enumerate o = o.
Proof.
  intros H. unfold Obj.enumerate, Obj.indexedEntries.
  assert (G : forall acc : list (N * (string * V)),
    fold_left
      (fun acc p =>
         match Obj.arrayIndex (fst p) with
         | Some n => Obj.insertIndexed n p acc
         | None => acc
         end) o acc = acc /\ filter Obj.isNamed o = o).
  { induction o as [ | p o IH]; intros acc; cbn [fold_left filter]; [auto | ].
    cbn [forallb] in H. apply andb_true_iff in H. destruct H as [Hp Ho].
    rewrite Hp. unfold Obj.isNamed in Hp.
    destruct (Obj.arrayIndex (fst p)); [discriminate | ].
    destruct (IH Ho acc) as [G1 G2]. rewrite G1, G2. auto. }
  destruct (G []) as [G1 G2]. rewrite G1, G2. reflexivity.
Qed.

Lemma integerKey_named {V : Type} (k : string) (v : V) :
  Obj.isIntegerKey k = false -> Obj.isNamed (k, v) = true.
Proof.
  intros H. unfold Obj.isNamed, Obj.arrayIndex. cbn [fst]. rewrite H. reflexivity.
Qed.

Lemma enumerate_ownKeys {V : Type} (o : list (string * V)) :
  forallb (fun k => negb (Obj.isIntegerKey k)) (Obj.ownKeys o) = true ->
  Obj.enumerate o = o.
Proof.
  intros H. apply enumerate_named.
  apply forallb_forall. intros [k v] Hin.
  apply integerKey_named.
  pose proof (proj1 (forallb_forall _ _) H k) as Hk.
  apply negb_true_iff. apply Hk.
  apply (in_map fst) in Hin. exact Hin.
Qed.

Lemma insertIndexed_map {V W : Type} (f : V -> W) (n : N) (p : string * V)
    (l : list (N * (string * V))) :
  map (fun e => (fst e, (fst (snd e), f (snd (snd e)))))
      (Obj.insertIndexed n p l)
  = Obj.insertIndexed n (fst p, f (snd p))
      (map (fun e => (fst e, (fst (snd e), f (snd (snd e))))) l).
Proof.
  induction l as [ | [m q] l IH]; cbn [Obj.insertIndexed map fst snd]; [reflexivity | ].
  destruct (N.ltb n m); cbn [map fst snd]; [reflexivity | ].
  f_equal. exact IH.
Qed.

(** The enumeration looks at the keys only. *)
Lemma enumerate_map {V W : Type} (f : V -> W) (o : list (string * V)) :
  Obj.enumerate (map (fun p => (fst p, f (snd p))) o)
  = map (fun p => (fst p, f (snd p))) (Obj.enumerate o).
Proof.
  unfold Obj.enumerate. rewrite map_app. f_equal.
  - unfold Obj.indexedEntries.
    assert (G : forall acc : list (N * (string * V)),
      fold_left
        (fun acc p =>
           match Obj.arrayIndex (fst p) with
           | Some n => Obj.insertIndexed n p acc
           | None => acc
           end)
        (map (fun p => (fst p, f (snd p))) o)
        (map (fun e => (fst e, (fst (snd e), f (snd (snd e))))) acc)
      = map (fun e => (fst e, (fst (snd e), f (snd (snd e)))))
          (fold_left
             (fun acc p =>
                match Obj.arrayIndex (fst p) with
                | Some n => Obj.insertIndexed n p acc
                | None => acc
                end) o acc)).
    { induction o as [ | p o IH]; intros acc; cbn [map fold_left fst]; [reflexivity | ].
      destruct (Obj.arrayIndex (fst p)) as [n | ].
      - rewrite <- insertIndexed_map. apply IH.
      - apply IH. }
    specialize (G []). cbn [map] in G. rewrite G.
    rewrite !map_map. reflexivity.
  - induction o as [ | p o IH]; cbn [map filter]; [reflexivity | ].
    replace (Obj.isNamed (fst p, f (snd p))) with (Obj.isNamed p) by reflexivity.
    destruct (Obj.isNamed p); cbn [map]; [f_equal; exact IH | exact IH].
Qed.

Lemma keys_enumerationOrder {V : Type} (o : list (string * V)) :
  Obj.keys o = enumerationOrder (Obj.ownKeys o).
Proof.
  unfold enumerationOrder, Obj.keys, Obj.ownKeys. rewrite map_map.
  rewrite (enumerate_map (fun _ => tt) o). rewrite map_map. reflexivity.
Qed.

(** Two listings of an object with the same sequence of distinct keys are
    the same listing. *)
Lemma same_keys {V : Type} (l : list (string * V)) :
  forall l',
    Permutation l l' -> map fst l = map fst l' -> NoDup (map fst l) -> l = l'.
Proof.
  induction l as [ | p l IH]; intros l' Hperm Hkeys Hnd.
  - apply Permutation_nil in Hperm. subst l'. reflexivity.
  - destruct l' as [ | p' l']; [discriminate | ].
    cbn [map] in Hkeys, Hnd. injection Hkeys as Hk Hks.
    apply NoDup_cons_iff in Hnd. destruct Hnd as [Hnotin Hnd].
    assert (Hp : p = p').
    { assert (Hin : In p (p' :: l'))
        by (apply (Permutation_in _ Hperm); left; reflexivity).
      destruct Hin as [E | Hin]; [symmetry; exact E | exfalso].
      apply Hnotin. rewrite Hks. apply (in_map fst) in Hin. exact Hin. }
    subst p'. f_equal. apply IH; [ | exact Hks | exact Hnd].
    apply (Permutation_cons_inv Hperm).
Qed.

(** An object whose keys are enumerated in the order of their creation. *)
Lemma enumerate_ordered {V : Type} (o : list (string * V)) :
  NoDup (Obj.ownKeys o) ->
  enumerationOrder (Obj.ownKeys o) = Obj.ownKeys o ->
  Obj.enumerate o = o.
Proof.
  intros Hnd Hord. symmetry. apply same_keys.
  - apply Permutation_sym. apply enumerate_permutation.
  - rewrite <- keys_enumerationOrder in Hord. symmetry. exact Hord.
  - exact Hnd.
Qed.

(** Keys without an integer numeral are enumerated as listed. *)
Lemma enumerationOrder_named (keys : list string) :
  forallb (fun k => negb (Obj.isIntegerKey k)) keys = true ->
  enumerationOrder keys = keys.
Proof.
  intros H. unfold enumerationOrder, Obj.keys.
  rewrite enumerate_ownKeys.
  - rewrite map_map. cbn [fst]. apply map_id.
  - unfold Obj.ownKeys. rewrite map_map. cbn [fst]. rewrite map_id. exact H.
Qed.

Lemma insertIndexed_ascending {V : Type} (p : string * V) (n : N)
    (l : list (N * (string * V))) :
  Obj.arrayIndex (fst p) = Some n -> Obj.ascending l ->
  Obj.ascending (Obj.insertIndexed n p l).
Proof.
  intros Hp [Hs Ht]. split.
  - induction l as [ | [m q] l IH]; cbn [Obj.insertIndexed].
    + constructor; constructor.
    + apply StronglySorted_inv in Hs. destruct Hs as [Hs Hall].
      apply Forall_cons_iff in Ht. destruct Ht as [_ Ht].
      destruct (N.ltb_spec n m) as [Hlt | Hge].
      * constructor; [constructor; assumption | ].
        constructor; [cbn; apply N.lt_le_incl; exact Hlt | ].
        apply Forall_forall. intros e He.
        pose proof (proj1 (Forall_forall _ _) Hall e He) as Hle. cbn in *.
        apply N.le_trans with m; [apply N.lt_le_incl; exact Hlt | exact Hle].
      * constructor; [apply IH; assumption | ].
        apply Forall_forall. intros e He.
        apply (Permutation_in _ (insertIndexed_permutation n p l)) in He.
        destruct He as [<- | He]; [exact Hge | ].
        apply (proj1 (Forall_forall _ _) Hall e He).
  - apply Forall_forall. intros e He.
    apply (Permutation_in _ (insertIndexed_permutation n p l)) in He.
    destruct He as [<- | He]; [exact Hp | ].
    apply (proj1 (Forall_forall _ _) Ht e He).
Qed.

Lemma indexedEntries_ascending {V : Type} (o : list (string * V)) :
  Obj.ascending (Obj.indexedEntries o).
Proof.
  unfold Obj.indexedEntries.
  assert (G : forall acc : list (N * (string * V)),
    Obj.ascending acc ->
    Obj.ascending
      (fold_left
         (fun acc p =>
            match Obj.arrayIndex (fst p) with
            | Some n => Obj.insertIndexed n p acc
            | None => acc
            end) o acc)).
  { induction o as [ | p o IH]; intros acc Hacc; cbn [fold_left]; [exact Hacc | ].
    apply IH. destruct (Obj.arrayIndex (fst p)) as [n | ] eqn:E; [ | exact Hacc].
    apply insertIndexed_ascending; assumption. }
  apply G. split; constructor.
Qed.

(** An entry that is not below the entries kept so far goes last. *)
Lemma insertIndexed_last {V : Type} (p : string * V) (n : N)
    (l : list (N * (string * V))) :
  Forall (fun e => (fst e <= n)%N) l ->
  Obj.insertIndexed n p l = l ++ [(n, p)].
Proof.
  induction l as [ | [m q] l IH]; intros H; cbn [Obj.insertIndexed app]; [reflexivity | ].
  apply Forall_cons_iff in H. destruct H as [Hm H]. cbn in Hm.
  destruct (N.ltb_spec n m) as [Hlt | _].
  - exfalso. apply (N.lt_irrefl n). apply N.lt_le_trans with m; assumption.
  - f_equal. apply IH. exact H.
Qed.

(** Enumerating twice changes nothing. *)
Lemma enumerate_idempotent {V : Type} (o : list (string * V)) :
  Obj.enumerate (Obj.enumerate o) = Obj.enumerate o.
Proof.
  unfold Obj.enumerate at 2.
  pose proof (indexedEntries_ascending o) as Hasc.
  set (l := Obj.indexedEntries o) in *.
  set (named := filter Obj.isNamed o).
  assert (Hnamed : forallb Obj.isNamed named = true).
  { apply forallb_forall. intros p Hp. unfold named in Hp.
    apply filter_In in Hp. tauto. }
  unfold Obj.enumerate, Obj.indexedEntries.
  assert (G : forall l' acc : list (N * (string * V)),
    Obj.ascending (acc ++ l') ->
    fold_left
      (fun acc p =>
         match Obj.arrayIndex (fst p) with
         | Some n => Obj.insertIndexed n p acc
         | None => acc
         end) (map snd l' ++ named) acc
    = acc ++ l').
  { induction l' as [ | [n p] l' IH]; intros acc Hacc; cbn [map app fold_left snd].
    - rewrite app_nil_r.
      clear Hacc. revert acc. clear - Hnamed.
      induction named as [ | p named IH]; intros acc; cbn [fold_left]; [reflexivity | ].
      cbn [forallb] in Hnamed. apply andb_true_iff in Hnamed.
      destruct Hnamed as [Hp Hnamed]. unfold Obj.isNamed in Hp.
      destruct (Obj.arrayIndex (fst p)); [discriminate | ]. apply IH. exact Hnamed.
    - destruct Hacc as [Hs Ht].
      assert (Hp : Obj.arrayIndex (fst p) = Some n).
      { apply (proj1 (Forall_forall _ _) Ht (n, p)).
        apply in_or_app. right. left. reflexivity. }
      rewrite Hp.
      assert (Hle : Forall (fun e : N * (string * V) => (fst e <= n)%N) acc).
      { clear - Hs. induction acc as [ | a acc IH]; [constructor | ].
        cbn [app] in Hs. apply StronglySorted_inv in Hs. destruct Hs as [Hs Hall].
        constructor; [ | apply IH; exact Hs].
        apply (proj1 (Forall_forall _ _) Hall (n, p)).
        apply in_or_app. right. left. reflexivity. }
      rewrite (insertIndexed_last p n acc Hle).
      rewrite IH.
      + rewrite <- app_assoc. reflexivity.
      + rewrite <- app_assoc. split; assumption. }
  rewrite (G l []) by exact Hasc. cbn [app]. f_equal.
  rewrite filter_app.
  assert (H1 : filter Obj.isNamed (map snd l) = []).
  { destruct Hasc as [_ Ht]. clear - Ht.
    induction l as [ | [n p] l IH]; [reflexivity | ].
    apply Forall_cons_iff in Ht. destruct Ht as [Hp Ht]. cbn [fst snd] in Hp.
    cbn [map filter snd]. unfold Obj.isNamed at 1. rewrite Hp. apply IH. exact Ht. }
  assert (H2 : filter Obj.isNamed named = named).
  { clear - Hnamed. induction named as [ | p named IH]; [reflexivity | ].
    cbn [forallb] in Hnamed. apply andb_true_iff in Hnamed.
    destruct Hnamed as [Hp Hnamed]. cbn [filter]. rewrite Hp. f_equal.
    apply IH. exact Hnamed. }
  rewrite H1, H2. reflexivity.
Qed.

Lemma enumerationOrder_keys {V : Type} (o : list (string * V)) :
  enumerationOrder (Obj.keys o) = Obj.keys o.
Proof.
  unfold Obj.keys at 1.
  change (map fst (Obj.enumerate o)) with (Obj.ownKeys (Obj.enumerate o)).
  rewrite <- keys_enumerationOrder. unfold Obj.keys.
  rewrite enumerate_idempotent. reflexivity.
Qed.

Lemma keys_own {V : Type} (o : list (string * V)) :
  Obj.enumerate o = o -> Obj.keys o = Obj.ownKeys o.
Proof. intros H. unfold Obj.keys. rewrite H. reflexivity. Qed.

Lemma values_own {V : Type} (o : list (string * V)) :
  Obj.enumerate o = o -> Obj.values o = Obj.ownValues o.
Proof. intros H. unfold Obj.values. rewrite H. reflexivity. Qed.

(** A search that at most one entry satisfies finds the same entry in
    every order. *)
Lemma find_permutation {A : Type} (f : A -> bool) (l l' : list A) :
  Permutation l l' ->
  (forall x y, In x l -> In y l -> f x = true -> f y = true -> x = y) ->
  find f l = find f l'.
Proof.
  intros Hperm Huniq.
  destruct (find f l) as [x | ] eqn:E.
  - apply find_some in E. destruct E as [Hx Hfx].
    destruct (find f l') as [y | ] eqn:E'.
    + apply find_some in E'. destruct E' as [Hy Hfy].
      f_equal. apply Huniq; try assumption.
      apply (Permutation_in _ (Permutation_sym Hperm)). exact Hy.
    + exfalso. pose proof (find_none _ _ E' x) as Hnone.
      rewrite Hnone in Hfx; [discriminate | ].
      apply (Permutation_in _ Hperm). exact Hx.
  - symmetry. destruct (find f l') as [y | ] eqn:E'; [ | reflexivity].
    exfalso. apply find_some in E'. destruct E' as [Hy Hfy].
    pose proof (find_none _ _ E y) as Hnone.
    rewrite Hnone in Hfy; [discriminate | ].
    apply (Permutation_in _ (Permutation_sym Hperm)). exact Hy.
Qed.

End ObjOrder.

Lemma lastElement_app {A : Type} (l : list A) (x : A) :
  lastElement (l ++ [x]) = Some x.
Proof. unfold lastElement. rewrite rev_app_distr. reflexivity. Qed.

Lemma sumCounts_cons (s : SectionEntry) (l : list SectionEntry) :
  sumCounts (s :: l) = count s + sumCounts l.
Proof. reflexivity. Qed.

Section Built.

Variable cell : Type.
Variable this : FixedHeightListViewDataSource cell.
Variable dataBlob : list (string * list cell).

Lemma layout_keys (lastRow cumulativeHeight : Z) (ids : list string) :
  Obj.ownKeys (layout this dataBlob lastRow cumulativeHeight ids) = ids.
Proof.
  revert lastRow cumulativeHeight.
  induction ids as [ | sid ids IH]; intros; cbn; [reflexivity | ].
  f_equal. apply IH.
Qed.

Lemma fold_reduceSection (ids : list string) :
  NoDup ids ->
  forall result lastRow cumulativeHeight,
    (forall k, In k ids -> ~ In k (Obj.ownKeys result)) ->
    fst (fst (fold_left (reduceSection this dataBlob) ids
                        (result, lastRow, cumulativeHeight)))
    = result ++ layout this dataBlob lastRow cumulativeHeight ids.
Proof.
  induction 1 as [ | sid ids Hnotin Hnodup IH]; intros result lastRow cum Hfresh.
  - cbn. rewrite app_nil_r. reflexivity.
  - cbn [fold_left reduceSection layout].
    rewrite ObjFacts.set_fresh by (apply Hfresh; left; reflexivity).
    rewrite IH.
    + rewrite <- app_assoc. reflexivity.
    + intros k Hk. rewrite ObjFacts.keys_app. cbn. intros Hin.
      apply in_app_or in Hin. destruct Hin as [Hin | [-> | []]].
      * apply (Hfresh k); [right; exact Hk | exact Hin].
      * contradiction.
Qed.

Lemma flattenRows_flat_map (ids : list string) :
  flattenRows dataBlob ids = flat_map (rowsOfSection dataBlob) ids.
Proof.
  unfold flattenRows.
  assert (G : forall acc,
    fold_left
      (fun dataSource sectionId =>
         match Obj.get dataBlob sectionId with
         | Some cells => dataSource ++ SectionHeaderRow sectionId :: map CellRow cells
         | None => dataSource
         end) ids acc
    = acc ++ flat_map (rowsOfSection dataBlob) ids).
  { induction ids as [ | sid ids IH]; intros acc; cbn.
    - rewrite app_nil_r. reflexivity.
    - rewrite IH. unfold rowsOfSection.
      destruct (Obj.get dataBlob sid).
      + rewrite <- app_assoc. reflexivity.
      + reflexivity. }
  apply (G []).
Qed.

Lemma layout_chainedRows (lastRow cumulativeHeight : Z) (ids : list string) :
  chainedRows (lastRow + 1)
    (Obj.ownValues (layout this dataBlob lastRow cumulativeHeight ids)).
Proof.
  revert lastRow cumulativeHeight.
  induction ids as [ | sid ids IH]; intros; cbn; [exact I | ].
  repeat split; try lia. apply IH.
Qed.

Lemma layout_chainedOffsets (lastRow cumulativeHeight : Z) (ids : list string) :
  pixelHeights this ->
  chainedOffsets cumulativeHeight
    (Obj.ownValues (layout this dataBlob lastRow cumulativeHeight ids)).
Proof.
  intros Hpx. revert lastRow cumulativeHeight.
  induction ids as [ | sid ids IH]; intros; cbn; [exact I | ].
  destruct (Hpx sid) as [Hh Hc].
  repeat split; try assumption.
  - f_equal. f_equal. lia.
  - lia.
  - apply IH.
Qed.

Lemma layout_sumCounts (lastRow cumulativeHeight : Z) (ids : list string) :
  sumCounts (Obj.ownValues (layout this dataBlob lastRow cumulativeHeight
                           (filter (isPresent dataBlob) ids)))
  = Z.of_nat (List.length (flat_map (rowsOfSection dataBlob) ids)).
Proof.
  revert lastRow cumulativeHeight. unfold Obj.ownValues.
  induction ids as [ | sid ids IH]; intros; cbn [filter flat_map]; [reflexivity | ].
  rewrite length_app, Nat2Z.inj_add.
  change (isPresent dataBlob sid)
    with (match Obj.get dataBlob sid with Some _ => true | None => false end).
  unfold rowsOfSection at 1.
  destruct (Obj.get dataBlob sid) eqn:E.
  - cbn [layout map snd]. rewrite sumCounts_cons. cbn [count]. rewrite IH.
    unfold sectionCells. rewrite E. cbn [List.length]. rewrite length_map. lia.
  - rewrite IH. cbn. lia.
Qed.

Lemma header_row_present (ids : list string) (sid : string) :
  In (SectionHeaderRow sid) (flat_map (rowsOfSection dataBlob) ids) ->
  In sid (filter (isPresent dataBlob) ids).
Proof.
  induction ids as [ | sid' ids IH]; cbn; [tauto | ].
  intros H. apply in_app_or in H. unfold isPresent, rowsOfSection in *.
  destruct (Obj.get dataBlob sid') eqn:E.
  - destruct H as [[H | H] | H].
    + left. congruence.
    + apply in_map_iff in H. destruct H as [c [Hc _]]. discriminate Hc.
    + right. apply IH. exact H.
  - destruct H as [[] | H]. apply IH. exact H.
Qed.

End Built.

(** ** Chains of section entries *)

Lemma chainedRows_in (sections : list SectionEntry) :
  forall row s,
    chainedRows row sections -> In s sections ->
    row <= fst (range s) /\
    snd (range s) = fst (range s) + (count s - 1) /\
    1 <= count s /\
    snd (range s) < row + sumCounts sections.
Proof.
  induction sections as [ | s0 rest IH]; intros row s Hch Hin; [contradiction | ].
  cbn [chainedRows] in Hch. destruct Hch as [Hf [Hl [Hc Hrest]]].
  rewrite sumCounts_cons.
  assert (Hpos : forall r, chainedRows r rest -> 0 <= sumCounts rest).
  { clear. induction rest as [ | s1 rest IH]; intros r H; cbn [chainedRows] in H.
    - cbn. lia.
    - rewrite sumCounts_cons. destruct H as [_ [_ [Hc H]]].
      specialize (IH _ H). lia. }
  specialize (Hpos _ Hrest).
  destruct Hin as [<- | Hin].
  - lia.
  - destruct (IH _ _ Hrest Hin) as [H1 [H2 [H3 H4]]]. lia.
Qed.

Lemma chainedRows_parent (sections : list SectionEntry) :
  forall row i,
    chainedRows row sections ->
    row <= i < row + sumCounts sections ->
    exists s, find (containsRow i) sections = Some s.
Proof.
  induction sections as [ | s0 rest IH]; intros row i Hch Hi.
  - cbn in Hi. lia.
  - cbn [chainedRows] in Hch. destruct Hch as [Hf [Hl [Hc Hrest]]].
    rewrite sumCounts_cons in Hi. cbn [find].
    destruct (containsRow i s0) eqn:E; [eauto | ].
    apply (IH (snd (range s0) + 1)); [exact Hrest | ].
    unfold containsRow in E. apply andb_false_iff in E.
    destruct E as [E | E]; [rewrite Z.geb_leb in E | ]; apply Z.leb_gt in E; lia.
Qed.

Lemma chainedOffsets_final (sections : list SectionEntry) :
  forall y, chainedOffsets y sections -> y <= finalY y sections.
Proof.
  unfold finalY.
  induction sections as [ | s0 rest IH]; intros y Hch; cbn [fold_left]; [lia | ].
  cbn [chainedOffsets] in Hch.
  destruct Hch as [Hs [He [Hh [Hc [H0 [H1 Hrest]]]]]].
  specialize (IH _ Hrest). nia.
Qed.

Lemma chainedOffsets_in (sections : list SectionEntry) :
  forall y s,
    chainedOffsets y sections -> In s sections ->
    y <= startY s /\
    endY s = startY s + height s /\
    height s = sectionHeaderHeight s + cellHeight s * (count s - 1) /\
    1 <= count s /\
    0 <= sectionHeaderHeight s /\
    0 <= cellHeight s /\
    endY s <= finalY y sections.
Proof.
  induction sections as [ | s0 rest IH]; intros y s Hch Hin; [contradiction | ].
  cbn [chainedOffsets] in Hch.
  destruct Hch as [Hs [He [Hh [Hc [H0 [H1 Hrest]]]]]].
  pose proof (chainedOffsets_final _ _ Hrest) as Hfin.
  unfold finalY in *. cbn [fold_left].
  destruct Hin as [<- | Hin].
  - repeat split; try lia.
  - destruct (IH _ _ Hrest Hin) as [G1 [G2 [G3 [G4 [G5 [G6 G7]]]]]].
    repeat split; try lia. nia.
Qed.

Lemma chainedOffsets_find (sections : list SectionEntry) :
  forall y z,
    chainedOffsets y sections -> sections <> [] ->
    y <= z <= finalY y sections ->
    exists s, find (containsOffset z) sections = Some s.
Proof.
  induction sections as [ | s0 rest IH]; intros y z Hch Hne Hz; [contradiction | ].
  cbn [chainedOffsets] in Hch.
  destruct Hch as [Hs [He [Hh [Hc [H0 [H1 Hrest]]]]]].
  cbn [find]. destruct (containsOffset z s0) eqn:E; [eauto | ].
  unfold containsOffset in E. apply andb_false_iff in E.
  assert (Hgt : endY s0 < z).
  { destruct E as [E | E]; [rewrite Z.geb_leb in E | ]; apply Z.leb_gt in E; lia. }
  unfold finalY in Hz. cbn [fold_left] in Hz.
  apply (IH (endY s0)); [exact Hrest | | unfold finalY; lia].
  intros ->. cbn in Hz. lia.
Qed.

Lemma chainedOffsets_app (l1 l2 : list SectionEntry) :
  forall y, chainedOffsets y (l1 ++ l2) ->
    chainedOffsets y l1 /\ chainedOffsets (finalY y l1) l2.
Proof.
  induction l1 as [ | s0 rest IH]; intros y Hch; cbn [app] in Hch.
  - split; [exact I | exact Hch].
  - cbn [chainedOffsets] in Hch.
    destruct Hch as [Hs [He [Hh [Hc [H0 [H1 Hrest]]]]]].
    destruct (IH _ Hrest) as [G1 G2].
    split; [cbn [chainedOffsets]; tauto | exact G2].
Qed.

Lemma chainedRows_app (l1 l2 : list SectionEntry) :
  forall row, chainedRows row (l1 ++ l2) ->
    chainedRows row l1 /\ chainedRows (row + sumCounts l1) l2.
Proof.
  induction l1 as [ | s0 rest IH]; intros row Hch; cbn [app] in Hch.
  - split; [exact I | ]. cbn. rewrite Z.add_0_r. exact Hch.
  - cbn [chainedRows] in Hch. destruct Hch as [Hf [Hl [Hc Hrest]]].
    destruct (IH _ Hrest) as [G1 G2].
    split; [cbn [chainedRows]; tauto | ].
    rewrite sumCounts_cons.
    replace (row + (count s0 + sumCounts rest))
      with (snd (range s0) + 1 + sumCounts rest) by lia.
    exact G2.
Qed.

Lemma find_app_skip {A : Type} (f : A -> bool) (l1 l2 : list A) :
  (forall x, In x l1 -> f x = false) -> find f (l1 ++ l2) = find f l2.
Proof.
  induction l1 as [ | x l1 IH]; intros H; cbn; [reflexivity | ].
  rewrite (H x) by (left; reflexivity).
  apply IH. intros y Hy. apply H. right. exact Hy.
Qed.


(** ** Built data sources are well formed *)

Lemma chainedRows_unique (sections : list SectionEntry) :
  forall row i s s',
    chainedRows row sections -> In s sections -> In s' sections ->
    fst (range s) <= i <= snd (range s) ->
    fst (range s') <= i <= snd (range s') ->
    s = s'.
Proof.
  induction sections as [ | s0 l IH]; intros r i s s' Hch Hin Hin' Hr Hr';
    [contradiction | ].
  cbn [chainedRows] in Hch. destruct Hch as [Hf [Hl0 [Hc0 Hrest]]].
  destruct Hin as [-> | Hin]; destruct Hin' as [-> | Hin'].
  - reflexivity.
  - destruct (chainedRows_in _ _ _ Hrest Hin') as [G1 _]. lia.
  - destruct (chainedRows_in _ _ _ Hrest Hin) as [G1 _]. lia.
  - apply (IH _ i _ _ Hrest Hin Hin' Hr Hr').
Qed.

Lemma heightBeforeRowStep_shift (i h : Z) (s : SectionEntry) :
  heightBeforeRowStep i h s = h + heightBeforeRowStep i 0 s.
Proof.
  unfold heightBeforeRowStep.
  destruct ((i >? fst (range s)) && (i <=? snd (range s))); [lia | ].
  destruct (fst (range s) <? i); lia.
Qed.

Lemma fold_heightBeforeRowStep (i : Z) (l : list SectionEntry) :
  forall acc,
    fold_left (heightBeforeRowStep i) l acc
    = acc + sumZ (map (heightBeforeRowStep i 0) l).
Proof.
  induction l as [ | s l IH]; intros acc; cbn [fold_left map]; [cbn; lia | ].
  rewrite IH, heightBeforeRowStep_shift. cbn [sumZ fold_right].
  fold (sumZ (map (heightBeforeRowStep i 0) l)). lia.
Qed.

Lemma sumZ_permutation (l l' : list Z) : Permutation l l' -> sumZ l = sumZ l'.
Proof.
  unfold sumZ.
  induction 1 as [ | x l l' _ IH | x y l | l l' l'' _ IH1 _ IH2];
    cbn [fold_right] in *; lia.
Qed.

Section WellFormed.

Variable cell : Type.

Local Abbreviation DataSource := (FixedHeightListViewDataSource cell).

(** The offset before a row is a sum over the sections: the order in
    which they are visited does not matter. *)
Lemma getHeightBeforeRow_own (this : DataSource) (i : Z) :
  getHeightBeforeRow this i
  = fold_left (heightBeforeRowStep i) (Obj.ownValues (_lookup this)) 0.
Proof.
  unfold getHeightBeforeRow. rewrite !fold_heightBeforeRowStep. f_equal.
  apply sumZ_permutation. apply Permutation_map. apply ObjOrder.values_permutation.
Qed.

(** The row ranges of the sections are disjoint: the search for the
    section of a row finds the same section in every order. *)
Lemma getParentSection_own (this : DataSource) (i : Z) :
  rowsWellFormed this ->
  getParentSection this i = find (containsRow i) (Obj.ownValues (_lookup this)).
Proof.
  intros [_ [Hrows _]]. unfold getParentSection.
  change (fun section : SectionEntry =>
            (i >=? fst (range section)) && (i <=? snd (range section)))
    with (containsRow i).
  apply ObjOrder.find_permutation; [apply ObjOrder.values_permutation | ].
  intros x y Hx Hy Hfx Hfy.
  apply (proj1 (ObjOrder.values_in _ _)) in Hx.
  apply (proj1 (ObjOrder.values_in _ _)) in Hy.
  unfold containsRow in Hfx, Hfy.
  apply andb_true_iff in Hfx. destruct Hfx as [X1 X2].
  apply andb_true_iff in Hfy. destruct Hfy as [Y1 Y2].
  rewrite Z.geb_leb in X1, Y1.
  apply Z.leb_le in X1. apply Z.leb_le in X2.
  apply Z.leb_le in Y1. apply Z.leb_le in Y2.
  apply (chainedRows_unique _ 0 i x y Hrows Hx Hy); lia.
Qed.


Lemma getTotalHeight_final (this : DataSource) :
  NoDup (Obj.ownKeys (_lookup this)) ->
  Obj.enumerate (_lookup this) = _lookup this ->
  getTotalHeight this = finalY 0 (Obj.ownValues (_lookup this)).
Proof.
  unfold getTotalHeight, finalY. intros Hnd Henum.
  rewrite (ObjOrder.keys_own _ Henum). clear Henum.
  destruct (_lookup this) as [ | p o' _] using rev_ind; [reflexivity | ].
  destruct p as [k v].
  rewrite ObjFacts.keys_app, ObjFacts.values_app in *. cbn [Obj.ownKeys Obj.ownValues map fst snd] in *.
  rewrite lastElement_app.
  rewrite ObjFacts.get_app_fresh.
  - rewrite fold_left_app. reflexivity.
  - apply NoDup_remove_2 in Hnd. rewrite app_nil_r in Hnd. exact Hnd.
Qed.

Lemma built_lookup (this : DataSource) (dataBlob : list (string * list cell))
    (sectionIds : option (list string)) :
  NoDup (effectiveSectionIds dataBlob sectionIds) ->
  _lookup (cloneWithCellsAndSections this dataBlob sectionIds)
  = layout this dataBlob (-1) 0
      (filter (isPresent dataBlob) (effectiveSectionIds dataBlob sectionIds)).
Proof.
  intros Hnd. unfold cloneWithCellsAndSections. cbn [_lookup].
  fold (effectiveSectionIds dataBlob sectionIds).
  rewrite fold_reduceSection.
  - reflexivity.
  - apply NoDup_filter. exact Hnd.
  - intros k _ [].
Qed.

Lemma built_dataSource (this : DataSource) (dataBlob : list (string * list cell))
    (sectionIds : option (list string)) :
  _dataSource (cloneWithCellsAndSections this dataBlob sectionIds)
  = flat_map (rowsOfSection dataBlob) (effectiveSectionIds dataBlob sectionIds).
Proof.
  unfold cloneWithCellsAndSections. cbn [_dataSource].
  fold (effectiveSectionIds dataBlob sectionIds).
  apply flattenRows_flat_map.
Qed.

Lemma built_rowsWellFormed (this : DataSource)
    (dataBlob : list (string * list cell)) (sectionIds : option (list string)) :
  NoDup (effectiveSectionIds dataBlob sectionIds) ->
  rowsWellFormed (cloneWithCellsAndSections this dataBlob sectionIds).
Proof.
  intros Hnd. unfold rowsWellFormed, getRowCount.
  rewrite built_lookup by exact Hnd. rewrite built_dataSource.
  split; [ | split].
  - rewrite layout_keys. apply NoDup_filter. exact Hnd.
  - apply (layout_chainedRows _ this dataBlob (-1) 0).
  - symmetry. apply layout_sumCounts.
Qed.

Lemma built_offsetsWellFormed (this : DataSource)
    (dataBlob : list (string * list cell)) (sectionIds : option (list string)) :
  NoDup (effectiveSectionIds dataBlob sectionIds) ->
  pixelHeights this ->
  offsetsWellFormed (cloneWithCellsAndSections this dataBlob sectionIds).
Proof.
  intros Hnd Hpx. unfold offsetsWellFormed.
  rewrite built_lookup by exact Hnd.
  apply layout_chainedOffsets. exact Hpx.
Qed.

(** When the sections are listed in the order of enumeration, [_lookup]
    is enumerated in the order in which its entries were created. *)
Lemma built_enumerated (this : DataSource) (dataBlob : list (string * list cell))
    (sectionIds : option (list string)) :
  NoDup (effectiveSectionIds dataBlob sectionIds) ->
  enumeratedAsListed dataBlob sectionIds ->
  Obj.enumerate (_lookup (cloneWithCellsAndSections this dataBlob sectionIds))
  = _lookup (cloneWithCellsAndSections this dataBlob sectionIds).
Proof.
  intros Hnd Henum.
  assert (Hkeys : Obj.ownKeys (_lookup (cloneWithCellsAndSections this dataBlob sectionIds))
                  = presentSectionIds dataBlob sectionIds)
    by (rewrite built_lookup by exact Hnd; apply layout_keys).
  apply ObjOrder.enumerate_ordered; rewrite Hkeys.
  - apply NoDup_filter. exact Hnd.
  - exact Henum.
Qed.

Lemma sumCounts_nil_inv (sections : list SectionEntry) :
  0 < sumCounts sections -> sections <> [].
Proof. intros H ->. cbn in H. lia. Qed.




End WellFormed.

Lemma keys_all_present (cell : Type) (dataBlob : list (string * list cell)) :
  filter (isPresent dataBlob) (Obj.keys dataBlob) = Obj.keys dataBlob.
Proof.
  assert (G : forall ids, (forall k, In k ids -> isPresent dataBlob k = true) ->
                          filter (isPresent dataBlob) ids = ids).
  { induction ids as [ | k ids IH]; intros H; [reflexivity | ].
    cbn [filter]. rewrite (H k) by (left; reflexivity).
    f_equal. apply IH. intros k' Hk'. apply H. right. exact Hk'. }
  apply G. intros k Hk. unfold isPresent.
  apply (proj1 (ObjOrder.keys_in _ _)) in Hk.
  destruct (ObjFacts.get_in_keys _ _ Hk) as [v [Hv _]]. rewrite Hv. reflexivity.
Qed.

(** The sections are listed in the order of enumeration when the section
    ids are the default ones, the keys of the data blob, and when no
    section id is an integer numeral. *)
Lemma default_enumeratedAsListed (cell : Type) (dataBlob : list (string * list cell)) :
  enumeratedAsListed dataBlob None.
Proof.
  unfold enumeratedAsListed, presentSectionIds. cbn [effectiveSectionIds].
  rewrite keys_all_present. apply ObjOrder.enumerationOrder_keys.
Qed.

Lemma named_enumeratedAsListed (cell : Type) (dataBlob : list (string * list cell))
    (sectionIds : option (list string)) :
  forallb (fun k => negb (Obj.isIntegerKey k))
          (effectiveSectionIds dataBlob sectionIds) = true ->
  enumeratedAsListed dataBlob sectionIds.
Proof.
  intros H. apply ObjOrder.enumerationOrder_named.
  apply forallb_forall. intros k Hk. unfold presentSectionIds in Hk.
  apply filter_In in Hk. destruct Hk as [Hk _].
  apply (proj1 (forallb_forall _ _) H k Hk).
Qed.

(** * Properties of every built data source *)

Lemma exampleBlob_distinct : NoDup (effectiveSectionIds exampleBlob None).
Proof.
  change (NoDup ["A"; "B"]). repeat constructor; cbn; intuition discriminate.
Qed.

Lemma examplePixelHeights :
  pixelHeights (newDataSource string (fun _ => 20) (fun _ => 50)).
Proof. intros sid. cbn. lia. Qed.

Lemma exampleBlob_plain : plainCells exampleBlob = true.
Proof. reflexivity. Qed.




Lemma headerSectionId_some {cell : Type} {payload : Payload cell}
    (row : option (Row cell)) (sid : string) :
  headerSectionId row = Some sid ->
  row = Some (SectionHeaderRow sid) \/
  exists c, row = Some (CellRow c) /\ payloadSectionId c = Some sid.
Proof.
  unfold headerSectionId. destruct row as [[sid' | c] | ]; try discriminate.
  - destruct (String.eqb sid' ""); [discriminate | ]. intros H. left. congruence.
  - intros H. right. exists c. split; [reflexivity | exact H].
Qed.

(** The cell rows of a built data source are cells of the blob. *)
Lemma cell_row_in_blob {cell : Type} (dataBlob : list (string * list cell))
    (ids : list string) (c : cell) :
  In (CellRow c) (flat_map (rowsOfSection dataBlob) ids) ->
  exists sid cells, In (sid, cells) dataBlob /\ In c cells.
Proof.
  intros H. apply in_flat_map in H. destruct H as [sid [_ H]].
  unfold rowsOfSection in H.
  destruct (Obj.get dataBlob sid) as [cells | ] eqn:E; [ | contradiction].
  destruct H as [H | H]; [discriminate | ].
  apply in_map_iff in H. destruct H as [c' [Heq Hc']]. injection Heq as ->.
  exists sid, cells. split; [ | exact Hc'].
  clear Hc'. induction dataBlob as [ | [k v] o IH]; cbn in E; [discriminate | ].
  destruct (String.eqb_spec k sid) as [-> | Hne].
  - injection E as ->. left. reflexivity.
  - right. apply IH. exact E.
Qed.

Lemma plain_cell_row {cell : Type} {payload : Payload cell}
    (this : FixedHeightListViewDataSource cell)
    (dataBlob : list (string * list cell)) (sectionIds : option (list string))
    (c : cell) :
  plainCells dataBlob = true ->
  In (CellRow c) (_dataSource (cloneWithCellsAndSections this dataBlob sectionIds)) ->
  payloadSectionId c = None.
Proof.
  intros Hplain Hin. rewrite built_dataSource in Hin.
  apply cell_row_in_blob in Hin. destruct Hin as [sid [cells [Hblob Hc]]].
  unfold plainCells in Hplain.
  pose proof (proj1 (forallb_forall _ _) Hplain _ Hblob) as Hcells. cbn [snd] in Hcells.
  pose proof (proj1 (forallb_forall _ _) Hcells _ Hc) as Hcell.
  unfold isPlainCell in Hcell.
  destruct (payloadSectionId c); [discriminate | reflexivity].
Qed.

(** With plain cells, the rows [getRowHeight] takes for section headers
    are the header rows. *)
Lemma headerSectionId_built {cell : Type} {payload : Payload cell}
    (this : FixedHeightListViewDataSource cell)
    (dataBlob : list (string * list cell)) (sectionIds : option (list string))
    (i : Z) (sid : string) :
  plainCells dataBlob = true ->
  headerSectionId
    (arrayGet (_dataSource (cloneWithCellsAndSections this dataBlob sectionIds)) i)
  = Some sid ->
  In (SectionHeaderRow sid)
     (_dataSource (cloneWithCellsAndSections this dataBlob sectionIds)).
Proof.
  intros Hplain Hhead.
  assert (Hmem : forall row,
            arrayGet (_dataSource (cloneWithCellsAndSections this dataBlob sectionIds)) i
            = Some row ->
            In row (_dataSource (cloneWithCellsAndSections this dataBlob sectionIds))).
  { intros row Hrow. unfold arrayGet in Hrow. destruct (i <? 0); [discriminate | ].
    apply nth_error_In in Hrow. exact Hrow. }
  apply headerSectionId_some in Hhead. destruct Hhead as [Hrow | [c [Hrow Hc]]].
  - apply Hmem. exact Hrow.
  - exfalso. apply Hmem in Hrow.
    rewrite (plain_cell_row this dataBlob sectionIds c Hplain Hrow) in Hc.
    discriminate.
Qed.

(** Every valid row has a height. *)
Lemma getRowHeight_valid {cell : Type} {payload : Payload cell}
    (this : FixedHeightListViewDataSource cell)
    (dataBlob : list (string * list cell)) (sectionIds : option (list string))
    (i : Z) :
  NoDup (effectiveSectionIds dataBlob sectionIds) ->
  plainCells dataBlob = true ->
  0 <= i < getRowCount (cloneWithCellsAndSections this dataBlob sectionIds) ->
  exists h,
    getRowHeight (cloneWithCellsAndSections this dataBlob sectionIds) i
    = Return (Some h).
Proof.
  intros Hnd Hplain Hi.
  pose proof (built_rowsWellFormed _ this dataBlob sectionIds Hnd) as Hwf.
  pose proof Hwf as [Hkeys [Hrows Hcount]].
  unfold getRowHeight.
  destruct (headerSectionId _) as [sid | ] eqn:Hhead.
  - apply (headerSectionId_built this dataBlob sectionIds i sid Hplain) in Hhead.
    rewrite built_dataSource in Hhead. apply header_row_present in Hhead.
    rewrite <- (layout_keys _ this dataBlob (-1) 0) in Hhead.
    rewrite <- built_lookup in Hhead by exact Hnd.
    destruct (ObjFacts.get_in_keys _ _ Hhead) as [s [Hs _]].
    unfold getSectionHeaderHeight. rewrite Hs. cbn [bind]. eauto.
  - unfold getCellHeight. rewrite (getParentSection_own _ _ i Hwf).
    destruct (chainedRows_parent _ 0 i Hrows) as [s Hs]; [lia | ].
    rewrite Hs. eauto.
Qed.

(** C9, as stated, fails on two kinds of built data sources.  When a
    section id is listed twice, [_lookup] keeps the entry of the second
    copy only: a row of the first copy has no section, its height is
    [undefined] and the height after it is [NaN].  When a cell is an
    object with a [sectionId] property that names no section,
    [getRowHeight] takes the cell for a header and raises a [TypeError]. *)
Lemma C9_round_trip_counterexample :
  (0 <= 1 < getRowCount
              (cloneWithCellsAndSections
                 (newDataSource string (fun _ => 20) (fun _ => 50))
                 [("A", ["A0"])] (Some ["A"; "A"])) /\
   getRowHeight
     (cloneWithCellsAndSections
        (newDataSource string (fun _ => 20) (fun _ => 50))
        [("A", ["A0"])] (Some ["A"; "A"])) 1 = Return None /\
   getHeightAfterRow
     (cloneWithCellsAndSections
        (newDataSource string (fun _ => 20) (fun _ => 50))
        [("A", ["A0"])] (Some ["A"; "A"])) 1 = NotFinite) /\
  (0 <= 1 < getRowCount
              (cloneWithCellsAndSections
                 (newDataSource TaggedCell (fun _ => 20) (fun _ => 50))
                 [("A", [{| label := "A0"; tag := Some "Z" |}])] None) /\
   throws (getRowHeight
             (cloneWithCellsAndSections
                (newDataSource TaggedCell (fun _ => 20) (fun _ => 50))
                [("A", [{| label := "A0"; tag := Some "Z" |}])] None) 1) /\
   throws (getHeightAfterRow
             (cloneWithCellsAndSections
                (newDataSource TaggedCell (fun _ => 20) (fun _ => 50))
                [("A", [{| label := "A0"; tag := Some "Z" |}])] None) 1)).
Proof.
  split.
  - split; [vm_compute; split; [discriminate | reflexivity] | ].
    split; vm_compute; reflexivity.
  - split; [vm_compute; split; [discriminate | reflexivity] | ].
    split; eexists; vm_compute; reflexivity.
Qed.

(** C9 (amended: round trip).  For a data source built from distinct
    section ids, none of them a property name of [Object.prototype], whose
    cells carry no truthy [sectionId] property, and for every row index [i]
    in [0, rowCount), [getRowHeight i] and [getHeightAfterRow i] return
    numbers and
    [getHeightBeforeRow i + getRowHeight i + getHeightAfterRow i]
    is [getTotalHeight]. *)
Theorem C9_round_trip (cell : Type) {payload : Payload cell}
    (this : FixedHeightListViewDataSource cell)
    (dataBlob : list (string * list cell)) (sectionIds : option (list string))
    (i : Z) :
  NoDup (effectiveSectionIds dataBlob sectionIds) ->
  ownSectionIds (effectiveSectionIds dataBlob sectionIds) = true ->
  plainCells dataBlob = true ->
  0 <= i < getRowCount (cloneWithCellsAndSections this dataBlob sectionIds) ->
  exists rowHeight heightAfter,
    getRowHeight (cloneWithCellsAndSections this dataBlob sectionIds) i
      = Return (Some rowHeight) /\
    getHeightAfterRow (cloneWithCellsAndSections this dataBlob sectionIds) i
      = Return heightAfter /\
    getHeightBeforeRow (cloneWithCellsAndSections this dataBlob sectionIds) i
      + rowHeight + heightAfter
    = getTotalHeight (cloneWithCellsAndSections this dataBlob sectionIds).
Proof.
  intros Hnd _ Hplain Hi.
  destruct (getRowHeight_valid this dataBlob sectionIds i Hnd Hplain Hi) as [h Hh].
  exists h. eexists. split; [exact Hh | ].
  unfold getHeightAfterRow. rewrite Hh. cbn [bind].
  split; [reflexivity | lia].
Qed.

Lemma C9_round_trip_witness :
  exists rowHeight heightAfter,
    getRowHeight exampleDataSource 5 = Return (Some rowHeight) /\
    getHeightAfterRow exampleDataSource 5 = Return heightAfter /\
    getHeightBeforeRow exampleDataSource 5 + rowHeight + heightAfter
    = getTotalHeight exampleDataSource.
Proof.
  apply (@C9_round_trip string _ (newDataSource string (fun _ => 20) (fun _ => 50))
           exampleBlob None 5).
  - exact exampleBlob_distinct.
  - reflexivity.
  - reflexivity.
  - vm_compute. split; [discriminate | reflexivity].
Defined.

Lemma nth_error_consecutive {A : Type} (l : list A) (k : nat) (a b : A) :
  nth_error l k = Some a -> nth_error l (S k) = Some b ->
  exists l1 l2, l = l1 ++ a :: b :: l2.
Proof.
  revert l. induction k as [ | k IH]; intros l Ha Hb.
  - destruct l as [ | x [ | y l]]; cbn in *; try discriminate.
    exists [], l. cbn. congruence.
  - destruct l as [ | x l]; [discriminate | ].
    destruct (IH l Ha Hb) as [l1 [l2 ->]].
    exists (x :: l1), l2. reflexivity.
Qed.

(** C10, as stated, fails in two ways.  When the cells of the earlier
    section have no height: with header height 20 and cell height 0 the two
    sections of the example meet at offset 20, and [getRowAtHeight 20] is
    row 0, the header row of the first section, not its last row 3.  When
    a section id is an array index: with the sections listed as B, 1 the
    entry of 1 is enumerated first, so at offset 170, where B ends and 1
    starts, the scan stops at 1 and [getRowAtHeight 170] is row 4, the
    header row of the later section. *)
Lemma C10_boundary_counterexample :
  (exists sk sk1,
     nth_error
       (Obj.values
          (_lookup (cloneWithCellsAndSections
                      (newDataSource string (fun _ => 20) (fun _ => 0))
                      exampleBlob None))) 0 = Some sk /\
     nth_error
       (Obj.values
          (_lookup (cloneWithCellsAndSections
                      (newDataSource string (fun _ => 20) (fun _ => 0))
                      exampleBlob None))) 1 = Some sk1 /\
     2 <= count sk /\ 2 <= count sk1 /\
     endY sk = 20 /\ startY sk1 = 20 /\ snd (range sk) = 3 /\
     getRowAtHeight
       (cloneWithCellsAndSections
          (newDataSource string (fun _ => 20) (fun _ => 0)) exampleBlob None)
       (endY sk) = Return 0) /\
  (exists sk sk1,
     Obj.get
       (_lookup (cloneWithCellsAndSections
                   (newDataSource string (fun _ => 20) (fun _ => 50))
                   [("B", ["B0"; "B1"; "B2"]); ("1", ["10"; "11"])]
                   (Some ["B"; "1"]))) "B" = Some sk /\
     Obj.get
       (_lookup (cloneWithCellsAndSections
                   (newDataSource string (fun _ => 20) (fun _ => 50))
                   [("B", ["B0"; "B1"; "B2"]); ("1", ["10"; "11"])]
                   (Some ["B"; "1"]))) "1" = Some sk1 /\
     2 <= count sk /\ 2 <= count sk1 /\
     endY sk = 170 /\ startY sk1 = 170 /\
     snd (range sk) = 3 /\ fst (range sk1) = 4 /\
     Obj.keys
       (_lookup (cloneWithCellsAndSections
                   (newDataSource string (fun _ => 20) (fun _ => 50))
                   [("B", ["B0"; "B1"; "B2"]); ("1", ["10"; "11"])]
                   (Some ["B"; "1"]))) = ["1"; "B"] /\
     getRowAtHeight
       (cloneWithCellsAndSections
          (newDataSource string (fun _ => 20) (fun _ => 50))
          [("B", ["B0"; "B1"; "B2"]); ("1", ["10"; "11"])] (Some ["B"; "1"]))
       (endY sk) = Return 4).
Proof.
  split.
  - eexists. eexists.
    split; [vm_compute; reflexivity | ]. split; [vm_compute; reflexivity | ].
    split; [vm_compute; discriminate | ]. split; [vm_compute; discriminate | ].
    repeat split; vm_compute; reflexivity.
  - eexists. eexists.
    split; [vm_compute; reflexivity | ]. split; [vm_compute; reflexivity | ].
    split; [vm_compute; discriminate | ]. split; [vm_compute; discriminate | ].
    repeat split; vm_compute; reflexivity.
Qed.

(** C10 (amended: section boundary).  In a data source built from distinct
    section ids, none of them a property name of [Object.prototype], that
    are listed in the order in which JavaScript enumerates them, with
    heights that are not negative, let [sk] and [sk1] be the entries of two
    consecutive sections, the first with at least one cell of positive
    height.  Then [endY sk = startY sk1], the scan for that offset stops at
    [sk], and [getRowAtHeight (endY sk)] is the last row of [sk], the row
    before the header row of [sk1]. *)
Theorem C10_boundary_resolved_in_earlier_section (cell : Type)
    (this : FixedHeightListViewDataSource cell)
    (dataBlob : list (string * list cell)) (sectionIds : option (list string))
    (k : nat) (sk sk1 : SectionEntry) :
  NoDup (effectiveSectionIds dataBlob sectionIds) ->
  ownSectionIds (effectiveSectionIds dataBlob sectionIds) = true ->
  enumeratedAsListed dataBlob sectionIds ->
  pixelHeights this ->
  nth_error (Obj.values (_lookup (cloneWithCellsAndSections this dataBlob sectionIds)))
            k = Some sk ->
  nth_error (Obj.values (_lookup (cloneWithCellsAndSections this dataBlob sectionIds)))
            (S k) = Some sk1 ->
  2 <= count sk ->
  0 < cellHeight sk ->
  endY sk = startY sk1 /\
  find (containsOffset (endY sk))
       (Obj.values (_lookup (cloneWithCellsAndSections this dataBlob sectionIds)))
    = Some sk /\
  getRowAtHeight (cloneWithCellsAndSections this dataBlob sectionIds) (endY sk)
    = Return (snd (range sk)) /\
  snd (range sk) + 1 = fst (range sk1).
Proof.
  intros Hnd _ Henum Hpx Hk Hk1 Hcells Hcell.
  pose proof (built_rowsWellFormed _ this dataBlob sectionIds Hnd)
    as [Hkeys [Hrows Hcount]].
  pose proof (built_offsetsWellFormed _ this dataBlob sectionIds Hnd Hpx) as Hoff.
  unfold offsetsWellFormed in Hoff.
  pose proof (built_enumerated _ this dataBlob sectionIds Hnd Henum) as Hown.
  pose proof (getTotalHeight_final _ _ Hkeys Hown) as Htotal.
  rewrite (ObjOrder.values_own _ Hown) in *.
  set (ds := cloneWithCellsAndSections this dataBlob sectionIds) in *.
  destruct (nth_error_consecutive _ _ _ _ Hk Hk1) as [l1 [l2 Hsplit]].
  assert (Hin : In sk (Obj.ownValues (_lookup ds))).
  { rewrite Hsplit. apply in_or_app. right. left. reflexivity. }
  destruct (chainedOffsets_in _ _ _ Hoff Hin) as [_ [_ [_ [_ [_ [_ Hend]]]]]].
  rewrite Hsplit in Hoff, Hrows.
  destruct (chainedOffsets_app _ _ _ Hoff) as [Hoff1 Hoff2].
  destruct (chainedRows_app _ _ _ Hrows) as [_ Hrows2].
  cbn [chainedOffsets] in Hoff2.
  destruct Hoff2 as [Hs [He [Hh [Hc [H0 [H1 [Hs1 _]]]]]]].
  cbn [chainedRows] in Hrows2.
  destruct Hrows2 as [Hf [Hl [_ [Hf1 _]]]].
  pose proof (chainedOffsets_final _ _ Hoff1) as Hfin1.
  assert (Hgrow : startY sk < endY sk) by nia.
  assert (Hfind : find (containsOffset (endY sk)) (Obj.ownValues (_lookup ds)) = Some sk).
  { rewrite Hsplit. rewrite find_app_skip.
    - cbn [find]. unfold containsOffset.
      replace (endY sk >=? startY sk) with true
        by (symmetry; rewrite Z.geb_leb; apply Z.leb_le; lia).
      rewrite Z.leb_refl. reflexivity.
    - intros s Hs_in.
      destruct (chainedOffsets_in _ _ _ Hoff1 Hs_in) as [_ [_ [_ [_ [_ [_ G]]]]]].
      unfold containsOffset. apply andb_false_iff. right.
      apply Z.leb_gt. lia. }
  split; [symmetry; exact Hs1 | ]. split; [exact Hfind | ].
  split; [ | lia].
  unfold getRowAtHeight.
  destruct (Z.ltb_spec (endY sk) 0) as [Hneg | _]; [lia | ].
  destruct (Z.gtb_spec (endY sk) (getTotalHeight ds)) as [Hbig | _]; [lia | ].
  change (fun value : SectionEntry =>
            (endY sk >=? startY value) && (endY sk <=? endY value))
    with (containsOffset (endY sk)).
  rewrite (ObjOrder.values_own _ Hown). rewrite Hfind.
  destruct (Z.leb_spec (endY sk - startY sk) (sectionHeaderHeight sk)) as [Hle | _];
    [nia | ].
  destruct (Z.eqb_spec (cellHeight sk) 0) as [E | _]; [lia | ].
  replace (endY sk - startY sk - sectionHeaderHeight sk)
    with ((count sk - 1) * cellHeight sk) by lia.
  rewrite Z.div_mul by lia.
  f_equal. lia.
Qed.

Lemma C10_boundary_resolved_in_earlier_section_witness :
  exists sk sk1,
    nth_error (Obj.values (_lookup exampleDataSource)) 0 = Some sk /\
    nth_error (Obj.values (_lookup exampleDataSource)) 1 = Some sk1 /\
    endY sk = 170 /\
    endY sk = startY sk1 /\
    getRowAtHeight exampleDataSource (endY sk) = Return (snd (range sk)) /\
    snd (range sk) + 1 = fst (range sk1).
Proof.
  eexists. eexists.
  split; [reflexivity | ]. split; [reflexivity | ]. split; [reflexivity | ].
  match goal with
  | |- endY ?a = startY ?b /\ _ =>
      destruct (C10_boundary_resolved_in_earlier_section string
                  (newDataSource string (fun _ => 20) (fun _ => 50))
                  exampleBlob None 0%nat a b
                  exampleBlob_distinct eq_refl eq_refl examplePixelHeights
                  eq_refl eq_refl)
        as [G1 [_ [G2 G3]]]
  end.
  - vm_compute. discriminate.
  - reflexivity.
  - split; [exact G1 | ]. split; [exact G2 | exact G3].
Defined.

(** * Offsets before a row *)

Lemma chainedOffsets_pixels (sections : list SectionEntry) :
  forall y, chainedOffsets y sections -> chainedPixels y sections.
Proof.
  induction sections as [ | s rest IH]; intros y H; [exact I | ].
  cbn [chainedOffsets] in H. cbn [chainedPixels].
  destruct H as [H1 [H2 [H3 [_ [_ [_ H4]]]]]]. auto.
Qed.

Lemma finalY_cons (y : Z) (s : SectionEntry) (rest : list SectionEntry) :
  finalY y (s :: rest) = finalY (endY s) rest.
Proof. reflexivity. Qed.

Lemma sumCounts_nonneg (sections : list SectionEntry) :
  forall row, chainedRows row sections -> 0 <= sumCounts sections.
Proof.
  induction sections as [ | s rest IH]; intros row H; cbn [chainedRows] in H.
  - cbn. lia.
  - rewrite sumCounts_cons. destruct H as [_ [_ [Hc H]]].
    specialize (IH _ H). lia.
Qed.

Ltac split_tests :=
  repeat match goal with
         | |- context [?a >? ?b] => destruct (Z.gtb_spec a b)
         | |- context [?a <=? ?b] => destruct (Z.leb_spec a b)
         | |- context [?a <? ?b] => destruct (Z.ltb_spec a b)
         | |- context [?a =? ?b] => destruct (Z.eqb_spec a b)
         end; cbn [andb].

Lemma before_low (sections : list SectionEntry) :
  forall row i acc,
    chainedRows row sections -> i <= row ->
    fold_left (heightBeforeRowStep i) sections acc = acc.
Proof.
  induction sections as [ | s rest IH]; intros row i acc Hch Hi; [reflexivity | ].
  cbn [chainedRows] in Hch. destruct Hch as [Hf [Hl [Hc Hrest]]].
  cbn [fold_left]. rewrite (IH (snd (range s) + 1)) by (assumption || lia).
  unfold heightBeforeRowStep. split_tests; lia.
Qed.

Lemma before_high (sections : list SectionEntry) :
  forall row y i acc,
    chainedRows row sections -> chainedPixels y sections ->
    row + sumCounts sections <= i ->
    fold_left (heightBeforeRowStep i) sections acc = acc + (finalY y sections - y).
Proof.
  induction sections as [ | s rest IH]; intros row y i acc Hch Hpx Hi.
  - cbn. lia.
  - cbn [chainedRows] in Hch. destruct Hch as [Hf [Hl [Hc Hrest]]].
    cbn [chainedPixels] in Hpx. destruct Hpx as [Hs [He [Hh Hprest]]].
    rewrite sumCounts_cons in Hi.
    pose proof (sumCounts_nonneg _ _ Hrest) as Hnn.
    cbn [fold_left]. rewrite finalY_cons.
    rewrite (IH (snd (range s) + 1) (endY s)) by (assumption || lia).
    unfold heightBeforeRowStep. split_tests; lia.
Qed.

Lemma before_inside (sections : list SectionEntry) :
  forall row y i acc s,
    chainedRows row sections -> chainedPixels y sections ->
    In s sections ->
    fst (range s) <= i <= snd (range s) + 1 ->
    fold_left (heightBeforeRowStep i) sections acc
    = acc + (startY s - y)
      + (if i =? fst (range s) then 0
         else sectionHeaderHeight s + (i - 1 - fst (range s)) * cellHeight s).
Proof.
  induction sections as [ | s0 rest IH]; intros row y i acc s Hch Hpx Hin Hi;
    [contradiction | ].
  cbn [chainedRows] in Hch. destruct Hch as [Hf [Hl [Hc Hrest]]].
  cbn [chainedPixels] in Hpx. destruct Hpx as [Hs [He [Hh Hprest]]].
  cbn [fold_left]. destruct Hin as [<- | Hin].
  - rewrite (before_low rest (snd (range s0) + 1)) by (assumption || lia).
    unfold heightBeforeRowStep. split_tests; try lia.
    replace (i - 1 - fst (range s0)) with (count s0 - 1) by lia. lia.
  - destruct (chainedRows_in _ _ _ Hrest Hin) as [R1 _].
    rewrite (IH (snd (range s0) + 1) (endY s0) i _ s) by (assumption || lia).
    unfold heightBeforeRowStep. split_tests; lia.
Qed.

Lemma before_monotone (sections : list SectionEntry) (i j : Z) :
  i <= j ->
  forall row y acc acc',
    chainedRows row sections -> chainedOffsets y sections -> acc <= acc' ->
    fold_left (heightBeforeRowStep i) sections acc
    <= fold_left (heightBeforeRowStep j) sections acc'.
Proof.
  intros Hij.
  induction sections as [ | s rest IH]; intros row y acc acc' Hch Hoff Hacc;
    [exact Hacc | ].
  cbn [chainedRows] in Hch. destruct Hch as [Hf [Hl [Hc Hrest]]].
  cbn [chainedOffsets] in Hoff.
  destruct Hoff as [Hs [He [Hh [_ [H0 [H1 Horest]]]]]].
  cbn [fold_left]. apply (IH _ _ _ _ Hrest Horest).
  unfold heightBeforeRowStep. split_tests; nia.
Qed.

Module ObjMore.

Lemma get_some_in {V : Type} (o : list (string * V)) (k : string) (v : V) :
  Obj.get o k = Some v -> In (k, v) o.
Proof.
  induction o as [ | [k' v'] o IH]; cbn; [discriminate | ].
  destruct (String.eqb_spec k' k) as [-> | Hne].
  - intros H. injection H as ->. left. reflexivity.
  - intros H. right. apply IH. exact H.
Qed.

Lemma get_none {V : Type} (o : list (string * V)) (k : string) :
  ~ In k (Obj.ownKeys o) -> Obj.get o k = None.
Proof.
  induction o as [ | [k' v'] o IH]; cbn; intros H; [reflexivity | ].
  destruct (String.eqb_spec k' k) as [-> | Hne].
  - exfalso. apply H. left. reflexivity.
  - apply IH. intros Hin. apply H. right. exact Hin.
Qed.

Lemma get_some_keys {V : Type} (o : list (string * V)) (k : string) (v : V) :
  Obj.get o k = Some v -> In k (Obj.ownKeys o) /\ In v (Obj.ownValues o).
Proof.
  intros H. apply get_some_in in H. split.
  - apply (in_map fst) in H. exact H.
  - apply (in_map snd) in H. exact H.
Qed.

End ObjMore.

Section BuiltMore.

Variable cell : Type.
Variable this : FixedHeightListViewDataSource cell.
Variable dataBlob : list (string * list cell).

Lemma layout_chainedPixels (lastRow cumulativeHeight : Z) (ids : list string) :
  chainedPixels cumulativeHeight
    (Obj.ownValues (layout this dataBlob lastRow cumulativeHeight ids)).
Proof.
  revert lastRow cumulativeHeight.
  induction ids as [ | sid ids IH]; intros; cbn; [exact I | ].
  repeat split.
  - f_equal. f_equal. lia.
  - apply IH.
Qed.

Lemma layout_entries (ids : list string) :
  forall lastRow cumulativeHeight k s,
    In (k, s) (layout this dataBlob lastRow cumulativeHeight ids) ->
    entryOf this dataBlob k s.
Proof.
  induction ids as [ | sid ids IH]; intros lastRow cum k s Hin; [contradiction | ].
  cbn [layout] in Hin. destruct Hin as [Heq | Hin].
  - injection Heq as <- <-. unfold entryOf. cbn. auto.
  - apply (IH _ _ _ _ Hin).
Qed.

Lemma layout_rows (ids : list string) :
  forall lastRow cumulativeHeight s i,
    In s (Obj.ownValues (layout this dataBlob lastRow cumulativeHeight
                        (filter (isPresent dataBlob) ids))) ->
    fst (range s) <= i <= snd (range s) ->
    lastRow + 1 <= fst (range s) /\
    nth_error (flat_map (rowsOfSection dataBlob) ids)
              (Z.to_nat (i - (lastRow + 1)))
    = nth_error (SectionHeaderRow (sectionId s)
                 :: map CellRow (sectionCells dataBlob (sectionId s)))
                (Z.to_nat (i - fst (range s))).
Proof.
  unfold Obj.ownValues.
  induction ids as [ | sid ids IH]; intros lastRow cum s i Hin Hi;
    [contradiction | ].
  cbn [filter flat_map] in *.
  change (isPresent dataBlob sid)
    with (match Obj.get dataBlob sid with Some _ => true | None => false end) in Hin.
  unfold rowsOfSection at 1.
  destruct (Obj.get dataBlob sid) as [cells | ] eqn:E.
  - assert (Hcells : sectionCells dataBlob sid = cells)
      by (unfold sectionCells; rewrite E; reflexivity).
    cbn [layout map snd] in Hin. rewrite Hcells in Hin.
    destruct Hin as [<- | Hin].
    + cbn [range fst snd sectionId] in *. rewrite Hcells.
      split; [lia | ].
      apply nth_error_app1. cbn [List.length]. rewrite length_map. lia.
    + destruct (IH _ _ _ _ Hin Hi) as [Hlow Heq].
      split; [lia | ].
      rewrite nth_error_app2 by (cbn [List.length]; rewrite length_map; lia).
      rewrite <- Heq. f_equal. cbn [List.length]. rewrite length_map. lia.
  - apply (IH _ _ _ _ Hin Hi).
Qed.

End BuiltMore.

(** ** The geometry of a data source built from distinct section ids *)

Section Geometry.

Variable cell : Type.
Variable this : FixedHeightListViewDataSource cell.
Variable dataBlob : list (string * list cell).
Variable sectionIds : option (list string).
Hypothesis distinct : NoDup (effectiveSectionIds dataBlob sectionIds).

Local Abbreviation built := (cloneWithCellsAndSections this dataBlob sectionIds).
Local Abbreviation entries := (Obj.ownValues (_lookup built)).

Lemma geo_lookup :
  _lookup built = layout this dataBlob (-1) 0 (presentSectionIds dataBlob sectionIds).
Proof. apply built_lookup. exact distinct. Qed.

Lemma geo_keys : Obj.ownKeys (_lookup built) = presentSectionIds dataBlob sectionIds.
Proof. rewrite geo_lookup. apply layout_keys. Qed.

Lemma geo_rows : chainedRows 0 entries.
Proof. apply (built_rowsWellFormed _ this dataBlob sectionIds distinct). Qed.

Lemma geo_count : getRowCount built = sumCounts entries.
Proof. apply (built_rowsWellFormed _ this dataBlob sectionIds distinct). Qed.

Lemma geo_pixels : chainedPixels 0 entries.
Proof. rewrite geo_lookup. apply layout_chainedPixels. Qed.

Lemma geo_enumerated :
  enumeratedAsListed dataBlob sectionIds ->
  Obj.values (_lookup built) = entries.
Proof.
  intros Henum. apply ObjOrder.values_own.
  apply built_enumerated; assumption.
Qed.

Lemma geo_total :
  enumeratedAsListed dataBlob sectionIds ->
  getTotalHeight built = finalY 0 entries.
Proof.
  intros Henum. apply getTotalHeight_final.
  - apply (built_rowsWellFormed _ this dataBlob sectionIds distinct).
  - apply built_enumerated; assumption.
Qed.

Lemma geo_entry (s : SectionEntry) :
  In s entries -> entryOf this dataBlob (sectionId s) s.
Proof.
  intros Hin. apply in_map_iff in Hin. destruct Hin as [[k s'] [Heq Hin]].
  cbn in Heq. subst s'. rewrite geo_lookup in Hin.
  pose proof (layout_entries _ _ _ _ _ _ _ _ Hin) as He.
  rewrite (proj1 He). exact He.
Qed.

Lemma geo_get (sid : string) :
  In sid (presentSectionIds dataBlob sectionIds) ->
  exists s, Obj.get (_lookup built) sid = Some s /\ In s entries /\
            entryOf this dataBlob sid s.
Proof.
  intros Hin. rewrite <- geo_keys in Hin.
  destruct (ObjFacts.get_in_keys _ _ Hin) as [s [Hget Hs]].
  exists s. split; [exact Hget | ]. split; [exact Hs | ].
  apply ObjMore.get_some_in in Hget. rewrite geo_lookup in Hget.
  apply (layout_entries _ _ _ _ _ _ _ _ Hget).
Qed.

Lemma geo_range (s : SectionEntry) :
  In s entries ->
  0 <= fst (range s) /\
  snd (range s) = fst (range s) + (count s - 1) /\
  1 <= count s /\
  snd (range s) < getRowCount built.
Proof.
  intros Hin. rewrite geo_count.
  destruct (chainedRows_in _ _ _ geo_rows Hin) as [H1 [H2 [H3 H4]]].
  repeat split; lia.
Qed.

Lemma geo_parent (i : Z) :
  0 <= i < getRowCount built ->
  exists s, getParentSection built i = Some s /\ In s entries /\
            fst (range s) <= i <= snd (range s).
Proof.
  intros Hi. rewrite geo_count in Hi.
  destruct (chainedRows_parent _ 0 i geo_rows) as [s Hs]; [lia | ].
  exists s.
  rewrite (getParentSection_own _ _ i
             (built_rowsWellFormed _ this dataBlob sectionIds distinct)).
  split; [exact Hs | ].
  apply find_some in Hs. destruct Hs as [Hin Hc]. split; [exact Hin | ].
  unfold containsRow in Hc. apply andb_true_iff in Hc. destruct Hc as [H1 H2].
  rewrite Z.geb_leb in H1. apply Z.leb_le in H1. apply Z.leb_le in H2. lia.
Qed.

Lemma geo_row_at (s : SectionEntry) (i : Z) :
  In s entries -> fst (range s) <= i <= snd (range s) ->
  arrayGet (_dataSource built) i
  = nth_error (SectionHeaderRow (sectionId s)
               :: map CellRow (sectionCells dataBlob (sectionId s)))
              (Z.to_nat (i - fst (range s))).
Proof.
  intros Hin Hi. destruct (geo_range s Hin) as [H0 _].
  unfold arrayGet. destruct (Z.ltb_spec i 0); [lia | ].
  rewrite built_dataSource. rewrite geo_lookup in Hin.
  destruct (layout_rows _ this dataBlob _ _ _ _ _ Hin Hi) as [_ Heq].
  rewrite <- Heq. f_equal. lia.
Qed.

Lemma geo_before (s : SectionEntry) (i : Z) :
  In s entries -> fst (range s) <= i <= snd (range s) + 1 ->
  getHeightBeforeRow built i
  = startY s
    + (if i =? fst (range s) then 0
       else sectionHeaderHeight s + (i - 1 - fst (range s)) * cellHeight s).
Proof.
  intros Hin Hi. rewrite getHeightBeforeRow_own.
  rewrite (before_inside _ 0 0 i 0 s geo_rows geo_pixels Hin Hi). lia.
Qed.

Lemma geo_before_low (i : Z) : i <= 0 -> getHeightBeforeRow built i = 0.
Proof.
  intros Hi. rewrite getHeightBeforeRow_own. apply (before_low _ 0 i 0 geo_rows Hi).
Qed.

Lemma geo_before_high (i : Z) :
  enumeratedAsListed dataBlob sectionIds ->
  getRowCount built <= i -> getHeightBeforeRow built i = getTotalHeight built.
Proof.
  intros Henum Hi. rewrite geo_count in Hi. rewrite getHeightBeforeRow_own.
  rewrite (before_high _ 0 0 i 0 geo_rows geo_pixels) by lia.
  rewrite geo_total by exact Henum. lia.
Qed.

End Geometry.

Lemma geo_row_kind (cell : Type) (this : FixedHeightListViewDataSource cell)
    (dataBlob : list (string * list cell)) (sectionIds : option (list string))
    (distinct : NoDup (effectiveSectionIds dataBlob sectionIds))
    (s : SectionEntry) (i : Z) :
  In s (Obj.ownValues (_lookup (cloneWithCellsAndSections this dataBlob sectionIds))) ->
  fst (range s) <= i <= snd (range s) ->
  (i = fst (range s) /\
   arrayGet (_dataSource (cloneWithCellsAndSections this dataBlob sectionIds)) i
   = Some (SectionHeaderRow (sectionId s))) \/
  (fst (range s) < i /\
   exists c,
     arrayGet (_dataSource (cloneWithCellsAndSections this dataBlob sectionIds)) i
     = Some (CellRow c) /\
     nth_error (sectionCells dataBlob (sectionId s))
               (Z.to_nat (i - fst (range s) - 1)) = Some c).
Proof.
  intros Hin Hi.
  rewrite (geo_row_at _ this dataBlob sectionIds distinct s i Hin Hi).
  destruct (geo_range _ this dataBlob sectionIds distinct s Hin) as [_ [Hl [Hc _]]].
  destruct (geo_entry _ this dataBlob sectionIds distinct s Hin) as [_ [_ [_ Hn]]].
  destruct (Z.eq_dec i (fst (range s))) as [-> | Hne].
  - left. rewrite Z.sub_diag. split; reflexivity.
  - right. split; [lia | ].
    replace (Z.to_nat (i - fst (range s)))
      with (S (Z.to_nat (i - fst (range s) - 1))) by lia.
    cbn [nth_error].
    destruct (nth_error (sectionCells dataBlob (sectionId s))
                        (Z.to_nat (i - fst (range s) - 1))) as [c | ] eqn:E.
    + exists c. split; [ | reflexivity].
      apply map_nth_error. exact E.
    + apply nth_error_None in E. lia.
Qed.

(** X1.  Outside the rows the offset is constant: when the sections are
    listed in the order in which JavaScript enumerates their ids and no
    section id is a property name of [Object.prototype],
    [getHeightBeforeRow i] is 0 for every [i <= 0] and is [getTotalHeight]
    for every [i >= rowCount]. *)
Theorem getHeightBeforeRow_outside (cell : Type)
    (this ds : FixedHeightListViewDataSource cell)
    (dataBlob : list (string * list cell)) (sectionIds : option (list string))
    (i : Z) :
  NoDup (effectiveSectionIds dataBlob sectionIds) ->
  ownSectionIds (effectiveSectionIds dataBlob sectionIds) = true ->
  enumeratedAsListed dataBlob sectionIds ->
  ds = cloneWithCellsAndSections this dataBlob sectionIds ->
  (i <= 0 -> getHeightBeforeRow ds i = 0) /\
  (getRowCount ds <= i -> getHeightBeforeRow ds i = getTotalHeight ds).
Proof.
  intros Hnd _ Henum ->. split; intros Hi.
  - apply geo_before_low; assumption.
  - apply geo_before_high; assumption.
Qed.

Lemma getHeightBeforeRow_outside_witness :
  getHeightBeforeRow exampleDataSource (-3) = 0 /\
  getHeightBeforeRow exampleDataSource 9 = getTotalHeight exampleDataSource.
Proof.
  split.
  - apply (proj1 (getHeightBeforeRow_outside string _ exampleDataSource
                    exampleBlob None (-3) exampleBlob_distinct
                    eq_refl eq_refl eq_refl)). lia.
  - apply (proj2 (getHeightBeforeRow_outside string _ exampleDataSource
                    exampleBlob None 9 exampleBlob_distinct
                    eq_refl eq_refl eq_refl)).
    vm_compute. discriminate.
Defined.



(** X3.  With heights that are not negative, [getHeightBeforeRow] is
    monotone in the row index, for all integers. *)
Theorem getHeightBeforeRow_monotone (cell : Type)
    (this ds : FixedHeightListViewDataSource cell)
    (dataBlob : list (string * list cell)) (sectionIds : option (list string))
    (i j : Z) :
  NoDup (effectiveSectionIds dataBlob sectionIds) ->
  pixelHeights this ->
  ds = cloneWithCellsAndSections this dataBlob sectionIds ->
  i <= j ->
  getHeightBeforeRow ds i <= getHeightBeforeRow ds j.
Proof.
  intros Hnd Hpx -> Hij. rewrite !getHeightBeforeRow_own.
  apply (before_monotone _ i j Hij 0 0).
  - apply geo_rows. exact Hnd.
  - apply (built_offsetsWellFormed _ this dataBlob sectionIds Hnd Hpx).
  - lia.
Qed.

Lemma getHeightBeforeRow_monotone_witness :
  getHeightBeforeRow exampleDataSource 2 <= getHeightBeforeRow exampleDataSource 5.
Proof.
  apply (getHeightBeforeRow_monotone string
           (newDataSource string (fun _ => 20) (fun _ => 50)) exampleDataSource
           exampleBlob None 2 5 exampleBlob_distinct examplePixelHeights eq_refl).
  lia.
Defined.






(** X5.  A section whose id is the empty string has its header row measured
    as a cell: [getRowHeight] of its first row is the cell height of the
    section, not its header height. *)
Theorem getRowHeight_empty_section_id (cell : Type) {payload : Payload cell}
    (this ds : FixedHeightListViewDataSource cell)
    (dataBlob : list (string * list cell)) (sectionIds : option (list string)) :
  NoDup (effectiveSectionIds dataBlob sectionIds) ->
  In "" (presentSectionIds dataBlob sectionIds) ->
  ds = cloneWithCellsAndSections this dataBlob sectionIds ->
  exists row startY,
    getFirstRowOfSection ds "" = Return (row, startY) /\
    getRowData ds row = Return (Some (SectionHeaderRow "")) /\
    getRowHeight ds row = Return (Some (_getHeightForCell this "")).
Proof.
  intros Hnd Hpres ->.
  destruct (geo_get _ this dataBlob sectionIds Hnd "" Hpres)
    as [s [Hget [Hin [Hid [_ [Hc _]]]]]].
  destruct (geo_range _ this dataBlob sectionIds Hnd s Hin) as [H0 [Hl [Hcount Hlt]]].
  assert (Hr : fst (range s) <= fst (range s) <= snd (range s)) by lia.
  exists (fst (range s)), (startY s).
  unfold getFirstRowOfSection. rewrite Hget. split; [reflexivity | ].
  destruct (geo_row_kind _ this dataBlob sectionIds Hnd s _ Hin Hr)
    as [[_ Hrow] | [Hlt' _]]; [ | lia].
  unfold getRowData, getRowHeight. rewrite Hrow, Hid.
  split; [reflexivity | ]. cbn [headerSectionId String.eqb].
  unfold getCellHeight.
  destruct (geo_parent _ this dataBlob sectionIds Hnd (fst (range s)))
    as [s' [Hp [Hin' Hr']]]; [lia | ].
  rewrite Hp.
  assert (s' = s)
    by (apply (chainedRows_unique _ _ (fst (range s)) _ _
                 (geo_rows _ this dataBlob sectionIds Hnd) Hin' Hin); lia).
  subst s'. rewrite Hc. reflexivity.
Qed.

Lemma getRowHeight_empty_section_id_witness :
  exists row startY,
    getFirstRowOfSection
      (cloneWithCellsAndSections (newDataSource string (fun _ => 20) (fun _ => 50))
         [("", ["x"]); ("B", ["y"])] None) "" = Return (row, startY) /\
    getRowData
      (cloneWithCellsAndSections (newDataSource string (fun _ => 20) (fun _ => 50))
         [("", ["x"]); ("B", ["y"])] None) row
      = Return (Some (SectionHeaderRow "")) /\
    getRowHeight
      (cloneWithCellsAndSections (newDataSource string (fun _ => 20) (fun _ => 50))
         [("", ["x"]); ("B", ["y"])] None) row
      = Return (Some 50).
Proof.
  apply (getRowHeight_empty_section_id string
           (newDataSource string (fun _ => 20) (fun _ => 50)) _
           [("", ["x"]); ("B", ["y"])] None).
  - vm_compute. repeat constructor; cbn; intuition discriminate.
  - vm_compute. left. reflexivity.
  - reflexivity.
Defined.

(** * Rows at an offset *)

Lemma find_offset_strict (sections : list SectionEntry) (y z : Z) (s : SectionEntry) :
  chainedOffsets y sections -> In s sections ->
  startY s < z <= endY s ->
  find (containsOffset z) sections = Some s.
Proof.
  intros Hoff Hin Hz.
  destruct (in_split _ _ Hin) as [l1 [l2 ->]].
  destruct (chainedOffsets_app _ _ _ Hoff) as [Hoff1 Hoff2].
  cbn [chainedOffsets] in Hoff2. destruct Hoff2 as [Hs _].
  rewrite find_app_skip.
  - cbn [find]. unfold containsOffset.
    replace (z >=? startY s) with true
      by (symmetry; rewrite Z.geb_leb; apply Z.leb_le; lia).
    replace (z <=? endY s) with true by (symmetry; apply Z.leb_le; lia).
    reflexivity.
  - intros x Hx.
    destruct (chainedOffsets_in _ _ _ Hoff1 Hx) as [_ [_ [_ [_ [_ [_ G]]]]]].
    unfold containsOffset. apply andb_false_iff. right. apply Z.leb_gt. lia.
Qed.

(** The row found at an offset inside the list starts at or before the
    offset, and the offset lies before the end of the row after it. *)
Lemma geo_rowAt_inside (cell : Type) (this : FixedHeightListViewDataSource cell)
    (dataBlob : list (string * list cell)) (sectionIds : option (list string))
    (distinct : NoDup (effectiveSectionIds dataBlob sectionIds))
    (ordered : enumeratedAsListed dataBlob sectionIds)
    (y : Z) :
  pixelHeights this ->
  0 < getRowCount (cloneWithCellsAndSections this dataBlob sectionIds) ->
  0 <= y <= getTotalHeight (cloneWithCellsAndSections this dataBlob sectionIds) ->
  exists r,
    getRowAtHeight (cloneWithCellsAndSections this dataBlob sectionIds) y = Return r /\
    0 <= r < getRowCount (cloneWithCellsAndSections this dataBlob sectionIds) /\
    getHeightBeforeRow (cloneWithCellsAndSections this dataBlob sectionIds) r <= y /\
    y <= getHeightBeforeRow (cloneWithCellsAndSections this dataBlob sectionIds) (r + 2).
Proof.
  intros Hpx Hpos Hy.
  set (ds := cloneWithCellsAndSections this dataBlob sectionIds) in *.
  pose proof (built_offsetsWellFormed _ this dataBlob sectionIds distinct Hpx) as Hoff.
  pose proof (geo_rows _ this dataBlob sectionIds distinct) as Hrows.
  pose proof (geo_count _ this dataBlob sectionIds distinct) as Hcount.
  pose proof (geo_total _ this dataBlob sectionIds distinct ordered) as Htotal.
  pose proof (geo_enumerated _ this dataBlob sectionIds distinct ordered) as Hscan.
  fold ds in Hoff, Hrows, Hcount, Htotal, Hscan. unfold offsetsWellFormed in Hoff.
  destruct (chainedOffsets_find (Obj.ownValues (_lookup ds)) 0 y Hoff) as [s Hfind].
  { apply sumCounts_nil_inv. lia. }
  { lia. }
  pose proof Hfind as Hfound. apply find_some in Hfound.
  destruct Hfound as [Hin Hcontains].
  unfold containsOffset in Hcontains. apply andb_true_iff in Hcontains.
  destruct Hcontains as [Hc1 Hc2].
  rewrite Z.geb_leb in Hc1. apply Z.leb_le in Hc1. apply Z.leb_le in Hc2.
  destruct (chainedOffsets_in _ _ _ Hoff Hin) as [G1 [G2 [G3 [G4 [G5 [G6 G7]]]]]].
  destruct (geo_range _ this dataBlob sectionIds distinct s Hin) as [R0 [R2 [R3 R4]]].
  fold ds in R4.
  assert (Hmono : forall i j, i <= j ->
            getHeightBeforeRow ds i <= getHeightBeforeRow ds j).
  { intros i j Hij. rewrite !getHeightBeforeRow_own.
    apply (before_monotone _ i j Hij 0 0 0 0 Hrows Hoff). lia. }
  assert (Hend : getHeightBeforeRow ds (snd (range s) + 1) = endY s).
  { unfold ds.
    rewrite (geo_before _ this dataBlob sectionIds distinct s _ Hin) by lia.
    split_tests; [lia | ].
    replace (snd (range s) + 1 - 1 - fst (range s)) with (count s - 1) by lia. lia. }
  unfold getRowAtHeight.
  destruct (Z.ltb_spec y 0); [lia | ].
  destruct (Z.gtb_spec y (getTotalHeight ds)); [lia | ].
  change (fun value : SectionEntry => (y >=? startY value) && (y <=? endY value))
    with (containsOffset y).
  rewrite Hscan, Hfind.
  destruct (Z.leb_spec (y - startY s) (sectionHeaderHeight s)) as [Hle | Hgt].
  - exists (fst (range s)). split; [reflexivity | ]. split; [lia | ].
    split.
    + unfold ds.
      rewrite (geo_before _ this dataBlob sectionIds distinct s _ Hin) by lia.
      rewrite Z.eqb_refl. lia.
    + apply Z.le_trans with (getHeightBeforeRow ds (fst (range s) + 1)).
      * unfold ds.
        rewrite (geo_before _ this dataBlob sectionIds distinct s _ Hin) by lia.
        split_tests; lia.
      * apply Hmono. lia.
  - destruct (Z.eqb_spec (cellHeight s) 0) as [E | E]; [rewrite E in G3; lia | ].
    set (q := (y - startY s - sectionHeaderHeight s) / cellHeight s).
    assert (Hq0 : 0 <= q) by (apply Z.div_pos; lia).
    assert (Hq1 : q <= count s - 1) by (apply Z.div_le_upper_bound; lia).
    assert (Hq2 : cellHeight s * q <= y - startY s - sectionHeaderHeight s)
      by (apply Z.mul_div_le; lia).
    assert (Hq3 : y - startY s - sectionHeaderHeight s < cellHeight s * Z.succ q)
      by (apply Z.mul_succ_div_gt; lia).
    exists (fst (range s) + q). split; [reflexivity | ]. split; [lia | ].
    split.
    + unfold ds.
      rewrite (geo_before _ this dataBlob sectionIds distinct s _ Hin) by lia.
      split_tests; nia.
    + destruct (Z.eq_dec q (count s - 1)) as [Hlast | Hmore].
      * apply Z.le_trans with (getHeightBeforeRow ds (snd (range s) + 1));
          [lia | apply Hmono; lia].
      * unfold ds.
        rewrite (geo_before _ this dataBlob sectionIds distinct s _ Hin) by lia.
        split_tests; nia.
Qed.

(** X6.  When the sections are listed in the order in which JavaScript
    enumerates their ids and no section id is a property name of
    [Object.prototype]: for an offset inside the list, [getRowAtHeight]
    returns a valid row that starts at or before the offset, and the offset
    is not beyond the end of the following row: the row found is the row
    under the offset or the one before it. *)
Theorem getRowAtHeight_brackets_offset (cell : Type)
    (this ds : FixedHeightListViewDataSource cell)
    (dataBlob : list (string * list cell)) (sectionIds : option (list string))
    (y : Z) :
  NoDup (effectiveSectionIds dataBlob sectionIds) ->
  ownSectionIds (effectiveSectionIds dataBlob sectionIds) = true ->
  enumeratedAsListed dataBlob sectionIds ->
  pixelHeights this ->
  ds = cloneWithCellsAndSections this dataBlob sectionIds ->
  0 < getRowCount ds ->
  0 <= y <= getTotalHeight ds ->
  exists r,
    getRowAtHeight ds y = Return r /\
    0 <= r < getRowCount ds /\
    getHeightBeforeRow ds r <= y <= getHeightBeforeRow ds (r + 2).
Proof.
  intros Hnd _ Henum Hpx -> Hpos Hy.
  destruct (geo_rowAt_inside _ this dataBlob sectionIds Hnd Henum y Hpx Hpos Hy)
    as [r [H1 [H2 [H3 H4]]]].
  exists r. auto.
Qed.

Lemma getRowAtHeight_brackets_offset_witness :
  exists r,
    getRowAtHeight exampleDataSource 100 = Return r /\
    0 <= r < getRowCount exampleDataSource /\
    getHeightBeforeRow exampleDataSource r <= 100
      <= getHeightBeforeRow exampleDataSource (r + 2).
Proof.
  apply (getRowAtHeight_brackets_offset string
           (newDataSource string (fun _ => 20) (fun _ => 50)) exampleDataSource
           exampleBlob None 100 exampleBlob_distinct eq_refl eq_refl
           examplePixelHeights eq_refl).
  - reflexivity.
  - vm_compute. split; discriminate.
Defined.

(** X7.  The visible range covers the viewport: when the sections are
    listed in the order in which JavaScript enumerates their ids and no
    section id is a property name of [Object.prototype], every valid row
    whose pixel span meets the viewport
    [scrollY, scrollY + viewportHeight] lies between [firstVisible] and
    [lastVisible]. *)
Theorem computeVisibleRows_covers_viewport (cell : Type)
    (this ds : FixedHeightListViewDataSource cell)
    (dataBlob : list (string * list cell)) (sectionIds : option (list string))
    (scrollY viewportHeight : Z) :
  NoDup (effectiveSectionIds dataBlob sectionIds) ->
  ownSectionIds (effectiveSectionIds dataBlob sectionIds) = true ->
  enumeratedAsListed dataBlob sectionIds ->
  pixelHeights this ->
  ds = cloneWithCellsAndSections this dataBlob sectionIds ->
  0 < getRowCount ds ->
  exists firstVisible lastVisible,
    computeVisibleRows ds scrollY viewportHeight
      = Return (firstVisible, lastVisible) /\
    forall i,
      0 <= i < getRowCount ds ->
      getHeightBeforeRow ds i < scrollY + viewportHeight ->
      scrollY < getHeightBeforeRow ds (i + 1) ->
      firstVisible <= i <= lastVisible.
Proof.
  intros Hnd _ Henum Hpx -> Hpos.
  set (ds := cloneWithCellsAndSections this dataBlob sectionIds) in *.
  pose proof (built_offsetsWellFormed _ this dataBlob sectionIds Hnd Hpx) as Hoff.
  pose proof (geo_rows _ this dataBlob sectionIds Hnd) as Hrows.
  fold ds in Hoff, Hrows. unfold offsetsWellFormed in Hoff.
  assert (Hmono : forall i j, i <= j ->
            getHeightBeforeRow ds i <= getHeightBeforeRow ds j).
  { intros i j Hij. rewrite !getHeightBeforeRow_own.
    apply (before_monotone _ i j Hij 0 0 0 0 Hrows Hoff). lia. }
  assert (Hzero : getHeightBeforeRow ds 0 = 0)
    by (apply geo_before_low; [exact Hnd | lia]).
  assert (Hall : getHeightBeforeRow ds (getRowCount ds) = getTotalHeight ds)
    by (apply geo_before_high; [exact Hnd | exact Henum | apply Z.le_refl]).
  assert (Hrow : forall y, exists r,
            getRowAtHeight ds y = Return r /\
            ((y < 0 /\ r = 0) \/
             (getTotalHeight ds < y /\ r = getRowCount ds - 1) \/
             (0 <= y <= getTotalHeight ds /\
              getHeightBeforeRow ds r <= y <= getHeightBeforeRow ds (r + 2)))).
  { intros y.
    destruct (Z.ltb_spec y 0) as [Hneg | Hnn].
    - exists 0. unfold getRowAtHeight.
      destruct (Z.ltb_spec y 0); [ | lia]. auto.
    - destruct (Z.gtb_spec y (getTotalHeight ds)) as [Hbig | Hsmall].
      + exists (getRowCount ds - 1). unfold getRowAtHeight.
        destruct (Z.ltb_spec y 0); [lia | ].
        destruct (Z.gtb_spec y (getTotalHeight ds)); [ | lia].
        split; [f_equal; lia | ]. right. left. split; lia.
      + destruct (geo_rowAt_inside _ this dataBlob sectionIds Hnd Henum y Hpx Hpos)
          as [r [H1 [H2 [H3 H4]]]]; [fold ds; lia | ].
        exists r. split; [exact H1 | ]. right. right. fold ds in H3, H4. lia. }
  destruct (Hrow scrollY) as [fv [Hfv Hfvc]].
  destruct (Hrow (scrollY + viewportHeight)) as [r [Hr Hrc]].
  exists fv, (r + 1). unfold computeVisibleRows. rewrite Hfv, Hr. cbn [bind].
  split; [reflexivity | ].
  intros i Hi Htop Hbot. split.
  - destruct (Z.le_gt_cases fv i) as [Hle | Hgt]; [exact Hle | exfalso].
    pose proof (Hmono (i + 1) fv ltac:(lia)) as M1.
    pose proof (Hmono (i + 1) (getRowCount ds) ltac:(lia)) as M2.
    destruct Hfvc as [[_ ->] | [[Hb _] | [_ Hb]]]; lia.
  - destruct (Z.le_gt_cases i (r + 1)) as [Hle | Hgt]; [exact Hle | exfalso].
    pose proof (Hmono (r + 2) i ltac:(lia)) as M1.
    pose proof (Hmono 0 i ltac:(lia)) as M2.
    destruct Hrc as [[Hb _] | [[_ ->] | [_ Hb]]]; lia.
Qed.

Lemma computeVisibleRows_covers_viewport_witness :
  exists firstVisible lastVisible,
    computeVisibleRows exampleDataSource 60 100
      = Return (firstVisible, lastVisible) /\
    forall i,
      0 <= i < getRowCount exampleDataSource ->
      getHeightBeforeRow exampleDataSource i < 60 + 100 ->
      60 < getHeightBeforeRow exampleDataSource (i + 1) ->
      firstVisible <= i <= lastVisible.
Proof.
  apply (computeVisibleRows_covers_viewport string
           (newDataSource string (fun _ => 20) (fun _ => 50)) exampleDataSource
           exampleBlob None 60 100 exampleBlob_distinct eq_refl eq_refl
           examplePixelHeights eq_refl).
  reflexivity.
Defined.

(** X8.  With positive heights, sections listed in the order in which
    JavaScript enumerates their ids and no section id that is a property
    name of [Object.prototype], [getRowAtHeight] is the inverse of
    [getHeightBeforeRow] shifted by one row: the offset at which row [i]
    starts is resolved to row [i - 1], for every [i] from 1 to
    [rowCount]. *)
Theorem getRowAtHeight_of_row_start (cell : Type)
    (this ds : FixedHeightListViewDataSource cell)
    (dataBlob : list (string * list cell)) (sectionIds : option (list string))
    (i : Z) :
  NoDup (effectiveSectionIds dataBlob sectionIds) ->
  ownSectionIds (effectiveSectionIds dataBlob sectionIds) = true ->
  enumeratedAsListed dataBlob sectionIds ->
  positiveHeights this ->
  ds = cloneWithCellsAndSections this dataBlob sectionIds ->
  1 <= i <= getRowCount ds ->
  getRowAtHeight ds (getHeightBeforeRow ds i) = Return (i - 1).
Proof.
  intros Hnd _ Henum Hpos -> Hi.
  assert (Hpx : pixelHeights this)
    by (intros sid; destruct (Hpos sid); lia).
  set (ds := cloneWithCellsAndSections this dataBlob sectionIds) in *.
  pose proof (built_offsetsWellFormed _ this dataBlob sectionIds Hnd Hpx) as Hoff.
  pose proof (geo_total _ this dataBlob sectionIds Hnd Henum) as Htotal.
  pose proof (geo_enumerated _ this dataBlob sectionIds Hnd Henum) as Hscan.
  fold ds in Hoff, Htotal, Hscan. unfold offsetsWellFormed in Hoff.
  destruct (geo_parent _ this dataBlob sectionIds Hnd (i - 1)) as [s [_ [Hin Hr]]];
    [fold ds; lia | ].
  fold ds in Hin.
  destruct (geo_entry _ this dataBlob sectionIds Hnd s Hin) as [_ [Hh [Hc _]]].
  destruct (Hpos (sectionId s)) as [Hhpos Hcpos].
  rewrite <- Hh in Hhpos. rewrite <- Hc in Hcpos.
  destruct (chainedOffsets_in _ _ _ Hoff Hin) as [G1 [G2 [G3 [G4 [G5 [G6 G7]]]]]].
  destruct (geo_range _ this dataBlob sectionIds Hnd s Hin) as [R0 [R2 [R3 R4]]].
  unfold ds at 2.
  rewrite (geo_before _ this dataBlob sectionIds Hnd s i Hin) by lia.
  destruct (Z.eqb_spec i (fst (range s))) as [Heq | _]; [lia | ].
  set (y := startY s + (sectionHeaderHeight s + (i - 1 - fst (range s)) * cellHeight s)).
  assert (Hy : startY s < y <= endY s) by (unfold y; nia).
  unfold getRowAtHeight.
  destruct (Z.ltb_spec y 0); [lia | ].
  destruct (Z.gtb_spec y (getTotalHeight ds)); [lia | ].
  change (fun value : SectionEntry => (y >=? startY value) && (y <=? endY value))
    with (containsOffset y).
  rewrite Hscan, (find_offset_strict _ 0 y s Hoff Hin Hy).
  destruct (Z.leb_spec (y - startY s) (sectionHeaderHeight s)) as [Hle | Hgt].
  - f_equal. unfold y in Hle. nia.
  - destruct (Z.eqb_spec (cellHeight s) 0); [lia | ].
    replace (y - startY s - sectionHeaderHeight s)
      with ((i - 1 - fst (range s)) * cellHeight s) by (unfold y; lia).
    rewrite Z.div_mul by lia. f_equal. lia.
Qed.

Lemma examplePositiveHeights :
  positiveHeights (newDataSource string (fun _ => 20) (fun _ => 50)).
Proof. intros sid. cbn. lia. Qed.

Lemma getRowAtHeight_of_row_start_witness :
  getRowAtHeight exampleDataSource (getHeightBeforeRow exampleDataSource 4)
  = Return (4 - 1).
Proof.
  apply (getRowAtHeight_of_row_start string
           (newDataSource string (fun _ => 20) (fun _ => 50)) exampleDataSource
           exampleBlob None 4 exampleBlob_distinct eq_refl eq_refl
           examplePositiveHeights eq_refl).
  vm_compute. split; discriminate.
Defined.

(** * Sections *)



(** X10.  When no iterated section id is a property name of
    [Object.prototype], [hasSection] holds exactly for the section ids that
    are iterated and have an entry in the blob and for the property names
    of [Object.prototype], which every object inherits; for any other id
    the lookups by section ([getFirstRowOfSection],
    [getSectionHeaderHeight], [getHeightOfSection]) raise a [TypeError]. *)
Theorem hasSection_iff_present (cell : Type)
    (this ds : FixedHeightListViewDataSource cell)
    (dataBlob : list (string * list cell)) (sectionIds : option (list string))
    (sid : string) :
  NoDup (effectiveSectionIds dataBlob sectionIds) ->
  ownSectionIds (effectiveSectionIds dataBlob sectionIds) = true ->
  ds = cloneWithCellsAndSections this dataBlob sectionIds ->
  (hasSection ds sid = true <->
   (In sid (effectiveSectionIds dataBlob sectionIds) /\
    isPresent dataBlob sid = true) \/
   Obj.inheritedKey sid = true) /\
  (hasSection ds sid = false ->
   throws (getFirstRowOfSection ds sid) /\
   throws (getSectionHeaderHeight ds sid) /\
   throws (getHeightOfSection ds sid)).
Proof.
  intros Hnd _ ->. split.
  - unfold hasSection. split.
    + destruct (Obj.get _ sid) as [s | ] eqn:E; [intros _; left | intros H; right; exact H].
      apply ObjMore.get_some_keys in E. destruct E as [Hk _].
      rewrite (geo_keys _ this dataBlob sectionIds Hnd) in Hk.
      unfold presentSectionIds in Hk. apply filter_In in Hk. exact Hk.
    + intros [Hin | Hinh].
      * assert (Hpres : In sid (presentSectionIds dataBlob sectionIds))
          by (apply filter_In; exact Hin).
        destruct (geo_get _ this dataBlob sectionIds Hnd sid Hpres) as [s [Hget _]].
        rewrite Hget. reflexivity.
      * destruct (Obj.get _ sid); [reflexivity | exact Hinh].
  - unfold hasSection, getFirstRowOfSection, getSectionHeaderHeight,
      getHeightOfSection, throws.
    destruct (Obj.get _ sid); [discriminate | ]. intros Hinh. rewrite Hinh.
    repeat split; eexists; reflexivity.
Qed.

Lemma hasSection_iff_present_witness :
  hasSection exampleDataSource "A" = true /\
  hasSection exampleDataSource "constructor" = true /\
  throws (getFirstRowOfSection exampleDataSource "Z").
Proof.
  split; [ | split].
  - apply (proj1 (hasSection_iff_present string
                    (newDataSource string (fun _ => 20) (fun _ => 50))
                    exampleDataSource exampleBlob None "A"
                    exampleBlob_distinct eq_refl eq_refl)).
    left. vm_compute. auto.
  - apply (proj1 (hasSection_iff_present string
                    (newDataSource string (fun _ => 20) (fun _ => 50))
                    exampleDataSource exampleBlob None "constructor"
                    exampleBlob_distinct eq_refl eq_refl)).
    right. reflexivity.
  - apply (proj2 (hasSection_iff_present string
                    (newDataSource string (fun _ => 20) (fun _ => 50))
                    exampleDataSource exampleBlob None "Z"
                    exampleBlob_distinct eq_refl eq_refl)).
    reflexivity.
Defined.

Lemma getSectionLengths_map (cell : Type) (this : FixedHeightListViewDataSource cell) :
  getSectionLengths this = map count (Obj.values (_lookup this)).
Proof.
  unfold getSectionLengths.
  assert (G : forall l acc,
    fold_left (fun result value => result ++ [count value]) l acc
    = acc ++ map count l).
  { induction l as [ | s l IH]; intros acc; cbn.
    - rewrite app_nil_r. reflexivity.
    - rewrite IH, <- app_assoc. reflexivity. }
  apply (G _ []).
Qed.

Lemma sumZ_counts (sections : list SectionEntry) :
  sumZ (map count sections) = sumCounts sections.
Proof.
  induction sections as [ | s l IH]; [reflexivity | ].
  cbn [map]. rewrite sumCounts_cons. cbn. unfold sumZ in IH. rewrite IH. reflexivity.
Qed.

Lemma layout_counts (cell : Type) (this : FixedHeightListViewDataSource cell)
    (dataBlob : list (string * list cell)) (ids : list string) :
  forall lastRow cumulativeHeight,
    map count (Obj.ownValues (layout this dataBlob lastRow cumulativeHeight ids))
    = map (fun sid => Z.of_nat (List.length (sectionCells dataBlob sid)) + 1) ids.
Proof.
  unfold Obj.ownValues.
  induction ids as [ | sid ids IH]; intros; cbn; [reflexivity | ].
  f_equal. apply IH.
Qed.

(** X11.  When the sections are listed in the order in which JavaScript
    enumerates their ids and no section id is a property name of
    [Object.prototype], [getSectionLengths] lists, in that order, the
    number of cells of each section of the blob plus one for its header,
    and these lengths add up to [getRowCount]. *)
Theorem getSectionLengths_rows (cell : Type)
    (this ds : FixedHeightListViewDataSource cell)
    (dataBlob : list (string * list cell)) (sectionIds : option (list string)) :
  NoDup (effectiveSectionIds dataBlob sectionIds) ->
  ownSectionIds (effectiveSectionIds dataBlob sectionIds) = true ->
  enumeratedAsListed dataBlob sectionIds ->
  ds = cloneWithCellsAndSections this dataBlob sectionIds ->
  getSectionLengths ds
    = map (fun sid => Z.of_nat (List.length (sectionCells dataBlob sid)) + 1)
          (presentSectionIds dataBlob sectionIds) /\
  sumZ (getSectionLengths ds) = getRowCount ds.
Proof.
  intros Hnd _ Henum ->. rewrite getSectionLengths_map.
  rewrite (geo_enumerated _ this dataBlob sectionIds Hnd Henum). split.
  - rewrite (geo_lookup _ this dataBlob sectionIds Hnd). apply layout_counts.
  - rewrite sumZ_counts. symmetry. apply geo_count. exact Hnd.
Qed.

Lemma getSectionLengths_rows_witness :
  getSectionLengths exampleDataSource = [4; 3] /\
  sumZ (getSectionLengths exampleDataSource) = getRowCount exampleDataSource.
Proof.
  apply (getSectionLengths_rows string
           (newDataSource string (fun _ => 20) (fun _ => 50)) exampleDataSource
           exampleBlob None exampleBlob_distinct eq_refl eq_refl eq_refl).
Defined.

Lemma layout_finalY (cell : Type) (this : FixedHeightListViewDataSource cell)
    (dataBlob : list (string * list cell)) (ids : list string) :
  forall lastRow cumulativeHeight,
    finalY cumulativeHeight
      (Obj.ownValues (layout this dataBlob lastRow cumulativeHeight ids))
    = cumulativeHeight
      + sumZ (map (fun sid =>
                     _getHeightForSectionHeader this sid
                     + _getHeightForCell this sid
                       * Z.of_nat (List.length (sectionCells dataBlob sid))) ids).
Proof.
  unfold Obj.ownValues.
  induction ids as [ | sid ids IH]; intros; cbn [layout map snd].
  - cbn. lia.
  - rewrite finalY_cons. cbn [endY]. rewrite IH. cbn [sumZ fold_right].
    fold (sumZ (map (fun sid0 =>
                       _getHeightForSectionHeader this sid0
                       + _getHeightForCell this sid0
                         * Z.of_nat (List.length (sectionCells dataBlob sid0))) ids)).
    lia.
Qed.

(** X12.  When the sections are listed in the order in which JavaScript
    enumerates their ids and no section id is a property name of
    [Object.prototype], the height of a section of the blob is its header
    height plus its cell height times the number of its cells, and
    [getTotalHeight] is the sum of these heights over the sections of the
    blob. *)
Theorem getTotalHeight_sum_of_sections (cell : Type)
    (this ds : FixedHeightListViewDataSource cell)
    (dataBlob : list (string * list cell)) (sectionIds : option (list string)) :
  NoDup (effectiveSectionIds dataBlob sectionIds) ->
  ownSectionIds (effectiveSectionIds dataBlob sectionIds) = true ->
  enumeratedAsListed dataBlob sectionIds ->
  ds = cloneWithCellsAndSections this dataBlob sectionIds ->
  (forall sid,
     In sid (presentSectionIds dataBlob sectionIds) ->
     getHeightOfSection ds sid
     = Return (Some (_getHeightForSectionHeader this sid
                     + _getHeightForCell this sid
                       * Z.of_nat (List.length (sectionCells dataBlob sid))))) /\
  getTotalHeight ds
  = sumZ (map (fun sid =>
                 _getHeightForSectionHeader this sid
                 + _getHeightForCell this sid
                   * Z.of_nat (List.length (sectionCells dataBlob sid)))
              (presentSectionIds dataBlob sectionIds)).
Proof.
  intros Hnd _ Henum ->. split.
  - intros sid Hpres.
    destruct (geo_get _ this dataBlob sectionIds Hnd sid Hpres)
      as [s [Hget [Hin [_ [Hh [Hc Hn]]]]]].
    pose proof (geo_pixels _ this dataBlob sectionIds Hnd) as Hpx.
    unfold getHeightOfSection. rewrite Hget. f_equal. f_equal.
    assert (G : forall l y, chainedPixels y l -> In s l ->
                height s = sectionHeaderHeight s + cellHeight s * (count s - 1)).
    { induction l as [ | s0 l IH]; intros y Hch Hi; [contradiction | ].
      cbn [chainedPixels] in Hch. destruct Hch as [_ [_ [Hs0 Hrest]]].
      destruct Hi as [-> | Hi]; [exact Hs0 | apply (IH _ Hrest Hi)]. }
    rewrite (G _ _ Hpx Hin), Hh, Hc, Hn. f_equal. f_equal. lia.
  - rewrite (geo_total _ this dataBlob sectionIds Hnd Henum).
    rewrite (geo_lookup _ this dataBlob sectionIds Hnd).
    rewrite layout_finalY. lia.
Qed.

Lemma getTotalHeight_sum_of_sections_witness :
  getHeightOfSection exampleDataSource "B" = Return (Some (20 + 50 * 2)) /\
  getTotalHeight exampleDataSource = (20 + 50 * 3) + ((20 + 50 * 2) + 0).
Proof.
  destruct (getTotalHeight_sum_of_sections string
              (newDataSource string (fun _ => 20) (fun _ => 50)) exampleDataSource
              exampleBlob None exampleBlob_distinct eq_refl eq_refl eq_refl)
    as [H1 H2].
  split.
  - apply (H1 "B"). cbn. right. left. reflexivity.
  - exact H2.
Defined.



Lemma flat_map_absent (cell : Type) (dataBlob : list (string * list cell))
    (ids : list string) :
  filter (isPresent dataBlob) ids = [] ->
  flat_map (rowsOfSection dataBlob) ids = [].
Proof.
  induction ids as [ | sid ids IH]; [reflexivity | ].
  cbn [filter flat_map]. unfold isPresent at 1, rowsOfSection at 1.
  destruct (Obj.get dataBlob sid); [discriminate | ].
  intros H. cbn. apply IH. exact H.
Qed.

(** X14.  The empty list: when no iterated section id has an entry in the
    blob, the data source has no rows and no height; [getRowAtHeight]
    returns row 0 for every offset other than 0 and raises a [TypeError] at
    offset 0, and so does [computeVisibleRows] when the viewport starts at
    0. *)
Theorem empty_data_source (cell : Type)
    (this ds : FixedHeightListViewDataSource cell)
    (dataBlob : list (string * list cell)) (sectionIds : option (list string)) :
  presentSectionIds dataBlob sectionIds = [] ->
  ds = cloneWithCellsAndSections this dataBlob sectionIds ->
  getRowCount ds = 0 /\
  getTotalHeight ds = 0 /\
  (forall y, y <> 0 -> getRowAtHeight ds y = Return 0) /\
  throws (getRowAtHeight ds 0) /\
  (forall viewportHeight, throws (computeVisibleRows ds 0 viewportHeight)).
Proof.
  intros Hempty ->.
  assert (Hl : _lookup (cloneWithCellsAndSections this dataBlob sectionIds) = []).
  { unfold cloneWithCellsAndSections. cbn [_lookup].
    fold (effectiveSectionIds dataBlob sectionIds).
    fold (presentSectionIds dataBlob sectionIds). rewrite Hempty. reflexivity. }
  assert (Hd : getRowCount (cloneWithCellsAndSections this dataBlob sectionIds) = 0).
  { unfold getRowCount. rewrite built_dataSource.
    rewrite flat_map_absent by exact Hempty. reflexivity. }
  assert (Ht : getTotalHeight (cloneWithCellsAndSections this dataBlob sectionIds) = 0)
    by (unfold getTotalHeight; rewrite Hl; reflexivity).
  assert (H0 : getRowAtHeight (cloneWithCellsAndSections this dataBlob sectionIds) 0
               = Throw (TypeError "Cannot read property 'startY' of undefined")).
  { unfold getRowAtHeight. rewrite Ht, Hl. reflexivity. }
  split; [exact Hd | ]. split; [exact Ht | ]. split; [ | split].
  - intros y Hy. unfold getRowAtHeight. rewrite Ht, Hd.
    destruct (Z.ltb_spec y 0); [reflexivity | ].
    destruct (Z.gtb_spec y 0); [reflexivity | lia].
  - eexists. exact H0.
  - intros vh. unfold computeVisibleRows. rewrite H0. eexists. reflexivity.
Qed.

Lemma empty_data_source_witness :
  getRowCount (cloneWithCellsAndSections
                 (newDataSource string (fun _ => 20) (fun _ => 50)) [] None) = 0 /\
  throws (getRowAtHeight
            (cloneWithCellsAndSections
               (newDataSource string (fun _ => 20) (fun _ => 50)) [] None) 0).
Proof.
  destruct (empty_data_source string
              (newDataSource string (fun _ => 20) (fun _ => 50)) _
              [] None eq_refl eq_refl) as [H1 [_ [_ [H2 _]]]].
  split; [exact H1 | exact H2].
Defined.

(** * More on the convergence step *)

(** X15.  [computeRowsToRender] returns a window exactly when
    [numToRenderAhead < maxNumToRender]; otherwise it raises the invariant
    violation, whatever the other options are. *)
Theorem computeRowsToRender_invariant (o : RenderOptions) :
  (numToRenderAhead o < maxNumToRender o ->
   exists r, computeRowsToRender o = Return r) /\
  (maxNumToRender o <= numToRenderAhead o ->
   computeRowsToRender o
   = Throw (InvariantViolation "numToRenderAhead must be less than maxNumToRender")).
Proof.
  split; intros H.
  - destruct (scrollDirection o) eqn:Hdir.
    + eexists. apply computeRowsToRender_down; assumption.
    + eexists. apply computeRowsToRender_up; assumption.
  - unfold computeRowsToRender, invariant.
    destruct (Z.ltb_spec (numToRenderAhead o) (maxNumToRender o)); [lia | ].
    reflexivity.
Qed.

Lemma computeRowsToRender_invariant_witness :
  (exists r, computeRowsToRender exampleOptions = Return r) /\
  computeRowsToRender
    {| scrollDirection := up; firstVisible := 0; lastVisible := 3;
       firstRendered := 0; lastRendered := 3; pageSize := 5;
       maxNumToRender := 4; numToRenderAhead := 4; numToRenderBehind := 2;
       totalRows := 10 |}
  = Throw (InvariantViolation "numToRenderAhead must be less than maxNumToRender").
Proof.
  split.
  - apply (proj1 (computeRowsToRender_invariant exampleOptions)). cbn. lia.
  - apply (proj2 (computeRowsToRender_invariant _)). cbn. lia.
Defined.

(** X16.  One tick moves the leading edge by at most [pageSize] rows:
    scrolling down the last row is at most [lastRendered + pageSize] and at
    most its target; scrolling up the first row is at least
    [firstRendered - pageSize] and at least its target, and the last row is
    its own target and never beyond the rendered last row. *)
Theorem computeRowsToRender_page_step (o : RenderOptions) :
  numToRenderAhead o < maxNumToRender o ->
  exists r, computeRowsToRender o = Return r /\
    match scrollDirection o with
    | down =>
        lastRow r <= lastRendered o + pageSize o /\
        lastRow r <= targetLastRow r /\
        firstRow r = targetFirstRow r
    | up =>
        firstRendered o - pageSize o <= firstRow r /\
        targetFirstRow r <= firstRow r /\
        lastRow r = targetLastRow r /\
        lastRow r <= lastRendered o
    end.
Proof.
  intros Hcfg. destruct (scrollDirection o) eqn:Hdir.
  - eexists. split; [apply computeRowsToRender_down; assumption | ].
    cbn [firstRow lastRow targetFirstRow targetLastRow]. lia.
  - eexists. split; [apply computeRowsToRender_up; assumption | ].
    cbn [firstRow lastRow targetFirstRow targetLastRow].
    destruct (_ >? _) eqn:E; [apply Z.gtb_lt in E | ]; lia.
Qed.

Lemma computeRowsToRender_page_step_witness :
  exists r, computeRowsToRender (defaultOptions down 0 40 0 10) = Return r /\
    lastRow r <= 10 + 5 /\ lastRow r <= targetLastRow r /\
    firstRow r = targetFirstRow r.
Proof.
  apply (computeRowsToRender_page_step (defaultOptions down 0 40 0 10)).
  cbn. lia.
Defined.

(** X17.  Scrolling down, the first visible row stays rendered whenever the
    visible rows and the look-ahead fit the budget: if
    [lastVisible + numToRenderAhead - numToRenderBehind - maxNumToRender]
    is at most [firstVisible], then [firstRow <= firstVisible]. *)
Theorem computeRowsToRender_keeps_first_visible (o : RenderOptions) :
  scrollDirection o = down ->
  numToRenderAhead o < maxNumToRender o ->
  0 <= numToRenderBehind o ->
  0 <= firstVisible o ->
  lastVisible o + numToRenderAhead o - numToRenderBehind o - maxNumToRender o
    <= firstVisible o ->
  exists r, computeRowsToRender o = Return r /\ firstRow r <= firstVisible o.
Proof.
  intros Hdir Hcfg Hb Hfv Hfit.
  eexists. split; [apply computeRowsToRender_down; assumption | ].
  cbn [firstRow]. lia.
Qed.

Lemma computeRowsToRender_keeps_first_visible_witness :
  exists r, computeRowsToRender exampleOptions = Return r /\ firstRow r <= 8.
Proof.
  apply (computeRowsToRender_keeps_first_visible exampleOptions);
    cbn; (reflexivity || lia).
Defined.

(** X18.  What a tick guarantees on valid input: the window it returns stays
    inside the list and holds at most [maxNumToRender + 1] rows. *)
Theorem computeRowsToRender_within_list (o : RenderOptions) :
  validRecomputeInput o ->
  exists r, computeRowsToRender o = Return r /\
    0 <= firstRow r /\
    lastRow r <= totalRows o - 1 /\
    lastRow r - firstRow r + 1 <= maxNumToRender o + 1.
Proof.
  unfold validRecomputeInput. intros H.
  destruct (scrollDirection o) eqn:Hdir.
  - eexists. split.
    + apply computeRowsToRender_down; [exact Hdir | lia].
    + cbn [firstRow lastRow]. lia.
  - eexists. split.
    + apply computeRowsToRender_up; [exact Hdir | lia].
    + cbn [firstRow lastRow].
      destruct (_ >? _) eqn:E; [apply Z.gtb_lt in E | ]; lia.
Qed.

Lemma computeRowsToRender_within_list_witness :
  exists r, computeRowsToRender exampleOptions = Return r /\
    0 <= firstRow r /\
    lastRow r <= totalRows exampleOptions - 1 /\
    lastRow r - firstRow r + 1 <= maxNumToRender exampleOptions + 1.
Proof.
  apply (computeRowsToRender_within_list exampleOptions).
  unfold validRecomputeInput. cbn. lia.
Defined.

Lemma convergenceLoop_terminates (fuel : nat) :
  forall o,
    numToRenderAhead o < maxNumToRender o ->
    0 < pageSize o ->
    (ticksBound o < fuel)%nat ->
    exists n r,
      convergenceLoop fuel o = Return (Some (n, r)) /\
      (1 <= n <= fuel)%nat /\
      needsAnotherTick r = false.
Proof.
  induction fuel as [ | fuel IH]; intros o Hcfg Hp Hfuel; [lia | ].
  cbn [convergenceLoop].
  destruct (scrollDirection o) eqn:Hdir.
  - rewrite (computeRowsToRender_down o Hdir Hcfg). cbv zeta. cbn [bind].
    match goal with |- context [needsAnotherTick ?r] => set (w := r) end.
    destruct (needsAnotherTick w) eqn:Hneeds.
    + destruct (IH (commitWindow o w)) as [n [r [Hloop [Hn Hdone]]]].
      * exact Hcfg.
      * exact Hp.
      * unfold needsAnotherTick in Hneeds. subst w.
        cbn [firstRow lastRow targetFirstRow targetLastRow] in Hneeds.
        rewrite Z.eqb_refl in Hneeds. cbn [negb] in Hneeds.
        rewrite orb_false_r in Hneeds. apply negb_true_iff in Hneeds.
        apply Z.eqb_neq in Hneeds.
        unfold ticksBound in *. cbn [commitWindow scrollDirection totalRows
                                      lastRendered lastRow].
        rewrite Hdir in *. lia.
      * rewrite Hloop. cbn [bind]. exists (S n), r.
        split; [reflexivity | ]. split; [lia | exact Hdone].
    + exists 1%nat, w. split; [reflexivity | ]. split; [lia | exact Hneeds].
  - rewrite (computeRowsToRender_up o Hdir Hcfg). cbv zeta. cbn [bind].
    match goal with |- context [needsAnotherTick ?r] => set (w := r) end.
    destruct (needsAnotherTick w) eqn:Hneeds.
    + destruct (IH (commitWindow o w)) as [n [r [Hloop [Hn Hdone]]]].
      * exact Hcfg.
      * exact Hp.
      * unfold needsAnotherTick in Hneeds. subst w.
        cbn [firstRow lastRow targetFirstRow targetLastRow] in Hneeds.
        rewrite Z.eqb_refl in Hneeds. cbn [negb orb] in Hneeds.
        apply negb_true_iff in Hneeds. apply Z.eqb_neq in Hneeds.
        unfold ticksBound in *. cbn [commitWindow scrollDirection firstRendered
                                      firstRow].
        rewrite Hdir in *. lia.
      * rewrite Hloop. cbn [bind]. exists (S n), r.
        split; [reflexivity | ]. split; [lia | exact Hdone].
    + exists 1%nat, w. split; [reflexivity | ]. split; [lia | exact Hneeds].
Qed.

(** X19.  The convergence loop terminates: with the visible range held
    fixed and a positive page size, some tick returns its target window
    after at most [totalRows - 1 - lastRendered] further ticks when
    scrolling down and at most [firstRendered] further ticks when scrolling
    up. *)
Theorem convergence_terminates (o : RenderOptions) :
  numToRenderAhead o < maxNumToRender o ->
  0 < pageSize o ->
  exists n r,
    convergenceLoop (S (ticksBound o)) o = Return (Some (n, r)) /\
    (1 <= n <= S (ticksBound o))%nat /\
    lastRow r = targetLastRow r /\
    firstRow r = targetFirstRow r.
Proof.
  intros Hcfg Hp.
  destruct (convergenceLoop_terminates (S (ticksBound o)) o Hcfg Hp)
    as [n [r [Hloop [Hn Hdone]]]]; [lia | ].
  exists n, r. split; [exact Hloop | ]. split; [exact Hn | ].
  unfold needsAnotherTick in Hdone. apply orb_false_iff in Hdone.
  destruct Hdone as [H1 H2].
  apply negb_false_iff in H1. apply negb_false_iff in H2.
  apply Z.eqb_eq in H1. apply Z.eqb_eq in H2. auto.
Qed.

Lemma convergence_terminates_witness :
  exists n r,
    convergenceLoop (S (ticksBound (defaultOptions down 0 18 0 1)))
                    (defaultOptions down 0 18 0 1) = Return (Some (n, r)) /\
    (1 <= n <= S (ticksBound (defaultOptions down 0 18 0 1)))%nat /\
    lastRow r = targetLastRow r /\
    firstRow r = targetFirstRow r.
Proof.
  apply (convergence_terminates (defaultOptions down 0 18 0 1)); cbn; lia.
Defined.

(** * The list view: invariants of the window *)




(** X21.  The constructor raises the invariant violation exactly when
    [numToRenderAhead] or [numToRenderBehind] is not below
    [maxNumToRender]; otherwise the component starts idle, with nothing
    pending and no buffer, and its window [0, min(rowCount - 1,
    initialNumToRender)] lies inside the list. *)
Theorem constructor_initial_state (cell : Type) (props : ListView.Props cell) :
  (ListView.numToRenderAhead props < ListView.maxNumToRender props /\
   ListView.numToRenderBehind props < ListView.maxNumToRender props ->
   exists c, ListView.constructor props = Return c /\
     ListView.props c = props /\
     ListView.firstRow (ListView.state c) = 0 /\
     ListView.lastRow (ListView.state c)
       = Z.min (getRowCount (ListView.dataSource props) - 1)
               (ListView.initialNumToRender props) /\
     Scheduling.windowInList c /\
     ListView.bufferFirstRow (ListView.state c) = None /\
     ListView.bufferLastRow (ListView.state c) = None /\
     ListView.isScrollingToSection c = false /\
     ListView.willComputeRowsToRender c = false /\
     ListView.nextSectionToScrollTo c = None) /\
  (ListView.maxNumToRender props <= ListView.numToRenderAhead props \/
   ListView.maxNumToRender props <= ListView.numToRenderBehind props ->
   throws (ListView.constructor props)).
Proof.
  split.
  - intros [Ha Hb]. unfold ListView.constructor.
    rewrite !invariant_true by (apply Z.ltb_lt; assumption).
    cbn [bind]. eexists. split; [reflexivity | ].
    unfold Scheduling.windowInList. cbn. repeat split; lia.
  - intros H. unfold ListView.constructor, invariant, throws.
    destruct (Z.ltb_spec (ListView.numToRenderAhead props)
                         (ListView.maxNumToRender props)); cbn [bind].
    + destruct (Z.ltb_spec (ListView.numToRenderBehind props)
                           (ListView.maxNumToRender props)); cbn [bind].
      * lia.
      * eexists. reflexivity.
    + eexists. reflexivity.
Qed.

Lemma constructor_initial_state_witness :
  (exists c, ListView.constructor (ListView.defaultProps exampleDataSource) = Return c /\
     ListView.firstRow (ListView.state c) = 0 /\
     Scheduling.windowInList c) /\
  throws (ListView.constructor
            {| ListView.dataSource := exampleDataSource;
               ListView.incrementDelay := 17;
               ListView.initialNumToRender := 1;
               ListView.maxNumToRender := 2;
               ListView.numToRenderAhead := 1;
               ListView.numToRenderBehind := 2;
               ListView.pageSize := 5 |}).
Proof.
  split.
  - destruct (proj1 (constructor_initial_state string
                       (ListView.defaultProps exampleDataSource)))
      as [c [H1 [_ [H2 [_ [H3 _]]]]]].
    + cbn. lia.
    + exists c. auto.
  - apply (proj2 (constructor_initial_state string _)). cbn. lia.
Defined.

Lemma getFirstRowOfSection_present_core (cell : Type)
    (this : FixedHeightListViewDataSource cell)
    (dataBlob : list (string * list cell)) (sectionIds : option (list string))
    (sid : string) :
  NoDup (effectiveSectionIds dataBlob sectionIds) ->
  In sid (presentSectionIds dataBlob sectionIds) ->
  exists row startY,
    getFirstRowOfSection (cloneWithCellsAndSections this dataBlob sectionIds) sid
      = Return (row, startY) /\
    0 <= row < getRowCount (cloneWithCellsAndSections this dataBlob sectionIds) /\
    getRowData (cloneWithCellsAndSections this dataBlob sectionIds) row
      = Return (Some (SectionHeaderRow sid)) /\
    startY = getHeightBeforeRow (cloneWithCellsAndSections this dataBlob sectionIds) row.
Proof.
  intros Hnd Hpres.
  destruct (geo_get _ this dataBlob sectionIds Hnd sid Hpres)
    as [s [Hget [Hin [Hid _]]]].
  destruct (geo_range _ this dataBlob sectionIds Hnd s Hin) as [H0 [Hl [Hc Hlt]]].
  assert (Hr : fst (range s) <= fst (range s) <= snd (range s)) by lia.
  exists (fst (range s)), (startY s).
  unfold getFirstRowOfSection. rewrite Hget.
  split; [reflexivity | ]. split; [lia | ].
  destruct (geo_row_kind _ this dataBlob sectionIds Hnd s _ Hin Hr)
    as [[_ Hrow] | [Hlt' _]]; [ | lia].
  unfold getRowData. rewrite Hrow, Hid. split; [reflexivity | ].
  rewrite (geo_before _ this dataBlob sectionIds Hnd s _ Hin) by lia.
  rewrite Z.eqb_refl. lia.
Qed.



(** X23.  A jump requested while another jump is running, or to an id for
    which [hasSection] is false (no entry of [_lookup] and no property name
    of [Object.prototype]), changes nothing but the remembered section: the
    state, the latch and the jump flag are kept, nothing is asked of the
    host, and the request replaces any remembered one. *)
Theorem scrollToSectionBuffered_deferred (cell : Type)
    (this : ListView.Component cell) (sid : string) :
  ListView.isScrollingToSection this = true \/
  hasSection (ListView.dataSource (ListView.props this)) sid = false ->
  exists this',
    ListView.scrollToSectionBuffered this sid = Return (this', []) /\
    ListView.nextSectionToScrollTo this' = Some sid /\
    ListView.state this' = ListView.state this /\
    ListView.isScrollingToSection this' = ListView.isScrollingToSection this /\
    ListView.willComputeRowsToRender this' = ListView.willComputeRowsToRender this.
Proof.
  intros H. unfold ListView.scrollToSectionBuffered.
  assert (E : negb (ListView.isScrollingToSection this)
              && hasSection (ListView.dataSource (ListView.props this)) sid = false).
  { destruct H as [-> | ->]; [reflexivity | apply andb_false_r]. }
  rewrite E. eexists. split; [reflexivity | ]. cbn. auto.
Qed.

Lemma scrollToSectionBuffered_deferred_witness :
  exists this',
    ListView.scrollToSectionBuffered exampleComponent "Z" = Return (this', []) /\
    ListView.nextSectionToScrollTo this' = Some "Z" /\
    ListView.state this' = ListView.state exampleComponent /\
    ListView.isScrollingToSection this' = false /\
    ListView.willComputeRowsToRender this' = false.
Proof.
  apply (scrollToSectionBuffered_deferred string exampleComponent "Z").
  right. reflexivity.
Defined.

(** On an idle component, a jump to a property name of [Object.prototype]
    that is no section passes the [hasSection] test and raises the
    [TypeError] of [getFirstRowOfSection]. *)
Lemma scrollToSectionBuffered_inherited_name (cell : Type)
    (this : ListView.Component cell) (sid : string) :
  ListView.isScrollingToSection this = false ->
  Obj.inheritedKey sid = true ->
  Obj.get (_lookup (ListView.dataSource (ListView.props this))) sid = None ->
  hasSection (ListView.dataSource (ListView.props this)) sid = true /\
  throws (ListView.scrollToSectionBuffered this sid).
Proof.
  intros Hidle Hinh Hget.
  assert (Hhas : hasSection (ListView.dataSource (ListView.props this)) sid = true)
    by (unfold hasSection; rewrite Hget; exact Hinh).
  split; [exact Hhas | ].
  unfold ListView.scrollToSectionBuffered, throws.
  rewrite Hidle, Hhas. cbn [negb andb].
  unfold getFirstRowOfSection. rewrite Hget, Hinh. cbn [bind]. eexists. reflexivity.
Qed.

(** X24.  Scroll events are coalesced: the first event on a component with
    nothing pending sets one timer of [incrementDelay]; a second event
    before the timer fires sets no timer and clears none, yet the component
    records its offset and viewport height, and the direction is [down]
    exactly when the offset did not decrease. *)
Theorem onScroll_coalesces (cell : Type) (host : Scheduling.HostProps)
    (windowHeight : Z) (this : ListView.Component cell)
    (e1 e2 : Scheduling.ScrollEvent) :
  ListView.willComputeRowsToRender this = false ->
  Scheduling.onEndReached host = false ->
  exists c1 c2,
    Scheduling.__onScroll host windowHeight this e1
      = (c1, [Scheduling.ClearTimeout;
              Scheduling.SetTimeout (ListView.incrementDelay (ListView.props this))]) /\
    Scheduling.__onScroll host windowHeight c1 e2 = (c2, []) /\
    ListView.willComputeRowsToRender c2 = true /\
    ListView.scrollOffsetY c2 = Scheduling.contentOffsetY e2 /\
    ListView.height c2 = Scheduling.layoutMeasurementHeight e2 /\
    ListView.scrollDirection c2
      = (if Scheduling.contentOffsetY e1 <=? Scheduling.contentOffsetY e2
         then down else up) /\
    ListView.state c2 = ListView.state this.
Proof.
  intros Hlatch Hend.
  unfold Scheduling.__onScroll, Scheduling.__enqueueComputeRowsToRender.
  cbn [ListView.willComputeRowsToRender ListView.props ListView.scrollOffsetY].
  rewrite Hlatch, Hend. cbn [negb andb fst snd app].
  eexists. eexists. split; [reflexivity | ].
  cbn [Scheduling.withLatch ListView.willComputeRowsToRender ListView.props
       ListView.scrollOffsetY negb fst snd app].
  split; [reflexivity | ]. cbn.
  repeat split.
  unfold Scheduling.__getScrollDirection.
  destruct (Z.leb_spec (Scheduling.contentOffsetY e1) (Scheduling.contentOffsetY e2));
    destruct (Z.geb_spec (Scheduling.contentOffsetY e2 - Scheduling.contentOffsetY e1) 0);
    (reflexivity || lia).
Qed.

Lemma onScroll_coalesces_witness :
  exists c1 c2,
    Scheduling.__onScroll plainHost 600 exampleComponent
      {| Scheduling.contentOffsetY := 100;
         Scheduling.layoutMeasurementHeight := 120;
         Scheduling.contentSizeHeight := 290 |}
      = (c1, [Scheduling.ClearTimeout; Scheduling.SetTimeout 17]) /\
    Scheduling.__onScroll plainHost 600 c1
      {| Scheduling.contentOffsetY := 60;
         Scheduling.layoutMeasurementHeight := 120;
         Scheduling.contentSizeHeight := 290 |} = (c2, []) /\
    ListView.scrollOffsetY c2 = 60 /\
    ListView.scrollDirection c2 = up.
Proof.
  destruct (onScroll_coalesces string plainHost 600 exampleComponent
              {| Scheduling.contentOffsetY := 100;
                 Scheduling.layoutMeasurementHeight := 120;
                 Scheduling.contentSizeHeight := 290 |}
              {| Scheduling.contentOffsetY := 60;
                 Scheduling.layoutMeasurementHeight := 120;
                 Scheduling.contentSizeHeight := 290 |} eq_refl eq_refl)
    as [c1 [c2 [H1 [H2 [_ [H3 [_ [H4 _]]]]]]]].
  exists c1, c2. split; [exact H1 | ]. split; [exact H2 | ].
  split; [exact H3 | exact H4].
Defined.

(** * Spacers *)

Lemma find_all_false {A : Type} (f : A -> bool) (l : list A) :
  (forall x, In x l -> f x = false) -> find f l = None.
Proof.
  induction l as [ | x l IH]; intros H; [reflexivity | ].
  cbn. rewrite (H x) by (left; reflexivity).
  apply IH. intros y Hy. apply H. right. exact Hy.
Qed.

Lemma getHeightAfterRow_no_throw (cell : Type) {payload : Payload cell}
    (this : FixedHeightListViewDataSource cell)
    (dataBlob : list (string * list cell)) (sectionIds : option (list string))
    (i : Z) :
  NoDup (effectiveSectionIds dataBlob sectionIds) ->
  plainCells dataBlob = true ->
  forall e,
    getHeightAfterRow (cloneWithCellsAndSections this dataBlob sectionIds) i
    <> Throw e.
Proof.
  intros Hnd Hplain e. unfold getHeightAfterRow, getRowHeight.
  destruct (headerSectionId _) as [sid | ] eqn:Hhead.
  - pose proof (headerSectionId_built this dataBlob sectionIds i sid Hplain Hhead)
      as Hin.
    rewrite built_dataSource in Hin. apply header_row_present in Hin.
    destruct (geo_get _ this dataBlob sectionIds Hnd sid Hin) as [s [Hs _]].
    unfold getSectionHeaderHeight. rewrite Hs. cbn [bind]. discriminate.
  - cbn [bind]. destruct (getCellHeight _ i); discriminate.
Qed.

Lemma getHeightAfterRow_outside (cell : Type) {payload : Payload cell}
    (this : FixedHeightListViewDataSource cell)
    (dataBlob : list (string * list cell)) (sectionIds : option (list string))
    (i : Z) :
  NoDup (effectiveSectionIds dataBlob sectionIds) ->
  ~ 0 <= i < getRowCount (cloneWithCellsAndSections this dataBlob sectionIds) ->
  getHeightAfterRow (cloneWithCellsAndSections this dataBlob sectionIds) i = NotFinite.
Proof.
  intros Hnd Hi. unfold getHeightAfterRow, getRowHeight.
  rewrite arrayGet_outside by exact Hi. cbn [headerSectionId bind].
  unfold getCellHeight, getParentSection.
  rewrite find_all_false; [reflexivity | ].
  intros s Hin. apply (proj1 (ObjOrder.values_in _ _)) in Hin.
  destruct (geo_range _ this dataBlob sectionIds Hnd s Hin) as [H0 [Hl [Hc Hlt]]].
  apply andb_false_iff.
  destruct (Z.geb_spec i (fst (range s))); [right | left; reflexivity].
  apply Z.leb_gt. lia.
Qed.



(** X26.  During a jump the buffer window is laid out at its true offset
    (no section id being a property name of [Object.prototype], and no
    cell carrying a truthy [sectionId] property).  When the buffer lies
    before the rendered window, the top spacer is the offset of the first
    buffer row; when it lies after the rendered window, the top spacer,
    the rendered rows and the middle spacer add up to the offset of the
    first buffer row. *)
Theorem calculateSpacers_buffer_offset (cell : Type) {payload : Payload cell}
    (source : FixedHeightListViewDataSource cell)
    (dataBlob : list (string * list cell)) (sectionIds : option (list string))
    (this : ListView.Component cell) (bufferFirstRow bufferLastRow : Z) :
  NoDup (effectiveSectionIds dataBlob sectionIds) ->
  ownSectionIds (effectiveSectionIds dataBlob sectionIds) = true ->
  plainCells dataBlob = true ->
  ListView.dataSource (ListView.props this)
    = cloneWithCellsAndSections source dataBlob sectionIds ->
  ListView.bufferFirstRow (ListView.state this) = Some bufferFirstRow ->
  ListView.bufferLastRow (ListView.state this) = Some bufferLastRow ->
  (bufferFirstRow < ListView.firstRow (ListView.state this) \/
   ListView.lastRow (ListView.state this) < bufferFirstRow) ->
  exists spacers console mid,
    Scheduling.__calculateSpacers this = Return (spacers, console) /\
    Scheduling.spacerMidHeight spacers = Some mid /\
    (bufferFirstRow < ListView.firstRow (ListView.state this) ->
     Scheduling.spacerTopHeight spacers
     = getHeightBeforeRow (ListView.dataSource (ListView.props this)) bufferFirstRow) /\
    (ListView.firstRow (ListView.state this) <= bufferFirstRow ->
     Scheduling.spacerTopHeight spacers
     + (getHeightBeforeRow (ListView.dataSource (ListView.props this))
          (ListView.lastRow (ListView.state this) + 1)
        - getHeightBeforeRow (ListView.dataSource (ListView.props this))
            (ListView.firstRow (ListView.state this)))
     + mid
     = getHeightBeforeRow (ListView.dataSource (ListView.props this)) bufferFirstRow).
Proof.
  intros Hnd _ Hplain Hds Hbf Hbl Hpos.
  unfold Scheduling.__calculateSpacers. rewrite Hbf, Hbl. cbn [Scheduling.nullAsZero].
  pose proof (getHeightAfterRow_no_throw cell source dataBlob sectionIds
                (ListView.lastRow (ListView.state this)) Hnd Hplain) as Hno.
  rewrite <- Hds in Hno.
  destruct (getHeightAfterRow _ _) as [h | | e]; [ | | exfalso; apply (Hno e); reflexivity].
  - destruct (Z.ltb_spec bufferFirstRow (ListView.firstRow (ListView.state this))).
    + unfold getHeightBetweenRows. cbn [fst snd bind].
      eexists. eexists. eexists. split; [reflexivity | ].
      cbn [Scheduling.spacerMidHeight Scheduling.spacerTopHeight].
      split; [reflexivity | ]. split; intros; [ | lia].
      replace (bufferFirstRow - 1 + 1) with bufferFirstRow by lia. lia.
    + destruct (Z.gtb_spec bufferFirstRow (ListView.lastRow (ListView.state this)));
        [ | lia].
      unfold getHeightBetweenRows. cbn [fst snd bind].
      eexists. eexists. eexists. split; [reflexivity | ].
      cbn [Scheduling.spacerMidHeight Scheduling.spacerTopHeight].
      split; [reflexivity | ]. split; intros; lia.
  - destruct (Z.ltb_spec bufferFirstRow (ListView.firstRow (ListView.state this))).
    + unfold getHeightBetweenRows. cbn [fst snd bind].
      eexists. eexists. eexists. split; [reflexivity | ].
      cbn [Scheduling.spacerMidHeight Scheduling.spacerTopHeight].
      split; [reflexivity | ]. split; intros; [ | lia].
      replace (bufferFirstRow - 1 + 1) with bufferFirstRow by lia. lia.
    + destruct (Z.gtb_spec bufferFirstRow (ListView.lastRow (ListView.state this)));
        [ | lia].
      unfold getHeightBetweenRows. cbn [fst snd bind].
      eexists. eexists. eexists. split; [reflexivity | ].
      cbn [Scheduling.spacerMidHeight Scheduling.spacerTopHeight].
      split; [reflexivity | ]. split; intros; lia.
Qed.

(** X27.  When the last rendered row is not a row of the list, as for the
    empty window [0,-1] of an empty list, the bottom spacer height is
    [NaN]. *)
Theorem calculateSpacers_bottom_not_a_number (cell : Type)
    {payload : Payload cell}
    (source : FixedHeightListViewDataSource cell)
    (dataBlob : list (string * list cell)) (sectionIds : option (list string))
    (this : ListView.Component cell) :
  NoDup (effectiveSectionIds dataBlob sectionIds) ->
  ListView.dataSource (ListView.props this)
    = cloneWithCellsAndSections source dataBlob sectionIds ->
  ~ 0 <= ListView.lastRow (ListView.state this)
       < getRowCount (ListView.dataSource (ListView.props this)) ->
  exists spacers console,
    Scheduling.__calculateSpacers this = Return (spacers, console) /\
    Scheduling.spacerBottomHeight spacers = None.
Proof.
  intros Hnd Hds Hlast. rewrite Hds in Hlast.
  unfold Scheduling.__calculateSpacers. rewrite Hds.
  rewrite getHeightAfterRow_outside by assumption.
  destruct (ListView.bufferFirstRow (ListView.state this)) as [bf | ].
  - destruct (bf <? _).
    + unfold getHeightBetweenRows. cbn [fst snd bind].
      eexists. eexists. split; reflexivity.
    + destruct (bf >? _).
      * unfold getHeightBetweenRows. cbn [fst snd bind].
        eexists. eexists. split; reflexivity.
      * eexists. eexists. split; reflexivity.
  - eexists. eexists. split; reflexivity.
Qed.

Lemma calculateSpacers_buffer_offset_witness :
  exists spacers console mid,
    Scheduling.__calculateSpacers jumpingComponent = Return (spacers, console) /\
    Scheduling.spacerMidHeight spacers = Some mid /\
    Scheduling.spacerTopHeight spacers
    + (getHeightBeforeRow exampleDataSource (1 + 1)
       - getHeightBeforeRow exampleDataSource 0)
    + mid
    = getHeightBeforeRow exampleDataSource 4.
Proof.
  destruct (calculateSpacers_buffer_offset string
              (newDataSource string (fun _ => 20) (fun _ => 50)) exampleBlob None
              jumpingComponent 4 5 exampleBlob_distinct eq_refl
              exampleBlob_plain eq_refl eq_refl eq_refl)
    as [spacers [console [mid [H1 [H2 [_ H3]]]]]].
  - right. cbn. lia.
  - exists spacers, console, mid. split; [exact H1 | ]. split; [exact H2 | ].
    apply H3. cbn. lia.
Defined.

Lemma calculateSpacers_bottom_not_a_number_witness :
  exists spacers console,
    Scheduling.__calculateSpacers emptyComponent = Return (spacers, console) /\
    Scheduling.spacerBottomHeight spacers = None.
Proof.
  apply (calculateSpacers_bottom_not_a_number string
           (newDataSource string (fun _ => 20) (fun _ => 50)) [] None emptyComponent).
  - constructor.
  - reflexivity.
  - vm_compute. intros [H _]. apply H. reflexivity.
Defined.

(** * Monotone row lookup *)









(** * A whole jump *)

(** X29.  A jump runs to completion: from an idle component with no
    remembered section, a jump to a section of the blob sets the buffer,
    its callback moves the main window onto the buffer and clears the
    buffer, and the 100 ms timer ends the jump with one recompute enqueued.
    The final window lies inside the list and contains the header row of
    the section; while the jump runs, a recompute changes nothing and only
    asks for an animation frame. *)
Theorem jump_completes (cell : Type)
    (source : FixedHeightListViewDataSource cell)
    (dataBlob : list (string * list cell)) (sectionIds : option (list string))
    (this : ListView.Component cell) (sid : string) :
  NoDup (effectiveSectionIds dataBlob sectionIds) ->
  In sid (presentSectionIds dataBlob sectionIds) ->
  ListView.dataSource (ListView.props this)
    = cloneWithCellsAndSections source dataBlob sectionIds ->
  ListView.isScrollingToSection this = false ->
  ListView.nextSectionToScrollTo this = None ->
  0 <= ListView.initialNumToRender (ListView.props this) ->
  exists c1 c2 c3 first last y row,
    ListView.scrollToSectionBuffered this sid =
      Return (c1, [ListView.ClearTimeout; ListView.WhenCommitted first last;
                   ListView.ScrollTo y false]) /\
    Jump.whenCommitted c1 first last = (c2, [Scheduling.SetTimeout 100]) /\
    Jump.settled c2
      = (c3, [Scheduling.ClearTimeout; Scheduling.ClearTimeout;
              Scheduling.SetTimeout (ListView.incrementDelay (ListView.props this))]) /\
    ListView.isScrollingToSection c3 = false /\
    ListView.willComputeRowsToRender c3 = true /\
    ListView.state c3
      = {| ListView.firstRow := first; ListView.lastRow := last;
           ListView.bufferFirstRow := None; ListView.bufferLastRow := None |} /\
    Scheduling.windowInList c3 /\
    getRowData (ListView.dataSource (ListView.props this)) row
      = Return (Some (SectionHeaderRow sid)) /\
    first <= row <= last /\
    (forall host props forceUpdate,
       Scheduling.__computeRowsToRenderSync host c1 props forceUpdate
         = Return (c1, [Scheduling.RequestAnimationFrame]) /\
       Scheduling.__computeRowsToRenderSync host c2 props forceUpdate
         = Return (c2, [Scheduling.RequestAnimationFrame])).
Proof.
  intros Hnd Hpres Hds Hidle Hnext Hinit.
  destruct (getFirstRowOfSection_present_core
              cell source dataBlob sectionIds sid Hnd Hpres)
    as [row [startY [Hfirst [Hrange [Hrow _]]]]].
  rewrite <- Hds in Hfirst, Hrange, Hrow.
  unfold ListView.scrollToSectionBuffered.
  rewrite Hidle, (hasSection_of_first_row _ _ _ _ Hfirst), Hfirst.
  cbn [negb andb bind fst snd].
  eexists. eexists. eexists. eexists. eexists. eexists. exists row.
  split; [reflexivity | ].
  unfold Jump.whenCommitted, Jump.settled, Scheduling.__clearEnqueuedComputation,
    Scheduling.__enqueueComputeRowsToRender, Scheduling.withLatch.
  cbn [ListView.nextSectionToScrollTo ListView.willComputeRowsToRender fst snd
       negb ListView.props ListView.state ListView.isScrollingToSection app].
  rewrite Hnext.
  split; [reflexivity | ]. split; [reflexivity | ].
  split; [reflexivity | ]. split; [reflexivity | ]. split; [reflexivity | ].
  set (init := ListView.initialNumToRender (ListView.props this)) in *.
  set (n := getRowCount (ListView.dataSource (ListView.props this))) in *.
  assert (Hwin :
    0 <= (if Z.min (n - 1) (row + init) - (n - 1) =? 0
          then Z.max 0 (Z.min (n - 1) (row + init) - init) else row) /\
    (if Z.min (n - 1) (row + init) - (n - 1) =? 0
     then Z.max 0 (Z.min (n - 1) (row + init) - init) else row) <= row /\
    row <= Z.min (n - 1) (row + init) /\
    Z.min (n - 1) (row + init) <= n - 1).
  { destruct (Z.eqb_spec (Z.min (n - 1) (row + init) - (n - 1)) 0); lia. }
  split.
  { unfold Scheduling.windowInList. cbn [ListView.state ListView.firstRow
      ListView.lastRow ListView.props]. fold n. lia. }
  split; [exact Hrow | ]. split; [lia | ].
  intros host props forceUpdate.
  unfold Scheduling.__computeRowsToRenderSync.
  cbn [ListView.isScrollingToSection]. rewrite !orb_true_r. split; reflexivity.
Qed.

Lemma jump_completes_witness :
  exists c1 c2 c3 first last y row,
    ListView.scrollToSectionBuffered exampleComponent "B" =
      Return (c1, [ListView.ClearTimeout; ListView.WhenCommitted first last;
                   ListView.ScrollTo y false]) /\
    Jump.whenCommitted c1 first last = (c2, [Scheduling.SetTimeout 100]) /\
    Jump.settled c2
      = (c3, [Scheduling.ClearTimeout; Scheduling.ClearTimeout;
              Scheduling.SetTimeout 17]) /\
    ListView.isScrollingToSection c3 = false /\
    Scheduling.windowInList c3 /\
    first <= row <= last.
Proof.
  destruct (jump_completes string
              (newDataSource string (fun _ => 20) (fun _ => 50)) exampleBlob None
              exampleComponent "B" exampleBlob_distinct)
    as [c1 [c2 [c3 [first [last [y [row [H1 [H2 [H3 [H4 [_ [_ [H5 [_ [H6 _]]]]]]]]]]]]]]]].
  - vm_compute. right. left. reflexivity.
  - reflexivity.
  - reflexivity.
  - reflexivity.
  - cbn. lia.
  - exists c1, c2, c3, first, last, y, row.
    split; [exact H1 | ]. split; [exact H2 | ]. split; [exact H3 | ].
    split; [exact H4 | ]. split; [exact H5 | exact H6].
Defined.

(** * AtoZList *)


